(** * Rayminder: the trackable engine, the scoring engine and the time utilities

    A shallow embedding of [src/lib/types.ts], [src/lib/storage.ts],
    [src/lib/time.ts] and [src/lib/score.ts], and the properties of the
    engine stated over it.

    Conventions of the embedding.
    - A timestamp is the number of milliseconds since the epoch, an integer
      ([Z]): the ISO strings the code stores are produced by
      [Date.prototype.toISOString] and read back with [new Date(iso)], which
      are inverse to each other on integer milliseconds.
    - The integer fields of the data model ([intervalMinutes],
      [targetRepetitionsPerDay], [expectedDurationMinutes],
      [durationSeconds], [minutes]) are [Z]; an argument that need not be
      whole before [Math.floor] or [Math.round] is an exact rational ([Q]).
    - [score.ts] is embedded twice. Module [Double] follows it in IEEE 754
      binary64 arithmetic, every quotient, product and sum rounded to the
      nearest double as the code computes them: the score formula and the
      agreement of the dashboard with the score are stated over it. The
      definitions outside the module are the same computation over exact
      rationals; the rounded values of the two can differ (a habit with 3
      of 10 repetitions and one postpone scores 28 in doubles and 29 in
      rationals). The bounds of the score and its values at the ends of
      the scale are stated over the rationals.
    - The four persisted collections are the fields of [Store]; every
      operation is a computation in the monad [M], which threads the store
      and keeps the writes made before an exception is thrown.
    - The readings of the clock ([new Date()], [Date.now()]) and the result
      of [uid()] are arguments of the operation that samples them. *)

From Stdlib Require Import ZArith QArith Qround Qminmax Lia.
From Stdlib Require Import SpecFloat.
From Stdlib Require Import Sorting.Sorted Sorting.Permutation.
From stdpp Require Import base option list strings gmap pretty.

Local Open Scope Z_scope.

(** ** Records of [types.ts] *)

(** The string literals ["habit"] and ["task"]. *)
Inductive TrackableType := type_habit | type_task.

Inductive Source := manual | timer.

Module Habit.
Record t := mk {
  id : string;
  name : string;
  type : TrackableType;
  intervalMinutes : Z;
  targetRepetitionsPerDay : Z;
  expectedDurationMinutes : option Z;
  notes : option string;
  createdAt : Z;
  dueAt : Z;
  lastCompletedAt : option Z;
  lastReminderAt : option Z;
  archived : bool
}.
End Habit.

Module TimerSession.
Record t := mk {
  id : string;
  habitId : string;
  startedAt : Z
}.
End TimerSession.

Module CompletionRecord.
Record t := mk {
  id : string;
  habitId : string;
  completedAt : Z;
  durationSeconds : Z;
  source : Source
}.
End CompletionRecord.

Module PostponeRecord.
Record t := mk {
  id : string;
  habitId : string;
  postponedAt : Z;
  minutes : Z
}.
End PostponeRecord.

Module HabitDraft.
Record t := mk {
  name : string;
  type : TrackableType;
  intervalMinutes : Z;
  targetRepetitionsPerDay : Z;
  expectedDurationMinutes : option Z;
  notes : option string
}.
End HabitDraft.

(** The optional argument of [completeHabit]. *)
Module CompleteOptions.
Record t := mk {
  durationSeconds : option Q;
  source : option Source
}.
Definition empty : t := mk None None.
End CompleteOptions.

(** ** The persisted state and the monad of the storage layer *)

Record Store := mkStore {
  habits : list Habit.t;
  sessions : list TimerSession.t;
  completions : list CompletionRecord.t;
  postpones : list PostponeRecord.t
}.

(** The two messages the storage layer throws: ["Habit not found"] and
    ["No active timer for this habit"]. *)
Inductive Error := NotFound | NoActiveTimer.

Inductive Result (A : Type) :=
| Ok (a : A)
| Throw (e : Error).
Arguments Ok {A} a.
Arguments Throw {A} e.

(** A computation returns a value or throws, and in both cases leaves a
    store behind. *)
Definition M (A : Type) : Type := Store -> Result A * Store.

Definition ret {A} (a : A) : M A := fun s => (Ok a, s).

Definition throw {A} (e : Error) : M A := fun s => (Throw e, s).

Definition bind {A B} (m : M A) (k : A -> M B) : M B :=
  fun s =>
    match m s with
    | (Ok a, s') => k a s'
    | (Throw e, s') => (Throw e, s')
    end.

Notation "x <- m ;; k" := (bind m (fun x => k))
  (at level 100, m at next level, right associativity).
Notation "m ;;; k" := (bind m (fun _ => k))
  (at level 100, right associativity).

(** The storage keys, indexed by the type of the records kept under them. *)
Inductive Key : Type -> Type :=
| HABITS_KEY : Key Habit.t
| SESSIONS_KEY : Key TimerSession.t
| COMPLETIONS_KEY : Key CompletionRecord.t
| POSTPONES_KEY : Key PostponeRecord.t.

Definition readCollection {T} (key : Key T) : M (list T) :=
  fun s =>
    (Ok (match key in Key T return list T with
         | HABITS_KEY => habits s
         | SESSIONS_KEY => sessions s
         | COMPLETIONS_KEY => completions s
         | POSTPONES_KEY => postpones s
         end), s).

Definition writeCollection {T} (key : Key T) : list T -> M unit :=
  match key in Key T return list T -> M unit with
  | HABITS_KEY => fun data s =>
      (Ok tt, mkStore data (sessions s) (completions s) (postpones s))
  | SESSIONS_KEY => fun data s =>
      (Ok tt, mkStore (habits s) data (completions s) (postpones s))
  | COMPLETIONS_KEY => fun data s =>
      (Ok tt, mkStore (habits s) (sessions s) data (postpones s))
  | POSTPONES_KEY => fun data s =>
      (Ok tt, mkStore (habits s) (sessions s) (completions s) data)
  end.

(** ** Array helpers *)

(** [Array.prototype.findIndex]; [None] stands for [-1]. An index it
    returns is within the array, so the read [habits !! index] that follows
    it in the operations below always finds an element
    ([findIndex_Some]); the [None] branch of that read is never taken. *)
Fixpoint findIndex {A} (p : A -> bool) (l : list A) : option nat :=
  match l with
  | [] => None
  | x :: l' => if p x then Some 0%nat else S <$> findIndex p l'
  end.

(** [Array.prototype.find]; [None] stands for [undefined]. *)
Fixpoint find {A} (p : A -> bool) (l : list A) : option A :=
  match l with
  | [] => None
  | x :: l' => if p x then Some x else find p l'
  end.

(** [Array.prototype.filter] with a boolean callback. *)
Fixpoint filterb {A} (p : A -> bool) (l : list A) : list A :=
  match l with
  | [] => []
  | x :: l' => if p x then x :: filterb p l' else filterb p l'
  end.

(** [Array.prototype.push] of one element. *)
Definition push {A} (l : list A) (x : A) : list A := l ++ [x].

(** [Array.prototype.sort(cmp)]: the sort is stable, and for a comparator
    that is a total preorder its result is the one of any stable sort;
    insertion from the right is one. *)
Fixpoint sort_insert {A} (cmp : A -> A -> Z) (x : A) (l : list A) : list A :=
  match l with
  | [] => [x]
  | y :: l' => if cmp x y <=? 0 then x :: y :: l' else y :: sort_insert cmp x l'
  end.

Fixpoint sort {A} (cmp : A -> A -> Z) (l : list A) : list A :=
  match l with
  | [] => []
  | x :: l' => sort_insert cmp x (sort cmp l')
  end.

(** ** [time.ts] *)

(** [Math.floor] on a rational. *)
Definition Math_floor (q : Q) : Z := Qfloor q.

(** [Math.round]: the nearest integer, halves rounded towards +infinity. *)
Definition Math_round (q : Q) : Z := Qfloor (q + (1 # 2))%Q.

Definition minutesBetween (startMs endMs : Z) : Z :=
  Z.max 0 (Math_floor (inject_Z (endMs - startMs) / 60000)%Q).

Definition secondsBetween (startMs endMs : Z) : Z :=
  Z.max 0 (Math_floor (inject_Z (endMs - startMs) / 1000)%Q).

(** The decimal numeral a template literal prints for an integer. *)
Definition num (z : Z) : string := pretty z.

Definition formatRelativeDue (dueAt now : Z) : string :=
  let diffMs := dueAt - now in
  let absMinutes := Z.abs (Math_round (inject_Z diffMs / 60000)%Q) in
  if absMinutes <? 1 then "now"
  else
    let hours := Math_floor (inject_Z absMinutes / 60)%Q in
    let minutes := absMinutes mod 60 in
    let label :=
      if 0 <? hours then num hours +:+ "h " +:+ num minutes +:+ "m"
      else num minutes +:+ "m" in
    if diffMs <? 0 then label +:+ " overdue" else "in " +:+ label.

(** ** [storage.ts] *)

Definition by_dueAt (a b : Habit.t) : Z := Habit.dueAt a - Habit.dueAt b.

Definition listHabits (includeArchived : bool) : M (list Habit.t) :=
  habits <- readCollection HABITS_KEY ;;
  let filtered :=
    if includeArchived then habits
    else filterb (fun habit => negb (Habit.archived habit)) habits in
  ret (sort by_dueAt filtered).

Definition getHabit (habitId : string) : M (option Habit.t) :=
  habits <- readCollection HABITS_KEY ;;
  ret (find (fun habit => String.eqb (Habit.id habit) habitId) habits).

(** [if (existingId)]: [undefined] and the empty string are falsy. *)
Definition truthy (existingId : option string) : option string :=
  match existingId with
  | Some EmptyString => None
  | other => other
  end.

(** [upsertHabit]. [now] is the reading of [new Date()] on entry, [now']
    the later reading of [Date.now()] that sets [dueAt], [newId] the result
    of [uid()]. *)
Definition upsertHabit (now now' : Z) (newId : string)
    (draft : HabitDraft.t) (existingId : option string) : M Habit.t :=
  habits <- readCollection HABITS_KEY ;;
  match truthy existingId with
  | Some existing =>
      match findIndex (fun habit => String.eqb (Habit.id habit) existing) habits with
      | None => throw NotFound
      | Some index =>
          match habits !! index with
          | None => throw NotFound
          | Some previous =>
              let next :=
                Habit.mk (Habit.id previous)
                  (HabitDraft.name draft)
                  (HabitDraft.type draft)
                  (HabitDraft.intervalMinutes draft)
                  (HabitDraft.targetRepetitionsPerDay draft)
                  (HabitDraft.expectedDurationMinutes draft)
                  (HabitDraft.notes draft)
                  (Habit.createdAt previous)
                  (Habit.dueAt previous)
                  (Habit.lastCompletedAt previous)
                  (Habit.lastReminderAt previous)
                  (Habit.archived previous) in
              writeCollection HABITS_KEY (<[index := next]> habits) ;;;
              ret next
          end
      end
  | None =>
      let habit :=
        Habit.mk newId
          (HabitDraft.name draft)
          (HabitDraft.type draft)
          (HabitDraft.intervalMinutes draft)
          (HabitDraft.targetRepetitionsPerDay draft)
          (HabitDraft.expectedDurationMinutes draft)
          (HabitDraft.notes draft)
          now
          (now' + HabitDraft.intervalMinutes draft * 60000)
          None
          None
          false in
      writeCollection HABITS_KEY (push habits habit) ;;;
      ret habit
  end.

Definition archiveHabit (habitId : string) : M unit :=
  habits <- readCollection HABITS_KEY ;;
  sessions <- readCollection SESSIONS_KEY ;;
  let updated :=
    map (fun habit =>
           if String.eqb (Habit.id habit) habitId
           then Habit.mk (Habit.id habit) (Habit.name habit) (Habit.type habit)
                  (Habit.intervalMinutes habit)
                  (Habit.targetRepetitionsPerDay habit)
                  (Habit.expectedDurationMinutes habit) (Habit.notes habit)
                  (Habit.createdAt habit) (Habit.dueAt habit)
                  (Habit.lastCompletedAt habit) (Habit.lastReminderAt habit)
                  true
           else habit) habits in
  let activeSessions :=
    filterb (fun session => negb (String.eqb (TimerSession.habitId session) habitId))
      sessions in
  writeCollection HABITS_KEY updated ;;;
  writeCollection SESSIONS_KEY activeSessions.

Definition listSessions : M (list TimerSession.t) := readCollection SESSIONS_KEY.

Definition listCompletions : M (list CompletionRecord.t) :=
  readCollection COMPLETIONS_KEY.

Definition listPostpones : M (list PostponeRecord.t) := readCollection POSTPONES_KEY.

(** [startHabitTimer]. [now] is the reading of [new Date()], [newId] the
    result of [uid()]; neither is sampled when a session exists. *)
Definition startHabitTimer (now : Z) (newId : string) (habitId : string)
    : M TimerSession.t :=
  sessions <- readCollection SESSIONS_KEY ;;
  match find (fun session => String.eqb (TimerSession.habitId session) habitId) sessions with
  | Some existing => ret existing
  | None =>
      let session := TimerSession.mk newId habitId now in
      writeCollection SESSIONS_KEY (push sessions session) ;;;
      ret session
  end.

(** [completeHabit]. [now] is the reading of [new Date()], [newId] the
    result of [uid()]. *)
Definition completeHabit (now : Z) (newId : string) (habitId : string)
    (options : CompleteOptions.t) : M CompletionRecord.t :=
  habits <- readCollection HABITS_KEY ;;
  sessions <- readCollection SESSIONS_KEY ;;
  completions <- readCollection COMPLETIONS_KEY ;;
  match findIndex (fun habit => String.eqb (Habit.id habit) habitId) habits with
  | None => throw NotFound
  | Some index =>
      match habits !! index with
      | None => throw NotFound
      | Some habit =>
          let completion :=
            CompletionRecord.mk newId habitId now
              (Z.max 0 (Math_floor (default 0%Q (CompleteOptions.durationSeconds options))))
              (default manual (CompleteOptions.source options)) in
          let completions := push completions completion in
          let habits :=
            <[index :=
                Habit.mk (Habit.id habit) (Habit.name habit) (Habit.type habit)
                  (Habit.intervalMinutes habit)
                  (Habit.targetRepetitionsPerDay habit)
                  (Habit.expectedDurationMinutes habit) (Habit.notes habit)
                  (Habit.createdAt habit)
                  (now + Habit.intervalMinutes habit * 60000)
                  (Some (CompletionRecord.completedAt completion))
                  None
                  (Habit.archived habit)]> habits in
          let remainingSessions :=
            filterb (fun session =>
                       negb (String.eqb (TimerSession.habitId session) habitId))
              sessions in
          writeCollection COMPLETIONS_KEY completions ;;;
          writeCollection HABITS_KEY habits ;;;
          writeCollection SESSIONS_KEY remainingSessions ;;;
          ret completion
      end
  end.

(** [stopHabitTimer]. [now] is the reading of [new Date()] that ends the
    measured interval; [now'] and [newId] are the clock reading and the
    identifier the nested [completeHabit] samples. *)
Definition stopHabitTimer (now now' : Z) (newId : string) (habitId : string)
    : M CompletionRecord.t :=
  sessions <- readCollection SESSIONS_KEY ;;
  match find (fun entry => String.eqb (TimerSession.habitId entry) habitId) sessions with
  | None => throw NoActiveTimer
  | Some session =>
      let remaining :=
        filterb (fun entry =>
                   negb (String.eqb (TimerSession.id entry) (TimerSession.id session)))
          sessions in
      writeCollection SESSIONS_KEY remaining ;;;
      completeHabit now' newId habitId
        (CompleteOptions.mk
           (Some (inject_Z (secondsBetween (TimerSession.startedAt session) now)))
           (Some timer))
  end.

(** [postponeHabit]. [now] is the reading of [new Date()], [newId] the
    result of [uid()]. *)
Definition postponeHabit (now : Z) (newId : string) (habitId : string)
    (minutes : Q) : M Habit.t :=
  let safeMinutes := Z.max 1 (Math_floor minutes) in
  habits <- readCollection HABITS_KEY ;;
  postpones <- readCollection POSTPONES_KEY ;;
  match findIndex (fun habit => String.eqb (Habit.id habit) habitId) habits with
  | None => throw NotFound
  | Some index =>
      match habits !! index with
      | None => throw NotFound
      | Some current =>
          let currentDue := Habit.dueAt current in
          let baseTime := if now <? currentDue then currentDue else now in
          let nextDueAt := baseTime + safeMinutes * 60000 in
          let postponed := PostponeRecord.mk newId habitId now safeMinutes in
          let postpones := push postpones postponed in
          let updated :=
            Habit.mk (Habit.id current) (Habit.name current) (Habit.type current)
              (Habit.intervalMinutes current)
              (Habit.targetRepetitionsPerDay current)
              (Habit.expectedDurationMinutes current) (Habit.notes current)
              (Habit.createdAt current)
              nextDueAt
              (Habit.lastCompletedAt current)
              None
              (Habit.archived current) in
          writeCollection HABITS_KEY (<[index := updated]> habits) ;;;
          writeCollection POSTPONES_KEY postpones ;;;
          ret updated
      end
  end.

Definition setHabitLastReminder (habitId : string) (atIso : Z) : M unit :=
  habits <- readCollection HABITS_KEY ;;
  match findIndex (fun habit => String.eqb (Habit.id habit) habitId) habits with
  | None => ret tt
  | Some index =>
      match habits !! index with
      | None => ret tt
      | Some h =>
          writeCollection HABITS_KEY
            (<[index :=
                 Habit.mk (Habit.id h) (Habit.name h) (Habit.type h)
                   (Habit.intervalMinutes h) (Habit.targetRepetitionsPerDay h)
                   (Habit.expectedDurationMinutes h) (Habit.notes h)
                   (Habit.createdAt h) (Habit.dueAt h)
                   (Habit.lastCompletedAt h) (Some atIso)
                   (Habit.archived h)]> habits)
      end
  end.

(** ** [score.ts] over exact rationals

    The computation of [score.ts] with every quotient, product and sum
    exact. The code computes them in doubles, as module [Double] below
    does. *)

Module DailyScoreHabitBreakdown.
Record t := mk {
  habitId : string;
  name : string;
  repetitions : Z;
  repetitionTarget : Z;
  repetitionProgress : Q;
  durationMinutes : Q;
  durationTargetMinutes : Z;
  durationProgress : Q;
  postpones : Z;
  isOverdue : bool;
  score : Z
}.
End DailyScoreHabitBreakdown.

Module DailyScore.
Record t := mk {
  score : Z;
  grade : string;
  completedCount : Z;
  totalTrackedMinutes : Z;
  dueNowCount : Z;
  breakdown : list DailyScoreHabitBreakdown.t
}.
End DailyScore.

(** [clamp(value, min = 0, max = 1)]. *)
Definition clamp (value min max : Q) : Q := Qmax min (Qmin max value).

Definition gradeFromScore (score : Z) : string :=
  if 95 <=? score then "S"
  else if 90 <=? score then "A+"
  else if 80 <=? score then "A"
  else if 70 <=? score then "B"
  else if 60 <=? score then "C"
  else "D".

(** [Map.prototype.get(key) ?? 0] on a map of counters. *)
Definition getZ (m : gmap string Z) (key : string) : Z := default 0 (m !! key).

(** [Map.prototype.get(key) ?? 0] on a map of durations. *)
Definition getQ (m : gmap string Q) (key : string) : Q := default 0%Q (m !! key).

Definition habitScoreBreakdown (habit : Habit.t) (now : Z)
    (completions : gmap string Z) (duration : gmap string Q)
    (postpones : gmap string Z) : DailyScoreHabitBreakdown.t :=
  let repetitionTarget := Z.max 1 (Habit.targetRepetitionsPerDay habit) in
  let repetitions := getZ completions (Habit.id habit) in
  let repetitionProgress :=
    clamp (inject_Z repetitions / inject_Z repetitionTarget) 0 1 in
  let durationMinutes := getQ duration (Habit.id habit) in
  let durationTargetMinutes :=
    match Habit.expectedDurationMinutes habit with
    | Some expected =>
        if expected =? 0 then 0 else expected * repetitionTarget
    | None => 0
    end in
  let durationProgress :=
    if 0 <? durationTargetMinutes
    then clamp (durationMinutes / inject_Z durationTargetMinutes) 0 1
    else repetitionProgress in
  let postponeCount := getZ postpones (Habit.id habit) in
  let isOverdue := Habit.dueAt habit <? now in
  let overdueMinutes :=
    if isOverdue
    then Qmax 0 (inject_Z (now - Habit.dueAt habit) / 60000)
    else 0%Q in
  let postponePenalty := Qmin 0.2 (inject_Z postponeCount * 0.05) in
  let overduePenalty :=
    Qmin 0.25
      (overdueMinutes / inject_Z (Z.max 1 (Habit.intervalMinutes habit)) * 0.15) in
  let rawProgress := (repetitionProgress * 0.65 + durationProgress * 0.35)%Q in
  let score :=
    Math_round
      (clamp (rawProgress * (1 - postponePenalty - overduePenalty)) 0 1 * 100) in
  DailyScoreHabitBreakdown.mk (Habit.id habit) (Habit.name habit)
    repetitions repetitionTarget repetitionProgress
    durationMinutes durationTargetMinutes durationProgress
    postponeCount isOverdue score.

(** The window test of [computeDailyScore]: [dayStart <= t <= now]. *)
Definition inDay (dayStart now t : Z) : bool := (dayStart <=? t) && (t <=? now).

(** One turn of the loop over today's completions: both maps are updated. *)
Definition tallyCompletion (acc : gmap string Z * gmap string Q)
    (completion : CompletionRecord.t) : gmap string Z * gmap string Q :=
  let (repetitionsByHabit, durationByHabit) := acc in
  let key := CompletionRecord.habitId completion in
  (<[key := getZ repetitionsByHabit key + 1]> repetitionsByHabit,
   <[key := (getQ durationByHabit key
             + inject_Z (CompletionRecord.durationSeconds completion) / 60)%Q]>
     durationByHabit).

(** One turn of the loop over today's postpones. *)
Definition tallyPostpone (postponesByHabit : gmap string Z)
    (postpone : PostponeRecord.t) : gmap string Z :=
  let key := PostponeRecord.habitId postpone in
  <[key := getZ postponesByHabit key + 1]> postponesByHabit.

(** [computeDailyScore(now)]. [dayStart] is [startOfDay(now).getTime()],
    the local midnight before [now], which depends on the time zone of the
    host. *)
Definition computeDailyScore (dayStart now : Z) : M DailyScore.t :=
  habits <- listHabits false ;;
  completionRecords <- listCompletions ;;
  postponeRecords <- listPostpones ;;
  let todayCompletions :=
    filterb (fun entry => inDay dayStart now (CompletionRecord.completedAt entry))
      completionRecords in
  let todayPostpones :=
    filterb (fun entry => inDay dayStart now (PostponeRecord.postponedAt entry))
      postponeRecords in
  let '(repetitionsByHabit, durationByHabit) :=
    fold_left tallyCompletion todayCompletions (∅, ∅) in
  let postponesByHabit := fold_left tallyPostpone todayPostpones ∅ in
  let breakdown :=
    map (fun habit =>
           habitScoreBreakdown habit now repetitionsByHabit durationByHabit
             postponesByHabit) habits in
  let average :=
    if (length breakdown =? 0)%nat then 100
    else
      Math_round
        (inject_Z
           (fold_left (fun total item => total + DailyScoreHabitBreakdown.score item)
              breakdown 0)
         / inject_Z (Z.of_nat (length breakdown))) in
  let completedCount := Z.of_nat (length todayCompletions) in
  let totalTrackedMinutes :=
    Math_round
      (fold_left
         (fun total item =>
            (total + inject_Z (CompletionRecord.durationSeconds item) / 60)%Q)
         todayCompletions 0%Q) in
  let dueNowCount :=
    Z.of_nat (length (filterb (fun habit => Habit.dueAt habit <=? now) habits)) in
  ret (DailyScore.mk average (gradeFromScore average) completedCount
         totalTrackedMinutes dueNowCount breakdown).

(** ** The totals of a day

    The quantities the score formula of the specification is worded over:
    the day's totals of one habit. *)
Module Spec.

(** The number of today's completions of the habit. *)
Definition todayCompletions (dayStart now : Z) (habitId : string)
    (records : list CompletionRecord.t) : Z :=
  Z.of_nat
    (length
       (filterb (fun c => inDay dayStart now (CompletionRecord.completedAt c)
                          && String.eqb (CompletionRecord.habitId c) habitId)
          records)).

(** The sum of today's completion durations of the habit, in minutes. *)
Definition todayDurationMinutes (dayStart now : Z) (habitId : string)
    (records : list CompletionRecord.t) : Q :=
  fold_left (fun total c => (total + inject_Z (CompletionRecord.durationSeconds c) / 60)%Q)
    (filterb (fun c => inDay dayStart now (CompletionRecord.completedAt c)
                       && String.eqb (CompletionRecord.habitId c) habitId)
       records)
    0%Q.

(** The number of today's postpones of the habit. *)
Definition todayPostpones (dayStart now : Z) (habitId : string)
    (records : list PostponeRecord.t) : Z :=
  Z.of_nat
    (length
       (filterb (fun p => inDay dayStart now (PostponeRecord.postponedAt p)
                          && String.eqb (PostponeRecord.habitId p) habitId)
          records)).

End Spec.

(** The non-archived habits in the order [listHabits(false)] returns them. *)
Definition activeHabits (s : Store) : list Habit.t :=
  sort by_dueAt (filterb (fun habit => negb (Habit.archived habit)) (habits s)).

(** ** [score.ts] in double precision

    The numbers of [score.ts] are IEEE 754 binary64 values, and its ratios,
    products and sums are rounded to the nearest double at every step. The
    definitions of this module follow [score.ts] operation by operation
    over [spec_float] at precision 53 and maximal exponent 1024; the
    definitions of the section above are the same computation over exact
    rationals. Counts, targets, durations in seconds and timestamps are
    whole numbers, kept as [Z] and converted where the code divides or
    multiplies them. *)
Module Double.

Definition number : Type := spec_float.

Definition add : number -> number -> number := SFadd 53 1024.
Definition sub : number -> number -> number := SFsub 53 1024.
Definition mul : number -> number -> number := SFmul 53 1024.
Definition div : number -> number -> number := SFdiv 53 1024.

(** The double nearest to an integer. *)
Definition ofZ (z : Z) : number := binary_normalize 53 1024 z 0 false.

(** The decimal literal [n/d], for instance [0.65] as [literal 65 100]: the
    double nearest to the quotient of two integers that are doubles. *)
Definition literal (n d : Z) : number := div (ofZ n) (ofZ d).

(** [a > b] and [a >= b]; false when an operand is NaN. *)
Definition gt (a b : number) : bool := SFltb b a.
Definition ge (a b : number) : bool := SFleb b a.

(** [Math.max] and [Math.min] of two numbers: NaN when an operand is NaN,
    and [+0] is larger than [-0]. *)
Definition Math_max (a b : number) : number :=
  match SFcompare a b with
  | None => S754_nan
  | Some Lt => b
  | Some Gt => a
  | Some Eq =>
      match a, b with
      | S754_zero sa, S754_zero sb => S754_zero (sa && sb)
      | _, _ => a
      end
  end.

Definition Math_min (a b : number) : number :=
  match SFcompare a b with
  | None => S754_nan
  | Some Lt => a
  | Some Gt => b
  | Some Eq =>
      match a, b with
      | S754_zero sa, S754_zero sb => S754_zero (sa || sb)
      | _, _ => a
      end
  end.

(** [Math.round]: the integral double nearest to [x], the larger one at a
    tie; an integral, infinite or NaN argument is returned as it is, and
    the zero returned for an argument of magnitude below one half keeps the
    sign of the argument. A finite value is [+-m * 2^e], so that for
    [e < 0] it is below [2^53] and [floor(x + 1/2)] is computed on integers
    without a rounding. *)
Definition Math_round (x : number) : number :=
  match x with
  | S754_finite s m e =>
      if 0 <=? e then x
      else
        let d := 2 ^ (- e) in
        let v := if s then Z.neg m else Z.pos m in
        match (2 * v + d) / (2 * d) with
        | 0 => S754_zero s
        | r => ofZ r
        end
  | _ => x
  end.

(** [clamp(value, min = 0, max = 1)]. *)
Definition clamp (value min max : number) : number :=
  Math_max min (Math_min max value).

Module DailyScoreHabitBreakdown.
Record t := mk {
  habitId : string;
  name : string;
  repetitions : Z;
  repetitionTarget : Z;
  repetitionProgress : number;
  durationMinutes : number;
  durationTargetMinutes : number;
  durationProgress : number;
  postpones : Z;
  isOverdue : bool;
  score : number
}.
End DailyScoreHabitBreakdown.

Module DailyScore.
Record t := mk {
  score : number;
  grade : string;
  completedCount : Z;
  totalTrackedMinutes : number;
  dueNowCount : Z;
  breakdown : list DailyScoreHabitBreakdown.t
}.
End DailyScore.

Definition gradeFromScore (score : number) : string :=
  if ge score (ofZ 95) then "S"
  else if ge score (ofZ 90) then "A+"
  else if ge score (ofZ 80) then "A"
  else if ge score (ofZ 70) then "B"
  else if ge score (ofZ 60) then "C"
  else "D".

(** [Map.prototype.get(key) ?? 0] on the map of durations. *)
Definition getN (m : gmap string number) (key : string) : number :=
  default (ofZ 0) (m !! key).

Definition habitScoreBreakdown (habit : Habit.t) (now : Z)
    (completions : gmap string Z) (duration : gmap string number)
    (postpones : gmap string Z) : DailyScoreHabitBreakdown.t :=
  let repetitionTarget := Z.max 1 (Habit.targetRepetitionsPerDay habit) in
  let repetitions := getZ completions (Habit.id habit) in
  let repetitionProgress :=
    clamp (div (ofZ repetitions) (ofZ repetitionTarget)) (ofZ 0) (ofZ 1) in
  let durationMinutes := getN duration (Habit.id habit) in
  let durationTargetMinutes :=
    match Habit.expectedDurationMinutes habit with
    | Some expected =>
        if expected =? 0 then ofZ 0
        else mul (ofZ expected) (ofZ repetitionTarget)
    | None => ofZ 0
    end in
  let durationProgress :=
    if gt durationTargetMinutes (ofZ 0)
    then clamp (div durationMinutes durationTargetMinutes) (ofZ 0) (ofZ 1)
    else repetitionProgress in
  let postponeCount := getZ postpones (Habit.id habit) in
  let isOverdue := Habit.dueAt habit <? now in
  let overdueMinutes :=
    if isOverdue
    then Math_max (ofZ 0) (div (ofZ (now - Habit.dueAt habit)) (ofZ 60000))
    else ofZ 0 in
  let postponePenalty :=
    Math_min (literal 2 10) (mul (ofZ postponeCount) (literal 5 100)) in
  let overduePenalty :=
    Math_min (literal 25 100)
      (mul (div overdueMinutes (ofZ (Z.max 1 (Habit.intervalMinutes habit))))
         (literal 15 100)) in
  let rawProgress :=
    add (mul repetitionProgress (literal 65 100))
      (mul durationProgress (literal 35 100)) in
  let score :=
    Math_round
      (mul
         (clamp (mul rawProgress (sub (sub (ofZ 1) postponePenalty) overduePenalty))
            (ofZ 0) (ofZ 1))
         (ofZ 100)) in
  DailyScoreHabitBreakdown.mk (Habit.id habit) (Habit.name habit)
    repetitions repetitionTarget repetitionProgress
    durationMinutes durationTargetMinutes durationProgress
    postponeCount isOverdue score.

(** One turn of the loop over today's completions. *)
Definition tallyCompletion (acc : gmap string Z * gmap string number)
    (completion : CompletionRecord.t) : gmap string Z * gmap string number :=
  let (repetitionsByHabit, durationByHabit) := acc in
  let key := CompletionRecord.habitId completion in
  (<[key := getZ repetitionsByHabit key + 1]> repetitionsByHabit,
   <[key := add (getN durationByHabit key)
              (div (ofZ (CompletionRecord.durationSeconds completion)) (ofZ 60))]>
     durationByHabit).

(** [computeDailyScore(now)], with [dayStart] the local midnight before
    [now]. *)
Definition computeDailyScore (dayStart now : Z) : M DailyScore.t :=
  habits <- listHabits false ;;
  completionRecords <- listCompletions ;;
  postponeRecords <- listPostpones ;;
  let todayCompletions :=
    filterb (fun entry => inDay dayStart now (CompletionRecord.completedAt entry))
      completionRecords in
  let todayPostpones :=
    filterb (fun entry => inDay dayStart now (PostponeRecord.postponedAt entry))
      postponeRecords in
  let '(repetitionsByHabit, durationByHabit) :=
    fold_left tallyCompletion todayCompletions (∅, ∅) in
  let postponesByHabit := fold_left tallyPostpone todayPostpones ∅ in
  let breakdown :=
    map (fun habit =>
           habitScoreBreakdown habit now repetitionsByHabit durationByHabit
             postponesByHabit) habits in
  let average :=
    if (length breakdown =? 0)%nat then ofZ 100
    else
      Math_round
        (div
           (fold_left
              (fun total item => add total (DailyScoreHabitBreakdown.score item))
              breakdown (ofZ 0))
           (ofZ (Z.of_nat (length breakdown)))) in
  let completedCount := Z.of_nat (length todayCompletions) in
  let totalTrackedMinutes :=
    Math_round
      (fold_left
         (fun total item =>
            add total (div (ofZ (CompletionRecord.durationSeconds item)) (ofZ 60)))
         todayCompletions (ofZ 0)) in
  let dueNowCount :=
    Z.of_nat (length (filterb (fun habit => Habit.dueAt habit <=? now) habits)) in
  ret (DailyScore.mk average (gradeFromScore average) completedCount
         totalTrackedMinutes dueNowCount breakdown).

(** The score formula of the specification, evaluated in doubles. *)
Module Spec.

Definition clamp01 (x : number) : number :=
  Math_min (ofZ 1) (Math_max (ofZ 0) x).

(** The sum of today's completion durations of the habit, in minutes,
    added in the order of the log. *)
Definition todayDurationMinutes (dayStart now : Z) (habitId : string)
    (records : list CompletionRecord.t) : number :=
  fold_left
    (fun total c =>
       add total (div (ofZ (CompletionRecord.durationSeconds c)) (ofZ 60)))
    (filterb (fun c => inDay dayStart now (CompletionRecord.completedAt c)
                       && String.eqb (CompletionRecord.habitId c) habitId)
       records)
    (ofZ 0).

(** The part of the formula after the two progresses. *)
Definition penalised (habit : Habit.t) (now : Z)
    (repetitionProgress durationProgress : number) (todayPostpones : Z) : number :=
  let rawProgress :=
    add (mul (literal 65 100) repetitionProgress)
      (mul (literal 35 100) durationProgress) in
  let postponePenalty :=
    Math_min (literal 20 100) (mul (ofZ todayPostpones) (literal 5 100)) in
  let overdueMinutes :=
    if Habit.dueAt habit <? now
    then div (ofZ (now - Habit.dueAt habit)) (ofZ 60000)
    else ofZ 0 in
  let overduePenalty :=
    Math_min (literal 25 100)
      (mul (div overdueMinutes (ofZ (Z.max 1 (Habit.intervalMinutes habit))))
         (literal 15 100)) in
  Math_round
    (mul (clamp01 (mul rawProgress (sub (sub (ofZ 1) postponePenalty) overduePenalty)))
       (ofZ 100)).

(** The formula as the specification words it: the duration progress is
    the clamped ratio whenever an expected duration is set. *)
Definition claimed (habit : Habit.t) (now : Z) (todayCompletions : Z)
    (todayDurationMinutes : number) (todayPostpones : Z) : number :=
  let repetitionTarget := Z.max 1 (Habit.targetRepetitionsPerDay habit) in
  let repetitionProgress :=
    clamp01 (div (ofZ todayCompletions) (ofZ repetitionTarget)) in
  let durationProgress :=
    match Habit.expectedDurationMinutes habit with
    | Some expectedDurationMinutes =>
        clamp01
          (div todayDurationMinutes
             (mul (ofZ expectedDurationMinutes) (ofZ repetitionTarget)))
    | None => repetitionProgress
    end in
  penalised habit now repetitionProgress durationProgress todayPostpones.

(** The formula for any stored expected duration: the duration progress
    is the clamped ratio when an expected duration is set and positive, and
    the repetition progress otherwise. *)
Definition score (habit : Habit.t) (now : Z) (todayCompletions : Z)
    (todayDurationMinutes : number) (todayPostpones : Z) : number :=
  let repetitionTarget := Z.max 1 (Habit.targetRepetitionsPerDay habit) in
  let repetitionProgress :=
    clamp01 (div (ofZ todayCompletions) (ofZ repetitionTarget)) in
  let durationProgress :=
    match Habit.expectedDurationMinutes habit with
    | Some expectedDurationMinutes =>
        if 0 <? expectedDurationMinutes
        then clamp01
               (div todayDurationMinutes
                  (mul (ofZ expectedDurationMinutes) (ofZ repetitionTarget)))
        else repetitionProgress
    | None => repetitionProgress
    end in
  penalised habit now repetitionProgress durationProgress todayPostpones.

End Spec.

End Double.

(** ** Views of the operations used in the statements *)

(** The test [habit.id === habitId]. *)
Definition hasId (habitId : string) (h : Habit.t) : bool :=
  String.eqb (Habit.id h) habitId.

(** The habit [completeHabit] stores in place of [habit]. *)
Definition completed (now : Z) (habit : Habit.t) : Habit.t :=
  Habit.mk (Habit.id habit) (Habit.name habit) (Habit.type habit)
    (Habit.intervalMinutes habit) (Habit.targetRepetitionsPerDay habit)
    (Habit.expectedDurationMinutes habit) (Habit.notes habit)
    (Habit.createdAt habit)
    (now + Habit.intervalMinutes habit * 60000)
    (Some now) None (Habit.archived habit).

(** The record [completeHabit] appends. *)
Definition completionOf (now : Z) (newId habitId : string)
    (options : CompleteOptions.t) : CompletionRecord.t :=
  CompletionRecord.mk newId habitId now
    (Z.max 0 (Math_floor (default 0%Q (CompleteOptions.durationSeconds options))))
    (default manual (CompleteOptions.source options)).

Definition withoutHabit (habitId : string) (l : list TimerSession.t)
    : list TimerSession.t :=
  filterb (fun session => negb (String.eqb (TimerSession.habitId session) habitId)) l.

(** [Math.max(1, Math.floor(minutes))]. *)
Definition safeMinutes (minutes : Q) : Z := Z.max 1 (Math_floor minutes).

(** The habit [postponeHabit] stores in place of [current]. *)
Definition postponed (now : Z) (minutes : Q) (current : Habit.t) : Habit.t :=
  Habit.mk (Habit.id current) (Habit.name current) (Habit.type current)
    (Habit.intervalMinutes current) (Habit.targetRepetitionsPerDay current)
    (Habit.expectedDurationMinutes current) (Habit.notes current)
    (Habit.createdAt current)
    ((if now <? Habit.dueAt current then Habit.dueAt current else now)
     + safeMinutes minutes * 60000)
    (Habit.lastCompletedAt current) None (Habit.archived current).

(** The habit [upsertHabit] creates from a draft. *)
Definition created (now now' : Z) (newId : string) (draft : HabitDraft.t)
    : Habit.t :=
  Habit.mk newId (HabitDraft.name draft) (HabitDraft.type draft)
    (HabitDraft.intervalMinutes draft)
    (HabitDraft.targetRepetitionsPerDay draft)
    (HabitDraft.expectedDurationMinutes draft) (HabitDraft.notes draft)
    now (now' + HabitDraft.intervalMinutes draft * 60000) None None false.

(** The test [session.habitId === habitId]. *)
Definition timing (habitId : string) (session : TimerSession.t) : bool :=
  String.eqb (TimerSession.habitId session) habitId.

(** The sessions [stopHabitTimer] writes back: all but the ones carrying
    the identifier of the session it found. *)
Definition withoutSession (session : TimerSession.t) (l : list TimerSession.t)
    : list TimerSession.t :=
  filterb (fun entry =>
             negb (String.eqb (TimerSession.id entry) (TimerSession.id session))) l.

(** The order [listHabits] returns: ascending [dueAt]. *)
Definition dueAt_le (a b : Habit.t) : Prop := Habit.dueAt a <= Habit.dueAt b.

(** Sample data for the concrete instances below. *)
Module Sample.

Definition water : Habit.t :=
  Habit.mk "h1" "Drink water" type_habit 60 2 (Some 10) None
    0 3600000 None (Some 3500000) false.

Definition stretch : Habit.t :=
  Habit.mk "h2" "Stretch" type_habit 30 1 None None
    0 1800000 None None false.

Definition archivedWater : Habit.t :=
  Habit.mk "h1" "Drink water" type_habit 60 2 (Some 10) None
    0 3600000 None None true.

Definition draft : HabitDraft.t :=
  HabitDraft.mk "Read" type_task 45 1 None None.

Definition running : TimerSession.t := TimerSession.mk "s1" "h1" 7000000.

Definition orphan : TimerSession.t := TimerSession.mk "s9" "ghost" 7000000.

Definition store : Store := mkStore [water; stretch] [running] [] [].

Definition archivedStore : Store := mkStore [archivedWater] [] [] [].

Definition orphanStore : Store := mkStore [water] [orphan] [] [].

(** At 00:30, [water] is due in 30 minutes, was completed twice today for
    600 seconds each and postponed once; the third completion is
    yesterday's. *)
Definition scoredStore : Store :=
  mkStore [water] []
    [CompletionRecord.mk "c1" "h1" 600000 600 timer;
     CompletionRecord.mk "c0" "h1" (-5) 900 manual;
     CompletionRecord.mk "c2" "h1" 1500000 600 timer]
    [PostponeRecord.mk "p1" "h1" 900000 15].


(** A habit stored with an expected duration of -5 minutes, completed once
    today for ten minutes. *)
Definition odd : Habit.t :=
  Habit.mk "h4" "Odd" type_habit 60 1 (Some (-5)) None
    0 3600000 None None false.

Definition oddStore : Store :=
  mkStore [odd] [] [CompletionRecord.mk "c1" "h4" 600000 600 manual] [].

(** A habit with ten target repetitions, completed three times today and
    postponed once. *)
Definition ten : Habit.t :=
  Habit.mk "h5" "Ten" type_habit 60 10 None None
    0 3600000 None None false.

Definition tenStore : Store :=
  mkStore [ten] []
    [CompletionRecord.mk "c1" "h5" 600000 0 manual;
     CompletionRecord.mk "c2" "h5" 900000 0 manual;
     CompletionRecord.mk "c3" "h5" 1200000 0 manual]
    [PostponeRecord.mk "p1" "h5" 1000000 15].

(** [stretch] completed three times today, for 42, 84 and 84 seconds. *)
Definition trackedStore : Store :=
  mkStore [stretch] []
    [CompletionRecord.mk "c1" "h2" 600000 42 timer;
     CompletionRecord.mk "c2" "h2" 900000 84 timer;
     CompletionRecord.mk "c3" "h2" 1200000 84 timer]
    [].

(** [stretch] postponed to 02:30 and not completed since. *)
Definition postponedStretch : Habit.t :=
  Habit.mk "h2" "Stretch" type_habit 30 1 None None
    0 9000000 None None false.

Definition postponedStore : Store := mkStore [postponedStretch] [] [] [].

End Sample.

(** ** [formatDuration] of [time.ts] *)

Definition formatDuration (seconds : Q) : string :=
  let total := Z.max 0 (Math_floor seconds) in
  let hours := Math_floor (inject_Z total / 3600)%Q in
  let minutes := Math_floor (inject_Z (total mod 3600) / 60)%Q in
  let remainingSeconds := total mod 60 in
  if 0 <? hours then num hours +:+ "h " +:+ num minutes +:+ "m"
  else if 0 <? minutes then num minutes +:+ "m " +:+ num remainingSeconds +:+ "s"
  else num remainingSeconds +:+ "s".

(** ** [background-reminders.ts] *)

(** [shouldNotify]. A stored [lastReminderAt] is an ISO string, which is
    truthy; [None] is [undefined]. *)
Definition shouldNotify (habit : Habit.t) (now : Z) (throttleMinutes : Z) : bool :=
  if now <? Habit.dueAt habit then false
  else
    match Habit.lastReminderAt habit with
    | None => true
    | Some lastReminderAt => throttleMinutes <=? minutesBetween lastReminderAt now
    end.

(** The habit [Command] picks: the first, in ascending [dueAt], of the
    listed habits that have no running timer and should be notified. *)
Definition reminderCandidate (now : Z) (reminderThrottleMinutes : Z)
    : M (option Habit.t) :=
  habits <- listHabits false ;;
  sessions <- listSessions ;;
  let runningHabits : gset string :=
    list_to_set (map TimerSession.habitId sessions) in
  ret (head
         (sort by_dueAt
            (filterb (fun habit => shouldNotify habit now reminderThrottleMinutes)
               (filterb (fun habit => negb (bool_decide (Habit.id habit ∈ runningHabits)))
                  habits)))).


(** ** The derived views of the dashboard command *)

Module CompletionStats.
Record t := mk {
  count : Z;
  durationSeconds : Z
}.
End CompletionStats.

Definition completionStats (completions : list CompletionRecord.t)
    (dayStartMs now : Z) : gmap string CompletionStats.t :=
  fold_left
    (fun byHabit entry =>
       let completed := CompletionRecord.completedAt entry in
       if (completed <? dayStartMs) || (now <? completed) then byHabit
       else
         let current :=
           default (CompletionStats.mk 0 0)
             (byHabit !! CompletionRecord.habitId entry) in
         <[CompletionRecord.habitId entry :=
             CompletionStats.mk (CompletionStats.count current + 1)
               (CompletionStats.durationSeconds current
                + CompletionRecord.durationSeconds entry)]> byHabit)
    completions ∅.

Definition postponeStats (postpones : list PostponeRecord.t)
    (dayStartMs now : Z) : gmap string Z :=
  fold_left
    (fun byHabit entry =>
       let postponed := PostponeRecord.postponedAt entry in
       if (postponed <? dayStartMs) || (now <? postponed) then byHabit
       else
         <[PostponeRecord.habitId entry :=
             default 0 (byHabit !! PostponeRecord.habitId entry) + 1]> byHabit)
    postpones ∅.

Definition activeSessionByHabit (sessions : list TimerSession.t)
    : gmap string TimerSession.t :=
  fold_left (fun map session => <[TimerSession.habitId session := session]> map)
    sessions ∅.

Definition dueHabits (habits : list Habit.t) (now : Z) : list Habit.t :=
  filterb (fun habit => Habit.dueAt habit <=? now) habits.

Definition upcomingHabits (habits : list Habit.t) (now : Z) : list Habit.t :=
  filterb (fun habit => now <? Habit.dueAt habit) habits.

(** The test [!runningHabits.has(habit.id)] of [Command]. *)
Definition notRunning (sessions : list TimerSession.t) (habit : Habit.t) : bool :=
  negb (bool_decide
          (Habit.id habit
           ∈ (list_to_set (map TimerSession.habitId sessions) : gset string))).

(** The habits [Command] chooses from, in the order it sorts them. *)
Definition eligibleHabits (now throttle : Z) (s : Store) : list Habit.t :=
  sort by_dueAt
    (filterb (fun habit => shouldNotify habit now throttle)
       (filterb (notRunning (sessions s)) (activeHabits s))).

(** The parts of [computeDailyScore]: today's records, the maps its loops
    build, the breakdown and the mean of its scores. *)
Definition todayCompletionsOf (dayStart now : Z) (s : Store)
    : list CompletionRecord.t :=
  filterb (fun entry => inDay dayStart now (CompletionRecord.completedAt entry))
    (completions s).

Definition todayPostponesOf (dayStart now : Z) (s : Store)
    : list PostponeRecord.t :=
  filterb (fun entry => inDay dayStart now (PostponeRecord.postponedAt entry))
    (postpones s).

Definition breakdownOf (dayStart now : Z) (s : Store)
    : list DailyScoreHabitBreakdown.t :=
  let tallies := fold_left tallyCompletion (todayCompletionsOf dayStart now s) (∅, ∅) in
  let postponesByHabit := fold_left tallyPostpone (todayPostponesOf dayStart now s) ∅ in
  map (fun habit =>
         habitScoreBreakdown habit now (fst tallies) (snd tallies) postponesByHabit)
    (activeHabits s).

Definition averageOf (breakdown : list DailyScoreHabitBreakdown.t) : Z :=
  if (length breakdown =? 0)%nat then 100
  else
    Math_round
      (inject_Z
         (fold_left (fun total item => total + DailyScoreHabitBreakdown.score item)
            breakdown 0)
       / inject_Z (Z.of_nat (length breakdown))).

(** The breakdown of [Double.computeDailyScore]. *)
Definition doubleBreakdownOf (dayStart now : Z) (s : Store)
    : list Double.DailyScoreHabitBreakdown.t :=
  let tallies :=
    fold_left Double.tallyCompletion (todayCompletionsOf dayStart now s) (∅, ∅) in
  let postponesByHabit := fold_left tallyPostpone (todayPostponesOf dayStart now s) ∅ in
  map (fun habit =>
         Double.habitScoreBreakdown habit now (fst tallies) (snd tallies)
           postponesByHabit)
    (activeHabits s).

(** The doubles that are not negative: [+0], a positive finite number,
    [+Infinity], and NaN. *)
Definition notNegative (x : Double.number) : Prop :=
  match x with
  | S754_zero false | S754_finite false _ _ | S754_infinity false | S754_nan => True
  | _ => False
  end.

(** The doubles that are at least 1: a positive finite number
    [m * 2^e] whose mantissa of [digits2_pos m] bits reaches the units,
    and [+Infinity]. *)
Definition atLeastOne (x : Double.number) : Prop :=
  match x with
  | S754_finite false m e => 1 <= Z.pos (digits2_pos m) + e
  | S754_infinity false => True
  | _ => False
  end.

(** The doubles that are not positive: [-0], a negative finite number,
    [-Infinity], and NaN. *)
Definition notPositive (x : Double.number) : Prop :=
  match x with
  | S754_zero true | S754_finite true _ _ | S754_infinity true | S754_nan => True
  | _ => False
  end.

(** ** Calls of the storage layer *)

(** A call of one of the mutators of [storage.ts], with the clock readings
    and identifiers it samples. *)
Inductive Op :=
| Upsert (now now' : Z) (newId : string) (draft : HabitDraft.t)
    (existingId : option string)
| Archive (habitId : string)
| StartTimer (now : Z) (newId habitId : string)
| StopTimer (now now' : Z) (newId habitId : string)
| Complete (now : Z) (newId habitId : string) (options : CompleteOptions.t)
| Postpone (now : Z) (newId habitId : string) (minutes : Q)
| MarkReminded (habitId : string) (atIso : Z).

(** The store a call leaves behind, whether it returns or throws. *)
Definition exec (s : Store) (op : Op) : Store :=
  match op with
  | Upsert now now' newId draft existingId =>
      snd (upsertHabit now now' newId draft existingId s)
  | Archive habitId => snd (archiveHabit habitId s)
  | StartTimer now newId habitId => snd (startHabitTimer now newId habitId s)
  | StopTimer now now' newId habitId =>
      snd (stopHabitTimer now now' newId habitId s)
  | Complete now newId habitId options =>
      snd (completeHabit now newId habitId options s)
  | Postpone now newId habitId minutes =>
      snd (postponeHabit now newId habitId minutes s)
  | MarkReminded habitId atIso => snd (setHabitLastReminder habitId atIso s)
  end.

(** The store before anything was written. *)
Definition emptyStore : Store := mkStore [] [] [] [].

(** At most one timer session per habit. *)
Definition oneSessionPerHabit (s : Store) : Prop :=
  NoDup (map TimerSession.habitId (sessions s)).

(** The identifiers of the habit records, in storage order. *)
Definition habitIds (s : Store) : list string := map Habit.id (habits s).

(** The habit [archiveHabit] stores in place of [habit]. *)
Definition archivedCopy (habit : Habit.t) : Habit.t :=
  Habit.mk (Habit.id habit) (Habit.name habit) (Habit.type habit)
    (Habit.intervalMinutes habit) (Habit.targetRepetitionsPerDay habit)
    (Habit.expectedDurationMinutes habit) (Habit.notes habit)
    (Habit.createdAt habit) (Habit.dueAt habit)
    (Habit.lastCompletedAt habit) (Habit.lastReminderAt habit) true.

(** The habit [setHabitLastReminder] stores in place of [habit]. *)
Definition reminded (atIso : Z) (habit : Habit.t) : Habit.t :=
  Habit.mk (Habit.id habit) (Habit.name habit) (Habit.type habit)
    (Habit.intervalMinutes habit) (Habit.targetRepetitionsPerDay habit)
    (Habit.expectedDurationMinutes habit) (Habit.notes habit)
    (Habit.createdAt habit) (Habit.dueAt habit)
    (Habit.lastCompletedAt habit) (Some atIso) (Habit.archived habit).

(** The habit [upsertHabit] stores in place of [previous] on an update. *)
Definition updated (draft : HabitDraft.t) (previous : Habit.t) : Habit.t :=
  Habit.mk (Habit.id previous) (HabitDraft.name draft) (HabitDraft.type draft)
    (HabitDraft.intervalMinutes draft) (HabitDraft.targetRepetitionsPerDay draft)
    (HabitDraft.expectedDurationMinutes draft) (HabitDraft.notes draft)
    (Habit.createdAt previous) (Habit.dueAt previous)
    (Habit.lastCompletedAt previous) (Habit.lastReminderAt previous)
    (Habit.archived previous).

(** * Properties *)

(** ** Arrays *)

Section Arrays.
Context {A : Type}.
Implicit Types (p : A -> bool) (l : list A).

Lemma findIndex_Some p l i :
  findIndex p l = Some i ->
  exists x, l !! i = Some x /\ p x = true.
Proof.
  revert i. induction l as [|y l IH]; intros i; cbn; [discriminate|].
  destruct (p y) eqn:Hy.
  - intros [= <-]. exists y. auto.
  - destruct (findIndex p l) as [j|]; cbn; [|discriminate].
    intros [= <-]. destruct (IH j eq_refl) as (x & Hx & Hp). eauto.
Qed.

Lemma findIndex_first p l i j y :
  findIndex p l = Some i -> (j < i)%nat -> l !! j = Some y -> p y = false.
Proof.
  revert i j. induction l as [|z l IH]; intros i j; cbn; [discriminate|].
  destruct (p z) eqn:Hz.
  - intros [= <-]. lia.
  - destruct (findIndex p l) as [k|]; cbn; [|discriminate].
    intros [= <-] Hj. destruct j as [|j]; cbn.
    + intros [= <-]. exact Hz.
    + apply (IH k j eq_refl). lia.
Qed.

Lemma findIndex_None p l :
  findIndex p l = None <-> (forall x, x ∈ l -> p x = false).
Proof.
  induction l as [|y l IH]; cbn.
  - split; [|reflexivity]. intros _ x Hx. inversion Hx.
  - destruct (p y) eqn:Hy.
    + split; [discriminate|]. intros H.
      rewrite (H y) in Hy; [discriminate|]. left.
    + destruct (findIndex p l) as [j|]; cbn.
      * split; [discriminate|]. intros H.
        assert (Some j = None) as Hn; [|discriminate].
        apply IH. intros x Hx. apply H. now right.
      * split; [|reflexivity]. intros _ x Hx.
        apply elem_of_cons in Hx as [->|Hx]; [exact Hy|].
        now apply IH.
Qed.

Lemma findIndex_is_Some p l x :
  x ∈ l -> p x = true -> exists i, findIndex p l = Some i.
Proof.
  intros Hx Hp. destruct (findIndex p l) as [i|] eqn:E; [eauto|].
  rewrite (proj1 (findIndex_None p l) E x Hx) in Hp. discriminate.
Qed.

Lemma find_Some p l x : find p l = Some x -> x ∈ l /\ p x = true.
Proof.
  induction l as [|y l IH]; cbn; [discriminate|].
  destruct (p y) eqn:Hy.
  - intros [= <-]. split; [left|exact Hy].
  - intros H. destruct (IH H). split; [now right|assumption].
Qed.

Lemma find_None p l : find p l = None <-> (forall x, x ∈ l -> p x = false).
Proof.
  induction l as [|y l IH]; cbn.
  - split; [|reflexivity]. intros _ x Hx. inversion Hx.
  - destruct (p y) eqn:Hy.
    + split; [discriminate|]. intros H.
      rewrite (H y) in Hy; [discriminate|]. left.
    + rewrite IH. split.
      * intros H x Hx. apply elem_of_cons in Hx as [->|Hx]; auto.
      * intros H x Hx. apply H. now right.
Qed.

Lemma find_push_new p l x : find p l = None -> p x = true -> find p (push l x) = Some x.
Proof.
  unfold push. induction l as [|y l IH]; cbn.
  - intros _ ->. reflexivity.
  - destruct (p y); [discriminate|]. exact IH.
Qed.

Lemma elem_of_filterb p l x : x ∈ filterb p l <-> x ∈ l /\ p x = true.
Proof.
  induction l as [|y l IH]; cbn.
  - split; [intros H; inversion H|intros [H _]; inversion H].
  - destruct (p y) eqn:Hy.
    + rewrite !elem_of_cons, IH. split.
      * intros [->|[? ?]]; auto.
      * intros [[->|?] ?]; auto.
    + rewrite elem_of_cons, IH. split.
      * intros [? ?]; auto.
      * intros [[->|?] Hp]; [congruence|auto].
Qed.

Lemma filterb_push p l x :
  filterb p (push l x) = if p x then push (filterb p l) x else filterb p l.
Proof.
  unfold push. induction l as [|y l IH]; cbn.
  - destruct (p x); reflexivity.
  - rewrite IH. destruct (p y), (p x); reflexivity.
Qed.

Lemma filterb_filterb p q l :
  filterb p (filterb q l) = filterb (fun x => q x && p x) l.
Proof.
  induction l as [|y l IH]; cbn; [reflexivity|].
  destruct (q y); cbn; [destruct (p y)|]; now rewrite IH.
Qed.

End Arrays.

(** Unfolds one operation of the storage layer on a given store. *)
Ltac run :=
  unfold bind, readCollection, writeCollection, ret, throw; cbn.

(** ** [completeHabit] *)

(** A habit present in the collection is found by its identifier, and when
    identifiers are unique the index found is the one of that habit. *)
Lemma findIndex_present (l : list Habit.t) (h : Habit.t) :
  h ∈ l -> exists i, findIndex (hasId (Habit.id h)) l = Some i.
Proof.
  intros Hin. apply (findIndex_is_Some _ _ h Hin).
  unfold hasId. apply String.eqb_refl.
Qed.

Lemma findIndex_unique (l : list Habit.t) (h : Habit.t) :
  NoDup (map Habit.id l) -> h ∈ l ->
  exists i, findIndex (hasId (Habit.id h)) l = Some i /\ l !! i = Some h.
Proof.
  intros Hnodup Hin.
  destruct (findIndex_present l h Hin) as [i Hi]. exists i. split; [exact Hi|].
  destruct (findIndex_Some _ _ _ Hi) as (x & Hx & Hid).
  apply String.eqb_eq in Hid.
  apply list_elem_of_lookup in Hin as [j Hj].
  assert (i = j) as ->; [|exact Hj].
  apply (NoDup_lookup (map Habit.id l) i j (Habit.id h) Hnodup).
  - rewrite list_lookup_fmap, Hx. cbn. now rewrite Hid.
  - now rewrite list_lookup_fmap, Hj.
Qed.

Lemma completeHabit_found (s : Store) (now : Z) (newId habitId : string)
    (options : CompleteOptions.t) (index : nat) (h : Habit.t) :
  findIndex (hasId habitId) (habits s) = Some index ->
  habits s !! index = Some h ->
  completeHabit now newId habitId options s
  = (Ok (completionOf now newId habitId options),
     mkStore (<[index := completed now h]> (habits s))
       (withoutHabit habitId (sessions s))
       (completions s ++ [completionOf now newId habitId options])
       (postpones s)).
Proof.
  intros Hfind Hlook. unfold completeHabit, hasId in *. run.
  rewrite Hfind, Hlook. reflexivity.
Qed.

Lemma completeHabit_absent (s : Store) (now : Z) (newId habitId : string)
    (options : CompleteOptions.t) :
  findIndex (hasId habitId) (habits s) = None ->
  completeHabit now newId habitId options s = (Throw NotFound, s).
Proof.
  intros Hfind. unfold completeHabit, hasId in *. run.
  rewrite Hfind. reflexivity.
Qed.

Lemma findIndex_hasId_None (l : list Habit.t) (habitId : string) :
  findIndex (hasId habitId) l = None
  <-> (forall x, x ∈ l -> Habit.id x <> habitId).
Proof.
  rewrite findIndex_None. unfold hasId.
  split; intros H x Hx; apply String.eqb_neq; now apply H.
Qed.

(** C1. For the habit [h] that the identifier resolves to, [completeHabit]
    succeeds, appends exactly one completion record whose [completedAt] is
    the clock reading [now], and replaces [h] by a habit whose [dueAt] is
    exactly [completedAt + intervalMinutes] minutes, whatever the previous
    [dueAt] was, whose [lastCompletedAt] is [now] and whose
    [lastReminderAt] is cleared; the other habits and the postpones are
    untouched. *)
Theorem completeHabit_advances_dueAt
    (s : Store) (now : Z) (newId habitId : string)
    (options : CompleteOptions.t) (index : nat) (h : Habit.t) :
  findIndex (hasId habitId) (habits s) = Some index ->
  habits s !! index = Some h ->
  exists c h' s',
    completeHabit now newId habitId options s = (Ok c, s')
    /\ CompletionRecord.completedAt c = now
    /\ CompletionRecord.habitId c = habitId
    /\ completions s' = completions s ++ [c]
    /\ habits s' = <[index := h']> (habits s)
    /\ habits s' !! index = Some h'
    /\ Habit.dueAt h' = CompletionRecord.completedAt c + Habit.intervalMinutes h * 60000
    /\ Habit.lastCompletedAt h' = Some now
    /\ Habit.lastReminderAt h' = None
    /\ Habit.id h' = Habit.id h
    /\ Habit.intervalMinutes h' = Habit.intervalMinutes h
    /\ Habit.createdAt h' = Habit.createdAt h
    /\ Habit.archived h' = Habit.archived h
    /\ postpones s' = postpones s.
Proof.
  intros Hfind Hlook.
  eexists _, _, _. split; [apply (completeHabit_found _ _ _ _ _ _ _ Hfind Hlook)|].
  cbn. repeat split.
  apply list_lookup_insert_eq. eapply lookup_lt_Some; eassumption.
Qed.

Lemma completeHabit_advances_dueAt_witness :
  exists c s',
    completeHabit 9000000 "c1" "h1" CompleteOptions.empty Sample.store = (Ok c, s')
    /\ completions s' = [c]
    /\ Habit.dueAt <$> habits s' !! 0%nat = Some (9000000 + 60 * 60000).
Proof.
  destruct (completeHabit_advances_dueAt Sample.store 9000000 "c1" "h1"
              CompleteOptions.empty 0 Sample.water eq_refl eq_refl)
    as (c & h' & s' & Hrun & Hat & _ & Hc & _ & Hh & Hdue & _).
  exists c, s'. repeat split; [exact Hrun|exact Hc|].
  rewrite Hh. cbn. rewrite Hdue, Hat. reflexivity.
Defined.

(** C4, as stated, fails: the identifier of an archived habit is absent
    from the non-archived habits, and [completeHabit] still succeeds on
    it. *)
Lemma completeHabit_archived_counterexample :
  ~ (forall (s : Store) (now : Z) (newId habitId : string)
            (options : CompleteOptions.t),
        (forall x, x ∈ habits s -> Habit.archived x = false ->
                   Habit.id x <> habitId) ->
        fst (completeHabit now newId habitId options s) = Throw NotFound).
Proof.
  intros H.
  specialize (H Sample.archivedStore 9000000 "c1" "h1" CompleteOptions.empty).
  assert (completeHabit 9000000 "c1" "h1" CompleteOptions.empty
            Sample.archivedStore
          = (Ok (CompletionRecord.mk "c1" "h1" 9000000 0 manual),
             mkStore
               [Habit.mk "h1" "Drink water" type_habit 60 2 (Some 10) None
                  0 12600000 (Some 9000000) None true]
               [] [CompletionRecord.mk "c1" "h1" 9000000 0 manual] []))
    as Hrun by reflexivity.
  rewrite Hrun in H. cbn in H.
  assert (@Ok CompletionRecord.t (CompletionRecord.mk "c1" "h1" 9000000 0 manual)
          = Throw NotFound) as Habs; [|discriminate Habs].
  apply H. intros x Hx. apply list_elem_of_singleton in Hx as ->. cbn. discriminate.
Qed.

(** C4, amended. [completeHabit] fails with [NotFound] exactly when no
    record of the habits collection, archived or not, carries the
    identifier, and then it leaves the store as it was. When a record
    carries the identifier, archived or not, the call succeeds on the first
    such record (the record itself when identifiers are unique): it appends
    one completion with [completedAt = now] and stores the record with
    [dueAt = now + intervalMinutes] minutes, [lastCompletedAt = now],
    [lastReminderAt] cleared and [archived] as it was. *)
Theorem completeHabit_NotFound_iff
    (s : Store) (now : Z) (newId habitId : string)
    (options : CompleteOptions.t) :
  (fst (completeHabit now newId habitId options s) = Throw NotFound
   <-> forall x, x ∈ habits s -> Habit.id x <> habitId)
  /\ ((forall x, x ∈ habits s -> Habit.id x <> habitId) ->
      completeHabit now newId habitId options s = (Throw NotFound, s))
  /\ (forall x, x ∈ habits s -> Habit.id x = habitId ->
      exists index h h' c s',
        findIndex (hasId habitId) (habits s) = Some index
        /\ habits s !! index = Some h
        /\ Habit.id h = habitId
        /\ (NoDup (habitIds s) -> h = x)
        /\ completeHabit now newId habitId options s = (Ok c, s')
        /\ completions s' = completions s ++ [c]
        /\ CompletionRecord.completedAt c = now
        /\ habits s' = <[index := h']> (habits s)
        /\ habits s' !! index = Some h'
        /\ Habit.dueAt h' = now + Habit.intervalMinutes h * 60000
        /\ Habit.lastCompletedAt h' = Some now
        /\ Habit.lastReminderAt h' = None
        /\ Habit.id h' = Habit.id h
        /\ Habit.archived h' = Habit.archived h).
Proof.
  assert (Hpresent : forall x, x ∈ habits s -> Habit.id x = habitId ->
            exists index h h' c s',
              findIndex (hasId habitId) (habits s) = Some index
              /\ habits s !! index = Some h
              /\ Habit.id h = habitId
              /\ (NoDup (habitIds s) -> h = x)
              /\ completeHabit now newId habitId options s = (Ok c, s')
              /\ completions s' = completions s ++ [c]
              /\ CompletionRecord.completedAt c = now
              /\ habits s' = <[index := h']> (habits s)
              /\ habits s' !! index = Some h'
              /\ Habit.dueAt h' = now + Habit.intervalMinutes h * 60000
              /\ Habit.lastCompletedAt h' = Some now
              /\ Habit.lastReminderAt h' = None
              /\ Habit.id h' = Habit.id h
              /\ Habit.archived h' = Habit.archived h).
  { intros x Hx Hid.
    destruct (findIndex_is_Some (hasId habitId) (habits s) x Hx) as [i Hi].
    { unfold hasId. now apply String.eqb_eq. }
    destruct (findIndex_Some _ _ _ Hi) as (h & Hh & Hhid).
    unfold hasId in Hhid. apply String.eqb_eq in Hhid.
    exists i, h, (completed now h). eexists _, _.
    split; [exact Hi|]. split; [exact Hh|]. split; [exact Hhid|]. split.
    { intros Hnodup. unfold habitIds in Hnodup.
      destruct (findIndex_unique (habits s) x Hnodup Hx) as (j & Hj & Hlook).
      rewrite Hid, Hi in Hj. injection Hj as <-. congruence. }
    split; [apply (completeHabit_found _ _ _ _ _ _ _ Hi Hh)|].
    cbn. repeat split.
    apply list_lookup_insert_eq. eapply lookup_lt_Some; eassumption. }
  assert (Hfail : (forall x, x ∈ habits s -> Habit.id x <> habitId) ->
                  completeHabit now newId habitId options s = (Throw NotFound, s)).
  { intros H. apply completeHabit_absent. now apply findIndex_hasId_None. }
  split; [split|split; [exact Hfail|exact Hpresent]].
  - intros Hthrow x Hx Hid.
    destruct (Hpresent x Hx Hid) as (i & h & h' & c & s' & _ & _ & _ & _ & Hrun & _).
    rewrite Hrun in Hthrow. discriminate.
  - intros H. now rewrite (Hfail H).
Qed.

Lemma completeHabit_NotFound_iff_witness :
  (exists x, x ∈ habits Sample.archivedStore /\ Habit.archived x = true
             /\ Habit.id x = "h1")
  /\ exists h' c s',
       completeHabit 9000000 "c1" "h1" CompleteOptions.empty Sample.archivedStore
       = (Ok c, s')
       /\ completions s' = completions Sample.archivedStore ++ [c]
       /\ habits s' !! 0%nat = Some h'
       /\ Habit.dueAt h' = 9000000 + 60 * 60000
       /\ Habit.archived h' = true.
Proof.
  split.
  - exists Sample.archivedWater. repeat split. left.
  - destruct (proj2 (proj2 (completeHabit_NotFound_iff Sample.archivedStore 9000000
                              "c1" "h1" CompleteOptions.empty))
                Sample.archivedWater)
      as (i & h & h' & c & s' & Hi & Hh & _ & _ & Hrun & Hc & _ & _ & Hh' & Hdue
          & _ & _ & _ & Harch).
    + left.
    + reflexivity.
    + injection Hi as <-. injection Hh as <-.
      exists h', c, s'. split; [exact Hrun|]. split; [exact Hc|].
      split; [exact Hh'|]. split; [exact Hdue|exact Harch].
Defined.

(** ** [postponeHabit] *)

Lemma postponeHabit_found (s : Store) (now : Z) (newId habitId : string)
    (minutes : Q) (index : nat) (h : Habit.t) :
  findIndex (hasId habitId) (habits s) = Some index ->
  habits s !! index = Some h ->
  postponeHabit now newId habitId minutes s
  = (Ok (postponed now minutes h),
     mkStore (<[index := postponed now minutes h]> (habits s))
       (sessions s) (completions s)
       (postpones s ++ [PostponeRecord.mk newId habitId now (safeMinutes minutes)])).
Proof.
  intros Hfind Hlook. unfold postponeHabit, hasId in *. run.
  rewrite Hfind, Hlook. reflexivity.
Qed.

Lemma safeMinutes_ge_1 (minutes : Q) : 1 <= safeMinutes minutes.
Proof. unfold safeMinutes. lia. Qed.

Lemma safeMinutes_clamps (minutes : Q) : (minutes < 1)%Q -> safeMinutes minutes = 1.
Proof.
  intros Hlt. unfold safeMinutes, Math_floor.
  assert (Qfloor minutes < 1); [|lia].
  rewrite Zlt_Qlt. eapply Qle_lt_trans; [apply Qfloor_le|exact Hlt].
Qed.

Lemma safeMinutes_floor (minutes : Q) :
  (1 <= minutes)%Q -> safeMinutes minutes = Qfloor minutes.
Proof.
  intros Hle. unfold safeMinutes, Math_floor.
  assert (1 <= Qfloor minutes); [|lia].
  change 1 with (Qfloor 1). now apply Qfloor_resp_le.
Qed.

(** C3. [postponeHabit] coerces [minutes] to the integer
    [m = max(1, floor(minutes))], which is at least 1 and is 1 for every
    argument below 1; for the habit the identifier resolves to, the new
    [dueAt] is [max(currentDueAt, now) + m] minutes, that is
    [oldDueAt + m] when the habit is not yet due and [now + m] when it is
    overdue; one postpone record carrying [m] is appended and
    [lastReminderAt] is cleared. *)
Theorem postponeHabit_pushes_dueAt
    (s : Store) (now : Z) (newId habitId : string) (minutes : Q)
    (index : nat) (h : Habit.t) :
  findIndex (hasId habitId) (habits s) = Some index ->
  habits s !! index = Some h ->
  exists (m : Z) h' s',
    postponeHabit now newId habitId minutes s = (Ok h', s')
    /\ 1 <= m
    /\ ((minutes < 1)%Q -> m = 1)
    /\ ((1 <= minutes)%Q -> m = Qfloor minutes)
    /\ Habit.dueAt h' = Z.max (Habit.dueAt h) now + m * 60000
    /\ (now < Habit.dueAt h -> Habit.dueAt h' = Habit.dueAt h + m * 60000)
    /\ (Habit.dueAt h <= now -> Habit.dueAt h' = now + m * 60000)
    /\ postpones s' = postpones s ++ [PostponeRecord.mk newId habitId now m]
    /\ Habit.lastReminderAt h' = None
    /\ habits s' = <[index := h']> (habits s)
    /\ habits s' !! index = Some h'
    /\ Habit.id h' = Habit.id h
    /\ Habit.intervalMinutes h' = Habit.intervalMinutes h
    /\ Habit.lastCompletedAt h' = Habit.lastCompletedAt h
    /\ Habit.archived h' = Habit.archived h
    /\ completions s' = completions s
    /\ sessions s' = sessions s.
Proof.
  intros Hfind Hlook.
  exists (safeMinutes minutes). eexists _, _.
  split; [apply (postponeHabit_found _ _ _ _ _ _ _ Hfind Hlook)|].
  cbn. repeat split.
  - apply safeMinutes_ge_1.
  - apply safeMinutes_clamps.
  - apply safeMinutes_floor.
  - destruct (Z.ltb_spec now (Habit.dueAt h)); lia.
  - intros Hlt. destruct (Z.ltb_spec now (Habit.dueAt h)); lia.
  - intros Hle. destruct (Z.ltb_spec now (Habit.dueAt h)); lia.
  - apply list_lookup_insert_eq. eapply lookup_lt_Some; eassumption.
Qed.

Lemma postponeHabit_pushes_dueAt_witness :
  exists h' s',
    postponeHabit 9000000 "p1" "h2" (-3 # 2) Sample.store = (Ok h', s')
    /\ Habit.dueAt h' = 9000000 + 1 * 60000
    /\ Habit.lastReminderAt h' = None
    /\ postpones s' = [PostponeRecord.mk "p1" "h2" 9000000 1].
Proof.
  destruct (postponeHabit_pushes_dueAt Sample.store 9000000 "p1" "h2" (-3 # 2)
              1 Sample.stretch eq_refl eq_refl)
    as (m & h' & s' & Hrun & _ & Hm & _ & _ & _ & Hdue & Hp & Hr & _).
  assert (m = 1) as -> by (apply Hm; reflexivity).
  exists h', s'. repeat split; [exact Hrun| |exact Hr|exact Hp].
  apply Hdue. cbn. lia.
Defined.

(** ** Creation *)

Lemma upsertHabit_create (s : Store) (now now' : Z) (newId : string)
    (draft : HabitDraft.t) :
  upsertHabit now now' newId draft None s
  = (Ok (created now now' newId draft),
     mkStore (habits s ++ [created now now' newId draft])
       (sessions s) (completions s) (postpones s)).
Proof. reflexivity. Qed.

(** C7, as stated, fails: a completion does not always advance [dueAt]. A
    habit with a 30-minute interval that was postponed to 02:30 and is
    completed at 00:16:40 is due again at 00:46:40, before the previous
    [dueAt]. *)
Lemma complete_moves_dueAt_back_counterexample :
  ~ (forall (s : Store) (now : Z) (newId habitId : string)
            (options : CompleteOptions.t) (index : nat) (h h' : Habit.t)
            (c : CompletionRecord.t) (s' : Store),
        findIndex (hasId habitId) (habits s) = Some index ->
        habits s !! index = Some h ->
        0 < Habit.intervalMinutes h ->
        completeHabit now newId habitId options s = (Ok c, s') ->
        habits s' !! index = Some h' ->
        Habit.dueAt h < Habit.dueAt h').
Proof.
  intros H.
  specialize (H Sample.postponedStore 1000000 "c1" "h2" CompleteOptions.empty
                0%nat Sample.postponedStretch
                (completed 1000000 Sample.postponedStretch)
                (completionOf 1000000 "c1" "h2" CompleteOptions.empty)
                (mkStore [completed 1000000 Sample.postponedStretch] []
                   [completionOf 1000000 "c1" "h2" CompleteOptions.empty] [])
                eq_refl eq_refl eq_refl eq_refl eq_refl).
  cbn in H. lia.
Qed.

(** C7, amended. Completions and postpones never leave [dueAt] in the
    past: for the habit the identifier resolves to, a successful
    [completeHabit], the interval being positive, and a successful
    [postponeHabit] leave a [dueAt] strictly later than the clock reading
    [now] of the operation. A postpone also leaves it strictly later than
    the previous [dueAt]; a completion sets it to [now + intervalMinutes]
    minutes, which is earlier than the previous [dueAt] exactly when the
    habit was due more than one interval after [now]. A habit created in
    any store from a draft with a positive interval has a [dueAt] later
    than its [createdAt], the clock not running backwards between the two
    readings [upsertHabit] takes. *)
Theorem dueAt_after_now :
  (forall (s : Store) (now : Z) (newId habitId : string) (index : nat)
          (h : Habit.t),
      findIndex (hasId habitId) (habits s) = Some index ->
      habits s !! index = Some h ->
      (forall options, 0 < Habit.intervalMinutes h ->
         exists c h' s',
           completeHabit now newId habitId options s = (Ok c, s')
           /\ habits s' !! index = Some h'
           /\ now < Habit.dueAt h'
           /\ Habit.dueAt h' = now + Habit.intervalMinutes h * 60000
           /\ (Habit.dueAt h' < Habit.dueAt h
               <-> now + Habit.intervalMinutes h * 60000 < Habit.dueAt h))
      /\ (forall minutes,
         exists h' s',
           postponeHabit now newId habitId minutes s = (Ok h', s')
           /\ habits s' !! index = Some h'
           /\ now < Habit.dueAt h'
           /\ Habit.dueAt h < Habit.dueAt h'))
  /\ (forall (s : Store) (now now' : Z) (newId : string) (draft : HabitDraft.t),
      now <= now' ->
      0 < HabitDraft.intervalMinutes draft ->
      exists n s',
        upsertHabit now now' newId draft None s = (Ok n, s')
        /\ n ∈ habits s'
        /\ Habit.createdAt n = now
        /\ Habit.createdAt n <= Habit.dueAt n
        /\ Habit.createdAt n < Habit.dueAt n).
Proof.
  split.
  - intros s now newId habitId index h Hfind Hlook.
    assert (Hlt : (index < length (habits s))%nat)
      by (eapply lookup_lt_Some; eassumption).
    split.
    + intros options Hpos. eexists _, _, _.
      split; [apply (completeHabit_found _ _ _ _ _ _ _ Hfind Hlook)|].
      cbn. split; [now apply list_lookup_insert_eq|]. cbn.
      split; [lia|]. split; [reflexivity|]. reflexivity.
    + intros minutes. eexists _, _.
      split; [apply (postponeHabit_found _ _ _ _ _ _ _ Hfind Hlook)|].
      cbn. split; [now apply list_lookup_insert_eq|]. cbn.
      pose proof (safeMinutes_ge_1 minutes).
      destruct (Z.ltb_spec now (Habit.dueAt h)); lia.
  - intros s now now' newId draft Hclock Hdraft.
    eexists _, _. split; [apply upsertHabit_create|]. cbn.
    split; [apply elem_of_app; right; left|].
    split; [reflexivity|]. lia.
Qed.

Lemma dueAt_after_now_witness :
  (exists c h' s',
      completeHabit 9000000 "n1" "h1" CompleteOptions.empty Sample.store
      = (Ok c, s')
      /\ habits s' !! 0%nat = Some h' /\ 9000000 < Habit.dueAt h')
  /\ (exists h' s',
      postponeHabit 9000000 "n1" "h1" 15 Sample.store = (Ok h', s')
      /\ habits s' !! 0%nat = Some h' /\ 9000000 < Habit.dueAt h'
      /\ Habit.dueAt Sample.water < Habit.dueAt h')
  /\ (exists n s',
      upsertHabit 9000000 9000002 "n1" Sample.draft None emptyStore = (Ok n, s')
      /\ habits s' = [n] /\ Habit.createdAt n = 9000000
      /\ Habit.createdAt n < Habit.dueAt n).
Proof.
  destruct dueAt_after_now as [Hops Hcreate].
  destruct (Hops Sample.store 9000000 "n1" "h1" 0%nat Sample.water eq_refl eq_refl)
    as [Hc Hp].
  split; [|split].
  - destruct (Hc CompleteOptions.empty eq_refl)
      as (c & h' & s' & Hrun & Hh & Hdue & _).
    exists c, h', s'. auto.
  - destruct (Hp 15%Q) as (h' & s' & Hrun & Hh & Hnow & Hadv).
    exists h', s'. auto.
  - destruct (Hcreate emptyStore 9000000 9000002 "n1" Sample.draft)
      as (n & s' & Hrun & _ & Hcreated & _ & Hdue); [lia|reflexivity|].
    exists n, s'. split; [exact Hrun|]. split; [|auto].
    rewrite upsertHabit_create in Hrun. now injection Hrun as <- <-.
Defined.

(** ** Timers *)

Lemma startHabitTimer_existing (s : Store) (now : Z) (newId habitId : string)
    (existing : TimerSession.t) :
  find (timing habitId) (sessions s) = Some existing ->
  startHabitTimer now newId habitId s = (Ok existing, s).
Proof.
  intros Hfind. unfold startHabitTimer, timing in *. run.
  rewrite Hfind. reflexivity.
Qed.

Lemma startHabitTimer_new (s : Store) (now : Z) (newId habitId : string) :
  find (timing habitId) (sessions s) = None ->
  startHabitTimer now newId habitId s
  = (Ok (TimerSession.mk newId habitId now),
     mkStore (habits s) (sessions s ++ [TimerSession.mk newId habitId now])
       (completions s) (postpones s)).
Proof.
  intros Hfind. unfold startHabitTimer, timing in *. run.
  rewrite Hfind. reflexivity.
Qed.

(** C6. [startHabitTimer] is idempotent. When a session exists for the
    habit it is returned as it is and the store is left as it was; only
    when none exists is a session with [startedAt = now] created and
    appended. In both cases a second call, at any later clock reading,
    returns the session of the first call and changes nothing, so the
    collection never holds a second session of the habit created by a
    repeated start. *)
Theorem startHabitTimer_idempotent
    (s : Store) (now : Z) (newId habitId : string) :
  match find (timing habitId) (sessions s) with
  | Some existing => startHabitTimer now newId habitId s = (Ok existing, s)
  | None =>
      startHabitTimer now newId habitId s
      = (Ok (TimerSession.mk newId habitId now),
         mkStore (habits s) (sessions s ++ [TimerSession.mk newId habitId now])
           (completions s) (postpones s))
      /\ length (filterb (timing habitId)
                   (sessions (snd (startHabitTimer now newId habitId s)))) = 1%nat
  end
  /\ exists session s1,
       startHabitTimer now newId habitId s = (Ok session, s1)
       /\ TimerSession.habitId session = habitId
       /\ forall now2 newId2,
            startHabitTimer now2 newId2 habitId s1 = (Ok session, s1).
Proof.
  destruct (find (timing habitId) (sessions s)) as [existing|] eqn:Hfind.
  - pose proof (startHabitTimer_existing s now newId habitId existing Hfind) as Hrun.
    split; [exact Hrun|].
    exists existing, s. split; [exact Hrun|]. split.
    + apply find_Some in Hfind as [_ Ht]. unfold timing in Ht.
      now apply String.eqb_eq.
    + intros now2 newId2. now apply startHabitTimer_existing.
  - pose proof (startHabitTimer_new s now newId habitId Hfind) as Hrun.
    assert (Hself : timing habitId (TimerSession.mk newId habitId now) = true)
      by apply String.eqb_refl.
    split; [split; [exact Hrun|]|].
    + rewrite Hrun. cbn. fold (push (sessions s) (TimerSession.mk newId habitId now)).
      rewrite filterb_push, Hself.
      assert (filterb (timing habitId) (sessions s) = []) as ->; [|reflexivity].
      destruct (filterb (timing habitId) (sessions s)) as [|x l] eqn:E; [reflexivity|].
      assert (x ∈ filterb (timing habitId) (sessions s)) as Hx by (rewrite E; left).
      apply elem_of_filterb in Hx as [Hx Ht].
      rewrite (proj1 (find_None _ _) Hfind x Hx) in Ht. discriminate.
    + eexists _, _. split; [exact Hrun|]. split; [reflexivity|].
      intros now2 newId2. apply startHabitTimer_existing. cbn.
      now apply (find_push_new (timing habitId)).
Qed.

Lemma stopHabitTimer_no_session (s : Store) (now now' : Z) (newId habitId : string) :
  find (timing habitId) (sessions s) = None ->
  stopHabitTimer now now' newId habitId s = (Throw NoActiveTimer, s).
Proof.
  intros Hfind. unfold stopHabitTimer, timing in *. run.
  rewrite Hfind. reflexivity.
Qed.

Lemma stopHabitTimer_session (s : Store) (now now' : Z) (newId habitId : string)
    (session : TimerSession.t) :
  find (timing habitId) (sessions s) = Some session ->
  stopHabitTimer now now' newId habitId s
  = completeHabit now' newId habitId
      (CompleteOptions.mk
         (Some (inject_Z (secondsBetween (TimerSession.startedAt session) now)))
         (Some timer))
      (mkStore (habits s) (withoutSession session (sessions s))
         (completions s) (postpones s)).
Proof.
  intros Hfind. unfold stopHabitTimer, timing in *. run.
  rewrite Hfind. reflexivity.
Qed.

Lemma find_timing_None (l : list TimerSession.t) (habitId : string) :
  find (timing habitId) l = None
  <-> (forall x, x ∈ l -> TimerSession.habitId x <> habitId).
Proof.
  rewrite find_None. unfold timing.
  split; intros H x Hx; apply String.eqb_neq; now apply H.
Qed.

Lemma not_in_withoutSession (session : TimerSession.t) (l : list TimerSession.t) x :
  x ∈ withoutSession session l -> TimerSession.id x <> TimerSession.id session.
Proof.
  unfold withoutSession. rewrite elem_of_filterb. intros [_ H].
  apply String.eqb_neq. now destruct (String.eqb _ _).
Qed.

Lemma not_in_withoutHabit (habitId : string) (l : list TimerSession.t) x :
  x ∈ withoutHabit habitId l -> TimerSession.habitId x <> habitId.
Proof.
  unfold withoutHabit. rewrite elem_of_filterb. intros [_ H].
  apply String.eqb_neq. now destruct (String.eqb _ _).
Qed.

Lemma in_withoutHabit (habitId : string) (l : list TimerSession.t) x :
  x ∈ withoutHabit habitId l -> x ∈ l.
Proof. unfold withoutHabit. rewrite elem_of_filterb. tauto. Qed.

(** The duration a stopped timer records: whole seconds, never negative. *)
Lemma timer_duration (startedAt now : Z) :
  Z.max 0 (Math_floor (default 0%Q (Some (inject_Z (secondsBetween startedAt now)))))
  = Z.max 0 ((now - startedAt) / 1000).
Proof.
  unfold default. cbn [from_option id]. unfold Math_floor, secondsBetween, Math_floor.
  rewrite Qfloor_Z. change 1000%Q with (inject_Z 1000).
  rewrite <- Zdiv_Qdiv. lia.
Qed.

(** C5, as stated, fails: a session can exist for an identifier that no
    habit carries, and then [stopHabitTimer] produces no completion. *)
Lemma stopHabitTimer_orphan_counterexample :
  ~ (forall (s : Store) (now now' : Z) (newId habitId : string)
            (session : TimerSession.t),
        find (timing habitId) (sessions s) = Some session ->
        exists c s',
          stopHabitTimer now now' newId habitId s = (Ok c, s')
          /\ CompletionRecord.source c = timer).
Proof.
  intros H.
  destruct (H Sample.orphanStore 9000000 9000001 "c1" "ghost" Sample.orphan eq_refl)
    as (c & s' & Hrun & _).
  assert (stopHabitTimer 9000000 9000001 "c1" "ghost" Sample.orphanStore
          = (Throw NotFound, mkStore [Sample.water] [] [] [])) as Hthrow
    by reflexivity.
  rewrite Hthrow in Hrun. discriminate Hrun.
Qed.

(** C5, amended. [stopHabitTimer] fails with [NoActiveTimer] exactly when
    no session exists for the habit identifier. When a session exists it is
    removed from the sessions collection, and, the identifier being present
    in the habits collection, the call produces a completion with
    [source = timer] whose [durationSeconds] is the time from [startedAt]
    to [now] floored to whole seconds and clamped to be at least 0. *)
Theorem stopHabitTimer_completes
    (s : Store) (now now' : Z) (newId habitId : string) :
  (fst (stopHabitTimer now now' newId habitId s) = Throw NoActiveTimer
   <-> forall x, x ∈ sessions s -> TimerSession.habitId x <> habitId)
  /\ forall session,
       find (timing habitId) (sessions s) = Some session ->
       (forall x, x ∈ sessions (snd (stopHabitTimer now now' newId habitId s)) ->
                  TimerSession.id x <> TimerSession.id session)
       /\ forall index,
            findIndex (hasId habitId) (habits s) = Some index ->
            exists c s',
              stopHabitTimer now now' newId habitId s = (Ok c, s')
              /\ CompletionRecord.source c = timer
              /\ CompletionRecord.durationSeconds c
                 = Z.max 0 ((now - TimerSession.startedAt session) / 1000)
              /\ CompletionRecord.habitId c = habitId
              /\ completions s' = completions s ++ [c]
              /\ (forall x, x ∈ sessions s' -> TimerSession.habitId x <> habitId).
Proof.
  split.
  - rewrite <- find_timing_None. split.
    + intros Hthrow.
      destruct (find (timing habitId) (sessions s)) as [session|] eqn:Hfind;
        [|reflexivity].
      rewrite (stopHabitTimer_session _ _ _ _ _ _ Hfind) in Hthrow.
      set (s0 := mkStore _ _ _ _) in Hthrow.
      destruct (findIndex (hasId habitId) (habits s0)) as [i|] eqn:Hi.
      * destruct (findIndex_Some _ _ _ Hi) as (h & Hh & _).
        rewrite (completeHabit_found _ _ _ _ _ _ _ Hi Hh) in Hthrow.
        discriminate.
      * rewrite (completeHabit_absent _ _ _ _ _ Hi) in Hthrow. discriminate.
    + intros Hfind. now rewrite (stopHabitTimer_no_session _ _ _ _ _ Hfind).
  - intros session Hfind.
    rewrite (stopHabitTimer_session _ _ _ _ _ _ Hfind).
    set (opts := CompleteOptions.mk _ _). set (s0 := mkStore _ _ _ _).
    split.
    + intros x.
      destruct (findIndex (hasId habitId) (habits s0)) as [i|] eqn:Hi.
      * destruct (findIndex_Some _ _ _ Hi) as (h & Hh & _).
        rewrite (completeHabit_found _ _ _ _ _ _ _ Hi Hh). cbn.
        intros Hx. apply in_withoutHabit in Hx.
        now apply not_in_withoutSession in Hx.
      * rewrite (completeHabit_absent _ _ _ _ _ Hi). cbn.
        apply not_in_withoutSession.
    + intros index Hi.
      destruct (findIndex_Some _ _ _ Hi) as (h & Hh & _).
      eexists _, _.
      split; [apply (completeHabit_found s0 now' newId habitId opts index h Hi Hh)|].
      cbn. repeat split.
      * apply timer_duration.
      * intros x. apply not_in_withoutHabit.
Qed.

Lemma stopHabitTimer_completes_witness :
  exists c s',
    stopHabitTimer 7002500 7002501 "c1" "h1" Sample.store = (Ok c, s')
    /\ CompletionRecord.source c = timer
    /\ CompletionRecord.durationSeconds c = 2
    /\ sessions s' = [].
Proof.
  destruct (proj2 (stopHabitTimer_completes Sample.store 7002500 7002501 "c1" "h1")
              Sample.running eq_refl) as [_ Hdone].
  destruct (Hdone 0%nat eq_refl) as (c & s' & Hrun & Hsrc & Hdur & _).
  exists c, s'. repeat split; [exact Hrun|exact Hsrc|exact Hdur|].
  assert (stopHabitTimer 7002500 7002501 "c1" "h1" Sample.store
          = (Ok (CompletionRecord.mk "c1" "h1" 7002501 2 timer),
             mkStore [completed 7002501 Sample.water; Sample.stretch] []
               [CompletionRecord.mk "c1" "h1" 7002501 2 timer] [])) as Hval
    by reflexivity.
  rewrite Hval in Hrun. now injection Hrun as <- <-.
Defined.

(** C10. [stopHabitTimer] is not atomic on error: when a session exists
    for an identifier that no habit carries, the call first writes the
    sessions collection without that session and only then fails with
    [NotFound], thrown by the nested [completeHabit]; the store left behind
    differs from the one before the call. *)
Theorem stopHabitTimer_not_atomic
    (s : Store) (now now' : Z) (newId habitId : string)
    (session : TimerSession.t) :
  find (timing habitId) (sessions s) = Some session ->
  (forall x, x ∈ habits s -> Habit.id x <> habitId) ->
  stopHabitTimer now now' newId habitId s
  = (Throw NotFound,
     mkStore (habits s) (withoutSession session (sessions s))
       (completions s) (postpones s))
  /\ session ∈ sessions s
  /\ (session ∉ sessions (snd (stopHabitTimer now now' newId habitId s)))
  /\ snd (stopHabitTimer now now' newId habitId s) <> s.
Proof.
  intros Hfind Habsent.
  assert (Hrun : stopHabitTimer now now' newId habitId s
                 = (Throw NotFound,
                    mkStore (habits s) (withoutSession session (sessions s))
                      (completions s) (postpones s))).
  { rewrite (stopHabitTimer_session _ _ _ _ _ _ Hfind).
    apply completeHabit_absent. cbn. now apply findIndex_hasId_None. }
  assert (Hin : session ∈ sessions s) by (now apply find_Some in Hfind).
  assert (Hout : session ∉ sessions (snd (stopHabitTimer now now' newId habitId s))).
  { rewrite Hrun. cbn. intros Hx. now apply not_in_withoutSession in Hx. }
  repeat split; [exact Hrun|exact Hin|exact Hout|].
  intros Heq. rewrite Heq in Hout. contradiction.
Qed.

Lemma stopHabitTimer_not_atomic_witness :
  stopHabitTimer 9000000 9000001 "c1" "ghost" Sample.orphanStore
  = (Throw NotFound, mkStore [Sample.water] [] [] [])
  /\ sessions Sample.orphanStore = [Sample.orphan].
Proof.
  split; [|reflexivity].
  refine (proj1 (stopHabitTimer_not_atomic Sample.orphanStore 9000000 9000001
                   "c1" "ghost" Sample.orphan eq_refl _)).
  intros x Hx. apply list_elem_of_singleton in Hx as ->. cbn. discriminate.
Defined.

(** ** Listing *)

Section Sorting.
Context {A : Type} (cmp : A -> A -> Z).

Lemma sort_insert_Permutation (x : A) (l : list A) :
  Permutation (sort_insert cmp x l) (x :: l).
Proof.
  induction l as [|y l IH]; cbn; [reflexivity|].
  destruct (cmp x y <=? 0); [reflexivity|].
  rewrite IH. apply perm_swap.
Qed.

Lemma sort_Permutation (l : list A) : Permutation (sort cmp l) l.
Proof.
  induction l as [|x l IH]; cbn; [reflexivity|].
  rewrite sort_insert_Permutation. now constructor.
Qed.

Lemma filterb_Permutation (p : A -> bool) (l l' : list A) :
  Permutation l l' -> Permutation (filterb p l) (filterb p l').
Proof.
  induction 1 as [|x l l' _ IH|x y l|l l' l'' _ IH1 _ IH2]; cbn.
  - reflexivity.
  - destruct (p x); [now constructor|exact IH].
  - destruct (p x), (p y); try reflexivity. apply perm_swap.
  - now rewrite IH1.
Qed.

End Sorting.

Lemma sort_insert_by_dueAt_Sorted (x : Habit.t) (l : list Habit.t) :
  Sorted dueAt_le l -> Sorted dueAt_le (sort_insert by_dueAt x l).
Proof.
  induction l as [|y l IH]; cbn; intros Hs.
  - repeat constructor.
  - unfold by_dueAt at 1. destruct (Z.leb_spec (Habit.dueAt x - Habit.dueAt y) 0).
    + constructor; [exact Hs|]. constructor. unfold dueAt_le. lia.
    + inversion Hs as [|? ? Hl Hhd]; subst. constructor; [now apply IH|].
      destruct l as [|z l]; cbn.
      * constructor. unfold dueAt_le. lia.
      * destruct (by_dueAt x z <=? 0).
        -- constructor. unfold dueAt_le. lia.
        -- constructor. now inversion Hhd.
Qed.

Lemma sort_by_dueAt_Sorted (l : list Habit.t) : Sorted dueAt_le (sort by_dueAt l).
Proof.
  induction l as [|x l IH]; cbn; [constructor|].
  now apply sort_insert_by_dueAt_Sorted.
Qed.

Lemma listHabits_active (s : Store) : listHabits false s = (Ok (activeHabits s), s).
Proof. reflexivity. Qed.

Lemma elem_of_activeHabits (s : Store) (x : Habit.t) :
  x ∈ activeHabits s <-> x ∈ habits s /\ Habit.archived x = false.
Proof.
  unfold activeHabits.
  rewrite (elem_of_Permutation_proper _ _ _ (sort_Permutation by_dueAt _)).
  rewrite elem_of_filterb. now destruct (Habit.archived x).
Qed.

(** C8. After a habit is created under a fresh identifier, listing the
    non-archived habits returns the habits listed before together with the
    new one, which occurs exactly once; the list returned by
    [listHabits(false)], on this and on any store, has no archived habit
    and is in ascending order of [dueAt]. *)
Theorem create_then_list
    (s : Store) (now now' : Z) (newId : string) (draft : HabitDraft.t) :
  (forall x, x ∈ habits s -> Habit.id x <> newId) ->
  (exists n s' listed,
      upsertHabit now now' newId draft None s = (Ok n, s')
      /\ listHabits false s' = (Ok listed, s')
      /\ Habit.id n = newId
      /\ length (filterb (hasId newId) listed) = 1%nat
      /\ Permutation listed (n :: activeHabits s)
      /\ (forall x, x ∈ listed -> Habit.archived x = false)
      /\ Sorted dueAt_le listed)
  /\ (forall t : Store, exists listed,
         listHabits false t = (Ok listed, t)
         /\ (forall x, x ∈ listed <-> x ∈ habits t /\ Habit.archived x = false)
         /\ Sorted dueAt_le listed).
Proof.
  intros Hfresh. split.
  - set (n := created now now' newId draft).
    set (s' := mkStore (habits s ++ [n]) (sessions s) (completions s) (postpones s)).
    exists n, s', (activeHabits s').
    assert (Hperm : Permutation (activeHabits s') (n :: activeHabits s)).
    { unfold activeHabits, s'. cbn [habits].
      rewrite !sort_Permutation.
      fold (push (habits s) n). rewrite filterb_push. cbn.
      unfold push. symmetry. apply Permutation_cons_append. }
    assert (Hnone : forall p : Habit.t -> bool,
               (forall x, x ∈ habits s -> p x = false) ->
               filterb p (activeHabits s) = []).
    { intros p Hp. destruct (filterb p (activeHabits s)) as [|y l] eqn:E; [reflexivity|].
      assert (y ∈ filterb p (activeHabits s)) as Hy by (rewrite E; left).
      apply elem_of_filterb in Hy as [Hy Hpy].
      apply elem_of_activeHabits in Hy as [Hy _].
      rewrite (Hp y Hy) in Hpy. discriminate. }
    repeat split.
    + rewrite (Permutation_length (filterb_Permutation _ _ _ Hperm)). cbn.
      unfold hasId at 1. cbn. rewrite String.eqb_refl. cbn. f_equal.
      rewrite Hnone; [reflexivity|]. intros x Hx. unfold hasId.
      apply String.eqb_neq. now apply Hfresh.
    + exact Hperm.
    + intros x Hx. now apply elem_of_activeHabits in Hx.
    + apply sort_by_dueAt_Sorted.
  - intros t. exists (activeHabits t). split; [reflexivity|]. split.
    + intros x. apply elem_of_activeHabits.
    + apply sort_by_dueAt_Sorted.
Qed.

Lemma create_then_list_witness :
  exists n s',
    upsertHabit 1000000 1000001 "h3" Sample.draft None Sample.store = (Ok n, s')
    /\ fst (listHabits false s') = Ok [Sample.stretch; Sample.water; n].
Proof.
  assert (Hfresh : forall x, x ∈ habits Sample.store -> Habit.id x <> "h3").
  { intros x Hx. cbn in Hx.
    apply elem_of_cons in Hx as [->|Hx]; [cbn; discriminate|].
    apply list_elem_of_singleton in Hx as ->. cbn. discriminate. }
  destruct (proj1 (create_then_list Sample.store 1000000 1000001 "h3"
                     Sample.draft Hfresh))
    as (n & s' & listed & Hrun & _).
  exists n, s'. split; [exact Hrun|].
  assert (upsertHabit 1000000 1000001 "h3" Sample.draft None Sample.store
          = (Ok (created 1000000 1000001 "h3" Sample.draft),
             mkStore [Sample.water; Sample.stretch;
                      created 1000000 1000001 "h3" Sample.draft]
               [Sample.running] [] [])) as Hval by reflexivity.
  rewrite Hval in Hrun. injection Hrun as <- <-. reflexivity.
Defined.

(** ** [formatRelativeDue] *)

(** Rounding a millisecond difference to whole minutes. *)
Lemma Math_round_minutes (diffMs : Z) :
  Math_round (inject_Z diffMs / 60000) = (diffMs + 30000) / 60000.
Proof.
  unfold Math_round. rewrite Zdiv_Qdiv. apply Qfloor_comp.
  rewrite inject_Z_plus. change (inject_Z 60000) with 60000%Q.
  change (inject_Z 30000) with 30000%Q. field.
Qed.

Lemma Math_floor_hours (absMinutes : Z) :
  Math_floor (inject_Z absMinutes / 60) = absMinutes / 60.
Proof. unfold Math_floor. now rewrite Zdiv_Qdiv. Qed.

Lemma length_append (a b : string) :
  String.length (a +:+ b) = (String.length a + String.length b)%nat.
Proof. induction a as [|c a IH]; simpl; [reflexivity|now rewrite IH]. Qed.

(** C9, as stated, fails: 45 seconds before the due time is within one
    minute of it, and the phrase is ["in 1m"], not ["now"]. *)
Lemma formatRelativeDue_counterexample :
  ~ (forall dueAt now : Z,
        Z.abs (dueAt - now) <= 60000 -> formatRelativeDue dueAt now = "now").
Proof.
  intros H. specialize (H 45000 0).
  assert (formatRelativeDue 45000 0 = "in 1m") as Hval by (vm_compute; reflexivity).
  rewrite Hval in H. discriminate H. cbn. lia.
Qed.

(** C9, amended. [formatRelativeDue] returns ["now"] exactly when the
    difference [dueAt - now], rounded to the nearest minute, is 0, that is
    when the due time is at most 30 seconds behind [now] or less than 30
    seconds ahead of it. Otherwise, with [M] the absolute value of the
    rounded difference in minutes, [X = M div 60] and [Y = M mod 60], the
    label is ["Xh Ym"] when [X > 0] and ["Ym"] when [X = 0], and the phrase
    is ["in "] followed by the label for a due time ahead of [now] and the
    label followed by [" overdue"] for one behind it. *)
Theorem formatRelativeDue_phrases (dueAt now : Z) :
  let diffMs := dueAt - now in
  let M := Z.abs ((diffMs + 30000) / 60000) in
  let label :=
    if 0 <? M / 60
    then num (M / 60) +:+ "h " +:+ num (M mod 60) +:+ "m"
    else num (M mod 60) +:+ "m" in
  (formatRelativeDue dueAt now = "now" <-> -30000 <= diffMs < 30000)
  /\ (diffMs < -30000 -> formatRelativeDue dueAt now = label +:+ " overdue")
  /\ (30000 <= diffMs -> formatRelativeDue dueAt now = "in " +:+ label).
Proof.
  intros diffMs M label. unfold formatRelativeDue.
  rewrite Math_round_minutes, Math_floor_hours.
  fold diffMs. fold M. fold label.
  assert (Hzero : M < 1 <-> -30000 <= diffMs < 30000).
  { unfold M. split.
    - intros HM. assert ((diffMs + 30000) / 60000 = 0) as H0 by lia.
      apply Z.div_small_iff in H0; lia.
    - intros Hr. rewrite Z.div_small by lia. cbn. lia. }
  destruct (Z.ltb_spec M 1) as [HM|HM].
  - apply Hzero in HM. split; [split; [intros _; exact HM|reflexivity]|]. split; lia.
  - assert (Hout : ~ (-30000 <= diffMs < 30000)) by (rewrite <- Hzero; lia).
    split; [split|split].
    + intros Heq. exfalso. destruct (Z.ltb_spec diffMs 0).
      * apply (f_equal String.length) in Heq.
        rewrite length_append in Heq. cbn in Heq. lia.
      * cbn in Heq. discriminate Heq.
    + intros Hr. contradiction.
    + intros Hlt. destruct (Z.ltb_spec diffMs 0); [reflexivity|lia].
    + intros Hge. destruct (Z.ltb_spec diffMs 0); [lia|reflexivity].
Qed.

Lemma formatRelativeDue_phrases_witness :
  formatRelativeDue 0 7530000 = "2h 5m overdue"
  /\ formatRelativeDue 7530000 0 = "in 2h 6m"
  /\ formatRelativeDue 1500000 0 = "in 25m"
  /\ formatRelativeDue 0 30000 = "now".
Proof.
  split; [|split; [|split]].
  - etransitivity;
      [apply (proj1 (proj2 (formatRelativeDue_phrases 0 7530000))); reflexivity|].
    vm_compute. reflexivity.
  - etransitivity;
      [apply (proj2 (proj2 (formatRelativeDue_phrases 7530000 0))); discriminate|].
    vm_compute. reflexivity.
  - etransitivity;
      [apply (proj2 (proj2 (formatRelativeDue_phrases 1500000 0))); discriminate|].
    vm_compute. reflexivity.
  - apply (proj1 (formatRelativeDue_phrases 0 30000)). cbn. lia.
Defined.

(** ** The daily score *)


Lemma tallyPostpone_fold (l : list PostponeRecord.t)
    (counts : gmap string Z) (key : string) :
  getZ (fold_left tallyPostpone l counts) key
  = getZ counts key
    + Z.of_nat (length (filterb (fun p => String.eqb (PostponeRecord.habitId p) key) l)).
Proof.
  revert counts. induction l as [|p l IH]; intros counts.
  - cbn. lia.
  - cbn [fold_left filterb]. rewrite IH. unfold tallyPostpone.
    destruct (String.eqb_spec (PostponeRecord.habitId p) key) as [->|Hne].
    + unfold getZ at 1. rewrite lookup_insert_eq. cbn. lia.
    + unfold getZ at 1. rewrite lookup_insert_ne by exact Hne. reflexivity.
Qed.

(** *** The score in double precision *)

Lemma double_mul_comm (x y : Double.number) : Double.mul x y = Double.mul y x.
Proof.
  unfold Double.mul, SFmul.
  destruct x as [sx|sx| |sx mx ex], y as [sy|sy| |sy my ey];
    try reflexivity; try (now rewrite xorb_comm).
  now rewrite xorb_comm, Pos.mul_comm, Z.add_comm.
Qed.

(** The clamp of the code, [max(0, min(1, x))], and the clamp taken the
    other way round, [min(1, max(0, x))], return the same double, NaN and
    the two zeros included. *)
Lemma double_clamp_clamp01 (x : Double.number) :
  Double.clamp x (Double.ofZ 0) (Double.ofZ 1) = Double.Spec.clamp01 x.
Proof.
  unfold Double.clamp, Double.Spec.clamp01.
  change (Double.ofZ 0) with (S754_zero false).
  change (Double.ofZ 1) with (S754_finite false 4503599627370496 (-52)).
  destruct x as [s|s| |s m e].
  - destruct s; reflexivity.
  - destruct s; reflexivity.
  - reflexivity.
  - destruct s; [reflexivity|].
    change (Double.Math_max (S754_zero false) (S754_finite false m e))
      with (S754_finite false m e).
    unfold Double.Math_min.
    destruct (SFcompare (S754_finite false 4503599627370496 (-52))
                (S754_finite false m e)) as [[]|]; reflexivity.
Qed.

Lemma double_Math_max_0 (x : Double.number) :
  notNegative x -> Double.Math_max (Double.ofZ 0) x = x.
Proof.
  change (Double.ofZ 0) with (S754_zero false).
  destruct x as [[]|[]| |[] m e]; cbn; intros H; try contradiction; reflexivity.
Qed.

Lemma binary_round_aux_notNegative (m e : Z) (l : location) :
  notNegative (binary_round_aux 53 1024 false m e l).
Proof.
  unfold binary_round_aux.
  destruct (shr_fexp 53 1024 m e l) as [mrs' e'].
  destruct (shr_fexp 53 1024 _ e' loc_Exact) as [mrs'' e''].
  destruct (shr_m mrs''); cbn; [exact I| |exact I].
  destruct (e'' <=? 1024 - 53); exact I.
Qed.

Lemma double_ofZ_notNegative (z : Z) : 0 <= z -> notNegative (Double.ofZ z).
Proof.
  intros Hz. unfold Double.ofZ, binary_normalize.
  destruct z as [|p|p]; [exact I| |lia].
  unfold binary_round. destruct (shl_align _ _ _) as [mz ez].
  apply binary_round_aux_notNegative.
Qed.

Lemma double_div_notNegative (x y : Double.number) :
  notNegative x -> notNegative y -> notNegative (Double.div x y).
Proof.
  unfold Double.div, SFdiv.
  destruct x as [[]|[]| |[] mx ex], y as [[]|[]| |[] my ey]; cbn;
    intros Hx Hy; try contradiction; try exact I.
  destruct (SFdiv_core_binary 53 1024 (Z.pos mx) ex (Z.pos my) ey) as [[mz ez] lz].
  apply binary_round_aux_notNegative.
Qed.

Lemma double_literal_20_100 : Double.literal 20 100 = Double.literal 2 10.
Proof. vm_compute. reflexivity. Qed.

Lemma digits2_pos_log2 (m : positive) :
  Z.pos (digits2_pos m) = Z.log2 (Z.pos m) + 1.
Proof.
  destruct m as [p|p|]; cbn; try reflexivity;
    (induction p as [p IH|p IH|]; cbn in *; lia).
Qed.

Lemma shr_1_digits (mrs : shr_record) (m : positive) :
  shr_m mrs = Z.pos m -> 1 < Z.pos (digits2_pos m) ->
  exists m', shr_m (shr_1 mrs) = Z.pos m'
             /\ Z.pos (digits2_pos m') = Z.pos (digits2_pos m) - 1.
Proof.
  destruct mrs as [mm r s]. cbn. intros -> Hd.
  destruct m as [p|p|]; cbn in *; [exists p|exists p|lia]; split; try reflexivity; lia.
Qed.

Lemma iter_shr_1_digits (n : positive) : forall (mrs : shr_record) (m : positive),
  shr_m mrs = Z.pos m -> Z.pos n < Z.pos (digits2_pos m) ->
  exists m', shr_m (SpecFloat.iter_pos shr_1 n mrs) = Z.pos m'
             /\ Z.pos (digits2_pos m') = Z.pos (digits2_pos m) - Z.pos n.
Proof.
  induction n as [n IH|n IH|]; intros mrs m Hm Hn; cbn [SpecFloat.iter_pos].
  - destruct (shr_1_digits mrs m Hm) as (m1 & H1 & D1); [lia|].
    destruct (IH _ m1 H1) as (m2 & H2 & D2); [lia|].
    destruct (IH _ m2 H2) as (m3 & H3 & D3); [lia|].
    exists m3. split; [exact H3|lia].
  - destruct (IH _ m Hm) as (m2 & H2 & D2); [lia|].
    destruct (IH _ m2 H2) as (m3 & H3 & D3); [lia|].
    exists m3. split; [exact H3|lia].
  - destruct (shr_1_digits mrs m Hm) as (m1 & H1 & D1); [lia|].
    exists m1. split; [exact H1|lia].
Qed.

Lemma shr_fexp_digits (m : positive) (e : Z) (l : location) :
  1 <= Z.pos (digits2_pos m) + e ->
  exists m',
    shr_m (fst (shr_fexp 53 1024 (Z.pos m) e l)) = Z.pos m'
    /\ Z.pos (digits2_pos m') + snd (shr_fexp 53 1024 (Z.pos m) e l)
       = Z.pos (digits2_pos m) + e.
Proof.
  intros Hd. unfold shr_fexp, shr, fexp, emin. cbn [Zdigits2].
  assert (Hrec : shr_m (shr_record_of_loc (Z.pos m) l) = Z.pos m)
    by (destruct l as [|[]]; reflexivity).
  destruct (Z.max (Z.pos (digits2_pos m) + e - 53) (3 - 1024 - 53) - e)
    as [|n|n] eqn:Hn; cbn [fst snd].
  - exists m. split; [exact Hrec|reflexivity].
  - destruct (iter_shr_1_digits n _ m Hrec) as (m' & Hm' & Hd'); [lia|].
    exists m'. split; [exact Hm'|lia].
  - exists m. split; [exact Hrec|reflexivity].
Qed.

Lemma round_nearest_even_digits (m : positive) (l : location) :
  exists m', round_nearest_even (Z.pos m) l = Z.pos m'
             /\ Z.pos (digits2_pos m) <= Z.pos (digits2_pos m').
Proof.
  assert (Hsucc : Z.pos (digits2_pos m) <= Z.pos (digits2_pos (m + 1))).
  { rewrite !digits2_pos_log2. apply Z.add_le_mono_r, Z.log2_le_mono. lia. }
  destruct l as [|[]]; cbn [round_nearest_even].
  - exists m. split; [reflexivity|lia].
  - destruct (Z.even (Z.pos m)); [exists m|exists (m + 1)%positive];
      (split; [reflexivity|lia]).
  - exists m. split; [reflexivity|lia].
  - exists (m + 1)%positive. split; [reflexivity|lia].
Qed.

Lemma binary_round_aux_atLeastOne (m : positive) (e : Z) (l : location) :
  1 <= Z.pos (digits2_pos m) + e ->
  atLeastOne (binary_round_aux 53 1024 false (Z.pos m) e l).
Proof.
  intros Hd. unfold binary_round_aux.
  destruct (shr_fexp_digits m e l Hd) as (m1 & Hm1 & Hd1).
  destruct (shr_fexp 53 1024 (Z.pos m) e l) as [mrs' e']. cbn [fst snd] in *.
  rewrite Hm1.
  destruct (round_nearest_even_digits m1 (loc_of_shr_record mrs')) as (m2 & Hm2 & Hd2).
  rewrite Hm2.
  destruct (shr_fexp_digits m2 e' loc_Exact) as (m3 & Hm3 & Hd3); [lia|].
  destruct (shr_fexp 53 1024 (Z.pos m2) e' loc_Exact) as [mrs'' e'']. cbn [fst snd] in *.
  rewrite Hm3. destruct (e'' <=? 1024 - 53); cbn; [lia|exact I].
Qed.

Lemma iter_xO_digits (d m : positive) :
  Z.pos (digits2_pos (Pos.iter xO m d)) = Z.pos (digits2_pos m) + Z.pos d.
Proof.
  induction d as [|d IH] using Pos.peano_ind.
  - cbn. lia.
  - rewrite Pos.iter_succ. cbn [digits2_pos]. lia.
Qed.

Lemma double_ofZ_atLeastOne (z : Z) : 0 < z -> atLeastOne (Double.ofZ z).
Proof.
  intros Hz. destruct z as [|p|p]; [lia| |lia].
  unfold Double.ofZ, binary_normalize, binary_round, shl_align.
  destruct (fexp 53 1024 (Z.pos (digits2_pos p) + 0) - 0) as [|d|d] eqn:Hd;
    apply binary_round_aux_atLeastOne; try lia.
  rewrite iter_xO_digits. lia.
Qed.

Lemma double_mul_atLeastOne (x y : Double.number) :
  atLeastOne x -> atLeastOne y -> atLeastOne (Double.mul x y).
Proof.
  unfold Double.mul, SFmul.
  destruct x as [[]|[]| |[] mx ex], y as [[]|[]| |[] my ey]; cbn;
    intros Hx Hy; try contradiction; try exact I.
  apply binary_round_aux_atLeastOne.
  pose proof (Z.log2_mul_below (Z.pos mx) (Z.pos my) ltac:(lia) ltac:(lia)) as Hlog.
  pose proof (digits2_pos_log2 mx) as Dx.
  pose proof (digits2_pos_log2 my) as Dy.
  pose proof (digits2_pos_log2 (mx * my)) as Dxy.
  rewrite Pos2Z.inj_mul in Dxy. lia.
Qed.

(** A double that is at least 1 is greater than 0. *)
Lemma double_gt_atLeastOne (x : Double.number) :
  atLeastOne x -> Double.gt x (Double.ofZ 0) = true.
Proof.
  change (Double.ofZ 0) with (S754_zero false).
  destruct x as [[]|[]| |[] m e]; cbn; intros H; try contradiction; reflexivity.
Qed.

Lemma binary_round_aux_notPositive (m e : Z) (l : location) :
  notPositive (binary_round_aux 53 1024 true m e l).
Proof.
  unfold binary_round_aux.
  destruct (shr_fexp 53 1024 m e l) as [mrs' e'].
  destruct (shr_fexp 53 1024 _ e' loc_Exact) as [mrs'' e''].
  destruct (shr_m mrs''); cbn; [exact I| |exact I].
  destruct (e'' <=? 1024 - 53); exact I.
Qed.

Lemma double_ofZ_notPositive (z : Z) : z < 0 -> notPositive (Double.ofZ z).
Proof.
  intros Hz. unfold Double.ofZ, binary_normalize.
  destruct z as [|p|p]; [lia|lia|].
  unfold binary_round. destruct (shl_align _ _ _) as [mz ez].
  apply binary_round_aux_notPositive.
Qed.

Lemma double_mul_notPositive (x y : Double.number) :
  notPositive x -> atLeastOne y -> notPositive (Double.mul x y).
Proof.
  unfold Double.mul, SFmul.
  destruct x as [[]|[]| |[] mx ex], y as [[]|[]| |[] my ey]; cbn;
    intros Hx Hy; try contradiction; try exact I.
  apply binary_round_aux_notPositive.
Qed.

Lemma double_gt_notPositive (x : Double.number) :
  notPositive x -> Double.gt x (Double.ofZ 0) = false.
Proof.
  change (Double.ofZ 0) with (S754_zero false).
  destruct x as [[]|[]| |[] m e]; cbn; intros H; try contradiction; reflexivity.
Qed.

(** The test [durationTargetMinutes > 0] of the code succeeds exactly when
    the stored expected duration is positive: the product of the expected
    duration and of the repetition target, which is at least 1, has the
    sign of the expected duration and does not underflow. *)
Lemma double_durationTarget_gt_0 (expected repetitionTarget : Z) :
  1 <= repetitionTarget ->
  Double.gt
    (if expected =? 0 then Double.ofZ 0
     else Double.mul (Double.ofZ expected) (Double.ofZ repetitionTarget))
    (Double.ofZ 0)
  = (0 <? expected).
Proof.
  intros Ht.
  assert (Hone : atLeastOne (Double.ofZ repetitionTarget))
    by (apply double_ofZ_atLeastOne; lia).
  destruct (Z.eqb_spec expected 0) as [->|Hne]; [reflexivity|].
  destruct (Z.ltb_spec 0 expected) as [Hpos|Hneg].
  - apply double_gt_atLeastOne, double_mul_atLeastOne;
      [apply double_ofZ_atLeastOne; lia|exact Hone].
  - apply double_gt_notPositive, double_mul_notPositive;
      [apply double_ofZ_notPositive; lia|exact Hone].
Qed.

(** The score of [habitScoreBreakdown] is the formula of the specification
    with the duration progress of a positive expected duration, over the entries of the three maps and for
    every habit. *)
Lemma double_habitScoreBreakdown_score (h : Habit.t) (now : Z)
    (completions : gmap string Z) (duration : gmap string Double.number)
    (postpones : gmap string Z) :
  Double.DailyScoreHabitBreakdown.score
    (Double.habitScoreBreakdown h now completions duration postpones)
  = Double.Spec.score h now (getZ completions (Habit.id h))
      (Double.getN duration (Habit.id h)) (getZ postpones (Habit.id h)).
Proof.
  unfold Double.habitScoreBreakdown, Double.Spec.score, Double.Spec.penalised.
  cbn [Double.DailyScoreHabitBreakdown.score].
  set (t := Z.max 1 (Habit.targetRepetitionsPerDay h)).
  rewrite !double_clamp_clamp01, double_literal_20_100.
  set (rp := Double.Spec.clamp01 (Double.div _ (Double.ofZ t))).
  assert (Hover :
    (if Habit.dueAt h <? now
     then Double.Math_max (Double.ofZ 0)
            (Double.div (Double.ofZ (now - Habit.dueAt h)) (Double.ofZ 60000))
     else Double.ofZ 0)
    = (if Habit.dueAt h <? now
       then Double.div (Double.ofZ (now - Habit.dueAt h)) (Double.ofZ 60000)
       else Double.ofZ 0)).
  { destruct (Z.ltb_spec (Habit.dueAt h) now) as [Hlt|_]; [|reflexivity].
    apply double_Math_max_0, double_div_notNegative;
      apply double_ofZ_notNegative; lia. }
  rewrite Hover. clear Hover.
  rewrite (double_mul_comm (Double.literal 65 100)),
    (double_mul_comm (Double.literal 35 100)).
  destruct (Habit.expectedDurationMinutes h) as [d|]; [|reflexivity].
  rewrite (double_durationTarget_gt_0 d t) by (unfold t; lia).
  destruct (Z.ltb_spec 0 d) as [Hpos|_]; [|reflexivity].
  destruct (Z.eqb_spec d 0) as [Hzero|_]; [lia|reflexivity].
Qed.

Lemma double_tallyCompletion_fold (l : list CompletionRecord.t)
    (reps : gmap string Z) (durs : gmap string Double.number) (key : string) :
  getZ (fst (fold_left Double.tallyCompletion l (reps, durs))) key
  = getZ reps key
    + Z.of_nat (length (filterb (fun c => String.eqb (CompletionRecord.habitId c) key) l))
  /\ Double.getN (snd (fold_left Double.tallyCompletion l (reps, durs))) key
     = fold_left
         (fun total c =>
            Double.add total
              (Double.div (Double.ofZ (CompletionRecord.durationSeconds c))
                 (Double.ofZ 60)))
         (filterb (fun c => String.eqb (CompletionRecord.habitId c) key) l)
         (Double.getN durs key).
Proof.
  revert reps durs. induction l as [|c l IH]; intros reps durs.
  - cbn. split; [lia|reflexivity].
  - cbn [fold_left filterb]. unfold Double.tallyCompletion at 2 4.
    destruct (IH (<[CompletionRecord.habitId c :=
                      getZ reps (CompletionRecord.habitId c) + 1]> reps)
                 (<[CompletionRecord.habitId c :=
                      Double.add (Double.getN durs (CompletionRecord.habitId c))
                        (Double.div
                           (Double.ofZ (CompletionRecord.durationSeconds c))
                           (Double.ofZ 60))]> durs))
      as [IHr IHd].
    rewrite IHr, IHd. clear IHr IHd.
    destruct (String.eqb_spec (CompletionRecord.habitId c) key) as [->|Hne].
    + unfold getZ at 1, Double.getN at 1. rewrite !lookup_insert_eq. cbn.
      split; [lia|reflexivity].
    + unfold getZ at 1, Double.getN at 1. rewrite !lookup_insert_ne by exact Hne.
      split; reflexivity.
Qed.

Lemma double_computeDailyScore_breakdown (s : Store) (dayStart now : Z) :
  exists ds,
    Double.computeDailyScore dayStart now s = (Ok ds, s)
    /\ Double.DailyScore.breakdown ds = doubleBreakdownOf dayStart now s.
Proof.
  unfold Double.computeDailyScore, listCompletions, listPostpones, listHabits.
  run. fold (activeHabits s).
  unfold doubleBreakdownOf, todayCompletionsOf, todayPostponesOf.
  destruct (fold_left Double.tallyCompletion _ (∅, ∅)) as [reps durs].
  eexists. split; reflexivity.
Qed.

(** The maps of the loops hold the day's totals of each habit. *)
Lemma double_tallies_totals (s : Store) (dayStart now : Z) (key : string) :
  getZ (fst (fold_left Double.tallyCompletion
               (todayCompletionsOf dayStart now s) (∅, ∅))) key
  = Spec.todayCompletions dayStart now key (completions s)
  /\ Double.getN (snd (fold_left Double.tallyCompletion
                         (todayCompletionsOf dayStart now s) (∅, ∅))) key
     = Double.Spec.todayDurationMinutes dayStart now key (completions s)
  /\ getZ (fold_left tallyPostpone (todayPostponesOf dayStart now s) ∅) key
     = Spec.todayPostpones dayStart now key (postpones s).
Proof.
  destruct (double_tallyCompletion_fold (todayCompletionsOf dayStart now s) ∅ ∅ key)
    as [Hr Hd].
  rewrite Hr, Hd, tallyPostpone_fold.
  unfold getZ, Double.getN. rewrite !lookup_empty. cbn [default from_option id].
  unfold Spec.todayCompletions, Double.Spec.todayDurationMinutes,
    Spec.todayPostpones, todayCompletionsOf, todayPostponesOf.
  rewrite !filterb_filterb. repeat split; lia.
Qed.

(** The scores [score.ts] returns at ordinary inputs: the example of the
    specification, and a habit with 3 of 10 repetitions and one postpone,
    whose product [0.3 * 0.95 * 100] is just below 28.5 in doubles. *)
Example double_score_95 :
  map Double.DailyScoreHabitBreakdown.score
    (doubleBreakdownOf 0 1800000 Sample.scoredStore)
  = [Double.ofZ 95].
Proof. vm_compute. reflexivity. Qed.

Example double_score_28 :
  map Double.DailyScoreHabitBreakdown.score
    (doubleBreakdownOf 0 1800000 Sample.tenStore)
  = [Double.ofZ 28].
Proof. vm_compute. reflexivity. Qed.

(** The minutes of 42, 84 and 84 seconds add up to 3.4999999999999996 in
    doubles, which [Math.round] takes to 3. *)
Example double_totalTrackedMinutes_3 :
  exists ds,
    Double.computeDailyScore 0 1500000 Sample.trackedStore
    = (Ok ds, Sample.trackedStore)
    /\ Double.DailyScore.totalTrackedMinutes ds = Double.ofZ 3
    /\ Double.DailyScore.completedCount ds = 3.
Proof. eexists. split; [vm_compute; reflexivity|]. split; vm_compute; reflexivity. Qed.

(** C2, as stated, fails: for a habit whose stored expected duration is
    not positive the code takes the repetition progress as the duration
    progress, where the formula as stated takes the clamped ratio; with
    an expected duration of -5, one target repetition and one completion of
    ten minutes the code scores 100 and the formula 65. *)
Lemma score_formula_counterexample :
  ~ (forall (s : Store) (dayStart now : Z) (ds : Double.DailyScore.t),
        fst (Double.computeDailyScore dayStart now s) = Ok ds ->
        map Double.DailyScoreHabitBreakdown.score (Double.DailyScore.breakdown ds)
        = map (fun h =>
                 Double.Spec.claimed h now
                   (Spec.todayCompletions dayStart now (Habit.id h) (completions s))
                   (Double.Spec.todayDurationMinutes dayStart now (Habit.id h)
                      (completions s))
                   (Spec.todayPostpones dayStart now (Habit.id h) (postpones s)))
            (activeHabits s)).
Proof.
  intros H.
  destruct (double_computeDailyScore_breakdown Sample.oddStore 0 1800000)
    as (ds & Hrun & Hb).
  specialize (H Sample.oddStore 0 1800000 ds).
  rewrite Hrun, Hb in H. specialize (H eq_refl).
  assert (Hcode : map Double.DailyScoreHabitBreakdown.score
                    (doubleBreakdownOf 0 1800000 Sample.oddStore)
                  = [Double.ofZ 100]) by (vm_compute; reflexivity).
  rewrite Hcode in H. vm_compute in H. discriminate H.
Qed.

(** C2, amended. For every non-archived habit, in the order of
    [listHabits(false)], the score [computeDailyScore] returns is
    [round(clamp01(rawProgress * (1 - postponePenalty - overduePenalty)) * 100)]
    evaluated in double precision, with [rawProgress], the repetition
    progress and the two penalties as the specification states them over
    the number of today's completions of the habit, the sum of their
    durations in minutes and the number of today's postpones, and with the
    duration progress equal to the clamped ratio when an expected duration
    is set and positive, and to the repetition progress otherwise. For a
    habit whose expected duration is absent or positive this is the formula
    as the specification words it. *)
Theorem score_formula_double (s : Store) (dayStart now : Z) :
  (exists ds,
    Double.computeDailyScore dayStart now s = (Ok ds, s)
    /\ map Double.DailyScoreHabitBreakdown.habitId (Double.DailyScore.breakdown ds)
       = map Habit.id (activeHabits s)
    /\ map Double.DailyScoreHabitBreakdown.score (Double.DailyScore.breakdown ds)
       = map (fun h =>
                Double.Spec.score h now
                  (Spec.todayCompletions dayStart now (Habit.id h) (completions s))
                  (Double.Spec.todayDurationMinutes dayStart now (Habit.id h)
                     (completions s))
                  (Spec.todayPostpones dayStart now (Habit.id h) (postpones s)))
           (activeHabits s))
  /\ (forall h, h ∈ activeHabits s <-> h ∈ habits s /\ Habit.archived h = false)
  /\ (forall h todayCompletions todayDurationMinutes todayPostpones,
        (forall expected,
            Habit.expectedDurationMinutes h = Some expected -> 0 < expected) ->
        Double.Spec.score h now todayCompletions todayDurationMinutes todayPostpones
        = Double.Spec.claimed h now todayCompletions todayDurationMinutes
            todayPostpones).
Proof.
  split; [|split].
  - destruct (double_computeDailyScore_breakdown s dayStart now) as (ds & Hrun & Hb).
    exists ds. split; [exact Hrun|]. rewrite Hb. unfold doubleBreakdownOf. cbv zeta.
    rewrite !map_map. split; [reflexivity|].
    apply map_ext. intros h.
    rewrite double_habitScoreBreakdown_score.
    destruct (double_tallies_totals s dayStart now (Habit.id h)) as (Hr & Hd & Hp).
    now rewrite Hr, Hd, Hp.
  - apply elem_of_activeHabits.
  - intros h c m p Hpos. unfold Double.Spec.score, Double.Spec.claimed.
    destruct (Habit.expectedDurationMinutes h) as [d|]; [|reflexivity].
    specialize (Hpos d eq_refl).
    destruct (Z.ltb_spec 0 d) as [_|Hle]; [reflexivity|lia].
Qed.

Lemma score_formula_double_witness :
  exists ds,
    Double.computeDailyScore 0 1800000 Sample.scoredStore = (Ok ds, Sample.scoredStore)
    /\ map Double.DailyScoreHabitBreakdown.score (Double.DailyScore.breakdown ds)
       = [Double.Spec.claimed Sample.water 1800000 2 (Double.ofZ 20) 1]
    /\ Double.Spec.claimed Sample.water 1800000 2 (Double.ofZ 20) 1 = Double.ofZ 95.
Proof.
  destruct (score_formula_double Sample.scoredStore 0 1800000)
    as ((ds & Hrun & _ & Hscore) & _ & Hclaimed).
  exists ds. split; [exact Hrun|]. split; [|vm_compute; reflexivity].
  rewrite Hscore. cbn [map activeHabits].
  etransitivity; [|apply f_equal2; [apply (Hclaimed Sample.water)|reflexivity]].
  - vm_compute. reflexivity.
  - intros expected Hexp. injection Hexp as <-. lia.
Defined.

(** * Further properties of the storage layer *)

(** ** What each call leaves in the store *)

Lemma archiveHabit_run (s : Store) (habitId : string) :
  archiveHabit habitId s
  = (Ok tt,
     mkStore
       (map (fun h => if hasId habitId h then archivedCopy h else h) (habits s))
       (withoutHabit habitId (sessions s)) (completions s) (postpones s)).
Proof. reflexivity. Qed.

Lemma postponeHabit_absent (s : Store) (now : Z) (newId habitId : string)
    (minutes : Q) :
  findIndex (hasId habitId) (habits s) = None ->
  postponeHabit now newId habitId minutes s = (Throw NotFound, s).
Proof.
  intros Hfind. unfold postponeHabit, hasId in *. run.
  rewrite Hfind. reflexivity.
Qed.

Lemma setHabitLastReminder_found (s : Store) (habitId : string) (atIso : Z)
    (index : nat) (h : Habit.t) :
  findIndex (hasId habitId) (habits s) = Some index ->
  habits s !! index = Some h ->
  setHabitLastReminder habitId atIso s
  = (Ok tt,
     mkStore (<[index := reminded atIso h]> (habits s))
       (sessions s) (completions s) (postpones s)).
Proof.
  intros Hfind Hlook. unfold setHabitLastReminder, hasId in *. run.
  rewrite Hfind, Hlook. reflexivity.
Qed.

Lemma setHabitLastReminder_absent (s : Store) (habitId : string) (atIso : Z) :
  findIndex (hasId habitId) (habits s) = None ->
  setHabitLastReminder habitId atIso s = (Ok tt, s).
Proof.
  intros Hfind. unfold setHabitLastReminder, hasId in *. run.
  rewrite Hfind. reflexivity.
Qed.

Lemma upsertHabit_update_found (s : Store) (now now' : Z) (newId : string)
    (draft : HabitDraft.t) (existing : string) (index : nat) (previous : Habit.t) :
  existing <> "" ->
  findIndex (hasId existing) (habits s) = Some index ->
  habits s !! index = Some previous ->
  upsertHabit now now' newId draft (Some existing) s
  = (Ok (updated draft previous),
     mkStore (<[index := updated draft previous]> (habits s))
       (sessions s) (completions s) (postpones s)).
Proof.
  intros Hne Hfind Hlook. unfold upsertHabit, hasId in *. run.
  destruct existing as [|a e]; [contradiction|]. cbn [truthy].
  rewrite Hfind, Hlook. reflexivity.
Qed.

Lemma upsertHabit_update_absent (s : Store) (now now' : Z) (newId : string)
    (draft : HabitDraft.t) (existing : string) :
  existing <> "" ->
  findIndex (hasId existing) (habits s) = None ->
  upsertHabit now now' newId draft (Some existing) s = (Throw NotFound, s).
Proof.
  intros Hne Hfind. unfold upsertHabit, hasId in *. run.
  destruct existing as [|a e]; [contradiction|]. cbn [truthy].
  rewrite Hfind. reflexivity.
Qed.

Lemma upsertHabit_empty_id (s : Store) (now now' : Z) (newId : string)
    (draft : HabitDraft.t) :
  upsertHabit now now' newId draft (Some "") s
  = upsertHabit now now' newId draft None s.
Proof. reflexivity. Qed.

(** The identifier survives every replacement of a habit record. *)
Lemma habitIds_insert (l : list Habit.t) (index : nat) (h h' : Habit.t) :
  l !! index = Some h -> Habit.id h' = Habit.id h ->
  map Habit.id (<[index := h']> l) = map Habit.id l.
Proof.
  intros Hlook Hid.
  change (Habit.id <$> <[index := h']> l = Habit.id <$> l).
  rewrite list_fmap_insert, Hid. apply list_insert_id.
  now rewrite list_lookup_fmap, Hlook.
Qed.

Lemma filterb_sublist {A} (p : A -> bool) (l : list A) : filterb p l `sublist_of` l.
Proof.
  induction l as [|x l IH]; cbn; [constructor|].
  destruct (p x); now constructor.
Qed.

Lemma filterb_all {A} (p : A -> bool) (l : list A) :
  (forall x, x ∈ l -> p x = true) -> filterb p l = l.
Proof.
  induction l as [|x l IH]; cbn; intros H; [reflexivity|].
  rewrite (H x) by left. f_equal. apply IH. intros y Hy. apply H. now right.
Qed.

Lemma filterb_idempotent {A} (p : A -> bool) (l : list A) :
  filterb p (filterb p l) = filterb p l.
Proof.
  apply filterb_all. intros x Hx. now apply elem_of_filterb in Hx.
Qed.

(** The ways a call can change the collections. *)
Lemma exec_sessions (s : Store) (op : Op) :
  (exists p, sessions (exec s op) = filterb p (sessions s))
  \/ (exists now newId habitId,
        find (timing habitId) (sessions s) = None
        /\ sessions (exec s op) = sessions s ++ [TimerSession.mk newId habitId now]).
Proof.
  assert (Hsame : forall l : list TimerSession.t, exists p, l = filterb p l).
  { intros l. exists (fun _ => true). symmetry. now apply filterb_all. }
  destruct op as [now now' newId draft existingId|habitId|now newId habitId
                 |now now' newId habitId|now newId habitId options
                 |now newId habitId minutes|habitId atIso]; cbn [exec].
  - left. unfold upsertHabit. run.
    destruct (truthy existingId) as [e|]; [|apply Hsame].
    destruct (findIndex _ (habits s)) as [i|]; [|apply Hsame].
    destruct (habits s !! i); apply Hsame.
  - left. rewrite archiveHabit_run. cbn. eexists. reflexivity.
  - destruct (find (timing habitId) (sessions s)) as [existing|] eqn:Hfind.
    + left. rewrite (startHabitTimer_existing _ _ _ _ _ Hfind). apply Hsame.
    + right. rewrite (startHabitTimer_new _ _ _ _ Hfind). cbn. eauto.
  - left. destruct (find (timing habitId) (sessions s)) as [session|] eqn:Hfind.
    + rewrite (stopHabitTimer_session _ _ _ _ _ _ Hfind).
      set (s0 := mkStore _ _ _ _). set (opts := CompleteOptions.mk _ _).
      destruct (findIndex (hasId habitId) (habits s0)) as [i|] eqn:Hi.
      * destruct (findIndex_Some _ _ _ Hi) as (h & Hh & _).
        rewrite (completeHabit_found _ _ _ _ _ _ _ Hi Hh). cbn.
        unfold withoutHabit, withoutSession. rewrite filterb_filterb.
        eexists. reflexivity.
      * rewrite (completeHabit_absent _ _ _ _ _ Hi). cbn. eexists. reflexivity.
    + rewrite (stopHabitTimer_no_session _ _ _ _ _ Hfind). apply Hsame.
  - left. destruct (findIndex (hasId habitId) (habits s)) as [i|] eqn:Hi.
    + destruct (findIndex_Some _ _ _ Hi) as (h & Hh & _).
      rewrite (completeHabit_found _ _ _ _ _ _ _ Hi Hh). cbn. eexists. reflexivity.
    + rewrite (completeHabit_absent _ _ _ _ _ Hi). apply Hsame.
  - left. destruct (findIndex (hasId habitId) (habits s)) as [i|] eqn:Hi.
    + destruct (findIndex_Some _ _ _ Hi) as (h & Hh & _).
      rewrite (postponeHabit_found _ _ _ _ _ _ _ Hi Hh). apply Hsame.
    + rewrite (postponeHabit_absent _ _ _ _ _ Hi). apply Hsame.
  - left. destruct (findIndex (hasId habitId) (habits s)) as [i|] eqn:Hi.
    + destruct (findIndex_Some _ _ _ Hi) as (h & Hh & _).
      rewrite (setHabitLastReminder_found _ _ _ _ _ Hi Hh). apply Hsame.
    + rewrite (setHabitLastReminder_absent _ _ _ Hi). apply Hsame.
Qed.

Lemma exec_logs (s : Store) (op : Op) :
  (completions (exec s op) = completions s
   \/ exists c, completions (exec s op) = completions s ++ [c])
  /\ (postpones (exec s op) = postpones s
      \/ exists p, postpones (exec s op) = postpones s ++ [p]).
Proof.
  destruct op as [now now' newId draft existingId|habitId|now newId habitId
                 |now now' newId habitId|now newId habitId options
                 |now newId habitId minutes|habitId atIso]; cbn [exec].
  - unfold upsertHabit. run.
    destruct (truthy existingId) as [e|]; [|cbn; auto].
    destruct (findIndex _ (habits s)) as [i|]; [|cbn; auto].
    destruct (habits s !! i); cbn; auto.
  - rewrite archiveHabit_run. cbn. auto.
  - destruct (find (timing habitId) (sessions s)) as [existing|] eqn:Hfind.
    + rewrite (startHabitTimer_existing _ _ _ _ _ Hfind). auto.
    + rewrite (startHabitTimer_new _ _ _ _ Hfind). cbn. auto.
  - destruct (find (timing habitId) (sessions s)) as [session|] eqn:Hfind.
    + rewrite (stopHabitTimer_session _ _ _ _ _ _ Hfind).
      set (s0 := mkStore _ _ _ _). set (opts := CompleteOptions.mk _ _).
      destruct (findIndex (hasId habitId) (habits s0)) as [i|] eqn:Hi.
      * destruct (findIndex_Some _ _ _ Hi) as (h & Hh & _).
        rewrite (completeHabit_found _ _ _ _ _ _ _ Hi Hh). cbn. eauto.
      * rewrite (completeHabit_absent _ _ _ _ _ Hi). cbn. auto.
    + rewrite (stopHabitTimer_no_session _ _ _ _ _ Hfind). auto.
  - destruct (findIndex (hasId habitId) (habits s)) as [i|] eqn:Hi.
    + destruct (findIndex_Some _ _ _ Hi) as (h & Hh & _).
      rewrite (completeHabit_found _ _ _ _ _ _ _ Hi Hh). cbn. eauto.
    + rewrite (completeHabit_absent _ _ _ _ _ Hi). auto.
  - destruct (findIndex (hasId habitId) (habits s)) as [i|] eqn:Hi.
    + destruct (findIndex_Some _ _ _ Hi) as (h & Hh & _).
      rewrite (postponeHabit_found _ _ _ _ _ _ _ Hi Hh). cbn. eauto.
    + rewrite (postponeHabit_absent _ _ _ _ _ Hi). auto.
  - destruct (findIndex (hasId habitId) (habits s)) as [i|] eqn:Hi.
    + destruct (findIndex_Some _ _ _ Hi) as (h & Hh & _).
      rewrite (setHabitLastReminder_found _ _ _ _ _ Hi Hh). cbn. auto.
    + rewrite (setHabitLastReminder_absent _ _ _ Hi). auto.
Qed.

Lemma exec_habitIds (s : Store) (op : Op) :
  habitIds (exec s op) = habitIds s
  \/ exists now now' newId draft existingId,
       op = Upsert now now' newId draft existingId
       /\ truthy existingId = None
       /\ habitIds (exec s op) = habitIds s ++ [newId].
Proof.
  unfold habitIds.
  destruct op as [now now' newId draft existingId|habitId|now newId habitId
                 |now now' newId habitId|now newId habitId options
                 |now newId habitId minutes|habitId atIso]; cbn [exec].
  - destruct (truthy existingId) as [e|] eqn:Htruthy.
    + left. unfold upsertHabit. run. rewrite Htruthy.
      destruct (findIndex _ (habits s)) as [i|]; [|reflexivity].
      destruct (habits s !! i) as [h|] eqn:Hh; [|reflexivity].
      cbn. now apply (habitIds_insert _ _ h).
    + right. exists now, now', newId, draft, existingId.
      split; [reflexivity|]. split; [exact Htruthy|].
      unfold upsertHabit. run. rewrite Htruthy. cbn.
      unfold push. now rewrite map_app.
  - left. rewrite archiveHabit_run. cbn. rewrite map_map.
    apply map_ext. intros h. now destruct (hasId habitId h).
  - left. destruct (find (timing habitId) (sessions s)) as [existing|] eqn:Hfind.
    + now rewrite (startHabitTimer_existing _ _ _ _ _ Hfind).
    + now rewrite (startHabitTimer_new _ _ _ _ Hfind).
  - left. destruct (find (timing habitId) (sessions s)) as [session|] eqn:Hfind.
    + rewrite (stopHabitTimer_session _ _ _ _ _ _ Hfind).
      set (s0 := mkStore _ _ _ _). set (opts := CompleteOptions.mk _ _).
      destruct (findIndex (hasId habitId) (habits s0)) as [i|] eqn:Hi.
      * destruct (findIndex_Some _ _ _ Hi) as (h & Hh & _).
        rewrite (completeHabit_found _ _ _ _ _ _ _ Hi Hh). cbn.
        now apply (habitIds_insert _ _ h).
      * now rewrite (completeHabit_absent _ _ _ _ _ Hi).
    + now rewrite (stopHabitTimer_no_session _ _ _ _ _ Hfind).
  - left. destruct (findIndex (hasId habitId) (habits s)) as [i|] eqn:Hi.
    + destruct (findIndex_Some _ _ _ Hi) as (h & Hh & _).
      rewrite (completeHabit_found _ _ _ _ _ _ _ Hi Hh). cbn.
      now apply (habitIds_insert _ _ h).
    + now rewrite (completeHabit_absent _ _ _ _ _ Hi).
  - left. destruct (findIndex (hasId habitId) (habits s)) as [i|] eqn:Hi.
    + destruct (findIndex_Some _ _ _ Hi) as (h & Hh & _).
      rewrite (postponeHabit_found _ _ _ _ _ _ _ Hi Hh). cbn.
      now apply (habitIds_insert _ _ h).
    + now rewrite (postponeHabit_absent _ _ _ _ _ Hi).
  - left. destruct (findIndex (hasId habitId) (habits s)) as [i|] eqn:Hi.
    + destruct (findIndex_Some _ _ _ Hi) as (h & Hh & _).
      rewrite (setHabitLastReminder_found _ _ _ _ _ Hi Hh). cbn.
      now apply (habitIds_insert _ _ h).
    + now rewrite (setHabitLastReminder_absent _ _ _ Hi).
Qed.

(** ** Invariants of the store *)

Lemma exec_one_session (s : Store) (op : Op) :
  oneSessionPerHabit s -> oneSessionPerHabit (exec s op).
Proof.
  unfold oneSessionPerHabit. intros Hinv.
  destruct (exec_sessions s op) as [[p ->]|(now & newId & habitId & Hnone & ->)].
  - eapply sublist_NoDup; [exact Hinv|].
    apply (fmap_sublist TimerSession.habitId), filterb_sublist.
  - rewrite map_app. apply NoDup_app. split; [exact Hinv|]. split.
    + intros k Hk Hnew. cbn in Hnew. apply list_elem_of_singleton in Hnew as ->.
      apply list_elem_of_fmap in Hk as (x & Hid & Hx).
      now apply (proj1 (find_timing_None _ _) Hnone x Hx).
    + apply NoDup_singleton.
Qed.

(** X1. At most one timer session per habit is an invariant of the storage
    layer: whatever sequence of calls of its mutators is run on a store
    that has the property, returning or throwing, the store they leave has
    it; so has every store reached from the empty one. *)
Theorem one_session_per_habit_invariant (s : Store) (ops : list Op) :
  oneSessionPerHabit s ->
  oneSessionPerHabit (fold_left exec ops s)
  /\ oneSessionPerHabit (fold_left exec ops emptyStore).
Proof.
  assert (Hstep : forall l t, oneSessionPerHabit t ->
                              oneSessionPerHabit (fold_left exec l t)).
  { induction l as [|op l IH]; intros t Ht; cbn; [exact Ht|].
    apply IH. now apply exec_one_session. }
  intros Hinv. split; [now apply Hstep|].
  apply Hstep. unfold oneSessionPerHabit. cbn. constructor.
Qed.

Lemma one_session_per_habit_invariant_witness :
  oneSessionPerHabit
    (fold_left exec
       [StartTimer 7000500 "s2" "h1"; StartTimer 7000600 "s3" "h2";
        Postpone 7000700 "p1" "h2" 5; StartTimer 7000800 "s4" "h2"]
       Sample.store).
Proof.
  apply (one_session_per_habit_invariant Sample.store).
  unfold oneSessionPerHabit. cbn. apply NoDup_singleton.
Defined.

(** X2. The completions and the postpones are append-only logs: no
    sequence of calls of the mutators removes, reorders or changes a record
    of either; the logs before are prefixes of the logs after, and one call
    appends at most one record to each. *)
Theorem logs_append_only (s : Store) (ops : list Op) :
  completions s `prefix_of` completions (fold_left exec ops s)
  /\ postpones s `prefix_of` postpones (fold_left exec ops s)
  /\ (length (completions (fold_left exec ops s))
      <= length (completions s) + length ops)%nat
  /\ (length (postpones (fold_left exec ops s))
      <= length (postpones s) + length ops)%nat.
Proof.
  revert s. induction ops as [|op ops IH]; intros s; cbn [fold_left].
  - repeat split; try reflexivity; cbn; lia.
  - destruct (IH (exec s op)) as (Hc & Hp & Hlc & Hlp).
    destruct (exec_logs s op) as [Hc1 Hp1].
    assert (completions s `prefix_of` completions (exec s op)
            /\ (length (completions (exec s op)) <= S (length (completions s)))%nat)
      as [Hc2 Hlc2].
    { destruct Hc1 as [->|[c ->]].
      - split; [reflexivity|lia].
      - split; [now apply prefix_app_r|rewrite length_app; cbn; lia]. }
    assert (postpones s `prefix_of` postpones (exec s op)
            /\ (length (postpones (exec s op)) <= S (length (postpones s)))%nat)
      as [Hp2 Hlp2].
    { destruct Hp1 as [->|[p ->]].
      - split; [reflexivity|lia].
      - split; [now apply prefix_app_r|rewrite length_app; cbn; lia]. }
    repeat split.
    + now transitivity (completions (exec s op)).
    + now transitivity (postpones (exec s op)).
    + cbn [length]. lia.
    + cbn [length]. lia.
Qed.

(** X3. Habit records are never deleted, reordered or given another
    identifier: after any call the identifiers before are a prefix of the
    identifiers after, and only a create adds one, at the end. Unique
    identifiers stay unique as long as the identifier a create draws is not
    in use. *)
Theorem habit_ids_stable (s : Store) (op : Op) :
  habitIds s `prefix_of` habitIds (exec s op)
  /\ (habitIds (exec s op) = habitIds s
      \/ exists now now' newId draft existingId,
           op = Upsert now now' newId draft existingId
           /\ truthy existingId = None
           /\ habitIds (exec s op) = habitIds s ++ [newId])
  /\ (NoDup (habitIds s) ->
      (forall now now' newId draft existingId,
          op = Upsert now now' newId draft existingId ->
          truthy existingId = None -> newId ∉ habitIds s) ->
      NoDup (habitIds (exec s op))).
Proof.
  pose proof (exec_habitIds s op) as Hids. split; [|split; [exact Hids|]].
  - destruct Hids as [->|(now & now' & newId & draft & e & _ & _ & ->)];
      [reflexivity|now apply prefix_app_r].
  - intros Hnodup Hfresh.
    destruct Hids as [->|(now & now' & newId & draft & e & Hop & Ht & ->)];
      [exact Hnodup|].
    apply NoDup_app. split; [exact Hnodup|]. split; [|apply NoDup_singleton].
    intros k Hk Hnew. apply list_elem_of_singleton in Hnew as ->.
    now apply (Hfresh now now' newId draft e Hop Ht).
Qed.

Lemma habit_ids_stable_witness :
  NoDup (habitIds (exec Sample.store
                     (Upsert 9000000 9000001 "h3" Sample.draft None))).
Proof.
  apply (proj2 (proj2 (habit_ids_stable Sample.store
                         (Upsert 9000000 9000001 "h3" Sample.draft None)))).
  - unfold habitIds. cbn. apply NoDup_cons. split; [|apply NoDup_singleton].
    intros H. apply list_elem_of_singleton in H. discriminate H.
  - intros now now' newId draft e [= _ _ <- _ _] _. unfold habitIds. cbn.
    intros H. apply elem_of_cons in H as [H|H]; [discriminate H|].
    apply list_elem_of_singleton in H. discriminate H.
Defined.

(** ** Sorting and filtering commute *)

Lemma sort_insert_first (x : Habit.t) (l : list Habit.t) :
  (forall z, z ∈ l -> dueAt_le x z) -> sort_insert by_dueAt x l = x :: l.
Proof.
  destruct l as [|y l]; [reflexivity|]. intros H. cbn.
  specialize (H y (list_elem_of_here _ _)). unfold dueAt_le in H. unfold by_dueAt.
  destruct (Z.leb_spec (Habit.dueAt x - Habit.dueAt y) 0); [reflexivity|lia].
Qed.

Lemma filterb_sort_insert (p : Habit.t -> bool) (x : Habit.t) (l : list Habit.t) :
  StronglySorted dueAt_le l ->
  filterb p (sort_insert by_dueAt x l)
  = if p x then sort_insert by_dueAt x (filterb p l) else filterb p l.
Proof.
  induction 1 as [|y l Hs IH Hall]; cbn.
  - destruct (p x); reflexivity.
  - unfold by_dueAt at 1.
    destruct (Z.leb_spec (Habit.dueAt x - Habit.dueAt y) 0) as [Hle|Hgt]; cbn.
    + destruct (p x) eqn:Hx; [|reflexivity].
      symmetry. apply sort_insert_first. intros z Hz. unfold dueAt_le.
      destruct (p y) eqn:Hy.
      * apply elem_of_cons in Hz as [->|Hz]; [lia|].
        apply elem_of_filterb in Hz as [Hz _].
        rewrite Forall_forall in Hall. specialize (Hall z Hz).
        unfold dueAt_le in Hall. lia.
      * apply elem_of_filterb in Hz as [Hz _].
        rewrite Forall_forall in Hall. specialize (Hall z Hz).
        unfold dueAt_le in Hall. lia.
    + rewrite IH. destruct (p y) eqn:Hy, (p x) eqn:Hx; try reflexivity.
      cbn. unfold by_dueAt at 2.
      destruct (Z.leb_spec (Habit.dueAt x - Habit.dueAt y) 0); [lia|reflexivity].
Qed.

Lemma sort_filterb (p : Habit.t -> bool) (l : list Habit.t) :
  sort by_dueAt (filterb p l) = filterb p (sort by_dueAt l).
Proof.
  induction l as [|x l IH]; cbn; [reflexivity|].
  rewrite filterb_sort_insert
    by (apply Sorted_StronglySorted;
        [intros a b c; unfold dueAt_le; lia|apply sort_by_dueAt_Sorted]).
  destruct (p x); cbn; now rewrite IH.
Qed.

(** ** [archiveHabit] *)

Lemma archived_filter (habitId : string) (l : list Habit.t) :
  filterb (fun h => negb (Habit.archived h))
    (map (fun h => if hasId habitId h then archivedCopy h else h) l)
  = filterb (fun h => negb (hasId habitId h))
      (filterb (fun h => negb (Habit.archived h)) l).
Proof.
  induction l as [|h l IH]; cbn; [reflexivity|].
  destruct (hasId habitId h) eqn:Hid; cbn.
  - rewrite IH. destruct (Habit.archived h); cbn; [reflexivity|].
    now rewrite Hid.
  - destruct (Habit.archived h); cbn; [exact IH|].
    now rewrite Hid, IH.
Qed.

(** X4. [archiveHabit] never fails. It takes the habit out of the listing
    of [listHabits(false)] and leaves the other habits listed in the order
    they had; it drops the timer sessions of the habit and no other, and it
    touches neither log nor any identifier. *)
Theorem archiveHabit_hides (s : Store) (habitId : string) :
  exists s',
    archiveHabit habitId s = (Ok tt, s')
    /\ activeHabits s' = filterb (fun h => negb (hasId habitId h)) (activeHabits s)
    /\ (forall h, h ∈ activeHabits s' -> Habit.id h <> habitId)
    /\ (forall h, h ∈ habits s' -> Habit.id h = habitId -> Habit.archived h = true)
    /\ sessions s' = withoutHabit habitId (sessions s)
    /\ (forall x, x ∈ sessions s' <->
                  x ∈ sessions s /\ TimerSession.habitId x <> habitId)
    /\ completions s' = completions s
    /\ postpones s' = postpones s
    /\ habitIds s' = habitIds s.
Proof.
  set (s' := mkStore
               (map (fun h => if hasId habitId h then archivedCopy h else h)
                  (habits s))
               (withoutHabit habitId (sessions s)) (completions s) (postpones s)).
  exists s'. split; [apply archiveHabit_run|].
  assert (Hactive :
            activeHabits s'
            = filterb (fun h => negb (hasId habitId h)) (activeHabits s)).
  { unfold activeHabits, s'. cbn [habits].
    now rewrite archived_filter, sort_filterb. }
  split; [exact Hactive|]. split.
  { intros h. rewrite Hactive, elem_of_filterb. intros [_ Hid].
    unfold hasId in Hid. apply String.eqb_neq. now destruct (String.eqb _ _). }
  split.
  { intros h Hh Hid. unfold s' in Hh. cbn [habits] in Hh.
    apply list_elem_of_fmap in Hh as (h0 & -> & Hh0).
    destruct (hasId habitId h0) eqn:Hh; [reflexivity|].
    unfold hasId in Hh. apply String.eqb_neq in Hh. contradiction. }
  split; [reflexivity|]. split.
  { intros x. unfold s'. cbn [sessions]. unfold withoutHabit.
    rewrite elem_of_filterb.
    split; intros [Hx Hne]; (split; [exact Hx|]).
    - apply String.eqb_neq. now destruct (String.eqb _ _).
    - apply String.eqb_neq in Hne. now rewrite Hne. }
  split; [reflexivity|]. split; [reflexivity|].
  unfold habitIds, s'. cbn [habits]. rewrite map_map. apply map_ext.
  intros h. now destruct (hasId habitId h).
Qed.

(** X5. [archiveHabit] is idempotent: archiving again leaves the store of
    the first call. For an identifier that no habit and no session carries
    it returns without an error and without a change. *)
Theorem archiveHabit_idempotent (s : Store) (habitId : string) :
  archiveHabit habitId (snd (archiveHabit habitId s))
  = (Ok tt, snd (archiveHabit habitId s))
  /\ ((forall h, h ∈ habits s -> Habit.id h <> habitId) ->
      (forall x, x ∈ sessions s -> TimerSession.habitId x <> habitId) ->
      archiveHabit habitId s = (Ok tt, s)).
Proof.
  split.
  - rewrite !archiveHabit_run. cbn. f_equal. f_equal.
    + rewrite map_map. apply map_ext. intros h.
      destruct (hasId habitId h) eqn:Hh; cbn.
      * unfold hasId in *. cbn. now rewrite Hh.
      * now rewrite Hh.
    + apply filterb_idempotent.
  - intros Hh Hx. rewrite archiveHabit_run. destruct s as [hs ss cs ps]. cbn in *.
    f_equal. f_equal.
    + rewrite <- (map_id hs) at 2. apply map_ext_in. intros h Hin.
      apply list_elem_of_In in Hin. unfold hasId.
      now rewrite (proj2 (String.eqb_neq _ _) (Hh h Hin)).
    + apply filterb_all. intros x Hin.
      now rewrite (proj2 (String.eqb_neq _ _) (Hx x Hin)).
Qed.

Lemma archiveHabit_idempotent_witness :
  archiveHabit "ghost" Sample.store = (Ok tt, Sample.store).
Proof.
  apply (proj2 (archiveHabit_idempotent Sample.store "ghost")).
  - intros h Hh. cbn in Hh. apply elem_of_cons in Hh as [->|Hh]; [discriminate|].
    apply list_elem_of_singleton in Hh as ->. discriminate.
  - intros x Hx. apply list_elem_of_singleton in Hx as ->. discriminate.
Defined.

(** X6. Archiving discards a running timer without turning it into a
    completion: after [archiveHabit], [stopHabitTimer] for the habit fails
    with [NoActiveTimer] and changes nothing, and the completions are the
    ones from before the archive. *)
Theorem archive_discards_timer (s : Store) (habitId : string)
    (now now' : Z) (newId : string) :
  stopHabitTimer now now' newId habitId (snd (archiveHabit habitId s))
  = (Throw NoActiveTimer, snd (archiveHabit habitId s))
  /\ completions (snd (archiveHabit habitId s)) = completions s.
Proof.
  rewrite archiveHabit_run. cbn [snd]. split; [|reflexivity].
  apply stopHabitTimer_no_session. cbn [sessions].
  apply find_timing_None. intros x. apply not_in_withoutHabit.
Qed.

(** ** Timers, start to stop *)

Lemma filterb_push_out {A} (p : A -> bool) (l : list A) (x : A) :
  (forall y, y ∈ l -> p y = true) -> p x = false -> filterb p (l ++ [x]) = l.
Proof.
  intros Hl Hx. fold (push l x). rewrite filterb_push, Hx.
  now apply filterb_all.
Qed.

(** X7. A timer started and then stopped is a round trip on the sessions
    and one completion more: for a habit that exists and is not being
    timed, [startHabitTimer] at [t1] followed by [stopHabitTimer] at [t2]
    returns a completion with [source = timer] and the whole seconds from
    [t1] to [t2] (0 when the clock went back), appends it to the log and
    leaves the sessions as they were before the start, the session
    identifier drawn being one no other session carries. *)
Theorem start_then_stop
    (s : Store) (t1 t2 t3 : Z) (sessionId completionId habitId : string)
    (index : nat) :
  findIndex (hasId habitId) (habits s) = Some index ->
  find (timing habitId) (sessions s) = None ->
  (forall x, x ∈ sessions s -> TimerSession.id x <> sessionId) ->
  exists session s1 c s2,
    startHabitTimer t1 sessionId habitId s = (Ok session, s1)
    /\ stopHabitTimer t2 t3 completionId habitId s1 = (Ok c, s2)
    /\ c = CompletionRecord.mk completionId habitId t3
             (Z.max 0 ((t2 - t1) / 1000)) timer
    /\ sessions s2 = sessions s
    /\ completions s2 = completions s ++ [c]
    /\ postpones s2 = postpones s.
Proof.
  intros Hhabit Hnone Hfresh.
  destruct (findIndex_Some _ _ _ Hhabit) as (h & Hh & _).
  set (session := TimerSession.mk sessionId habitId t1).
  eexists session, _, _, _.
  split; [apply (startHabitTimer_new _ _ _ _ Hnone)|].
  set (s1 := mkStore _ _ _ _).
  assert (Hfound : find (timing habitId) (sessions s1) = Some session).
  { unfold s1. cbn [sessions]. apply (find_push_new (timing habitId)); [exact Hnone|].
    apply String.eqb_refl. }
  rewrite (stopHabitTimer_session _ _ _ _ _ _ Hfound).
  assert (Hrest : withoutSession session (sessions s1) = sessions s).
  { unfold s1, withoutSession. cbn [sessions]. apply filterb_push_out.
    - intros y Hy. cbn. now rewrite (proj2 (String.eqb_neq _ _) (Hfresh y Hy)).
    - cbn. now rewrite String.eqb_refl. }
  rewrite Hrest.
  split.
  { apply (completeHabit_found _ _ _ _ _ index h); [exact Hhabit|exact Hh]. }
  cbn. unfold completionOf. cbn [CompleteOptions.durationSeconds CompleteOptions.source].
  rewrite timer_duration. repeat split.
  unfold withoutHabit. apply filterb_all. intros y Hy.
  pose proof (proj1 (find_timing_None _ _) Hnone y Hy) as Hne.
  now rewrite (proj2 (String.eqb_neq _ _) Hne).
Qed.

Lemma start_then_stop_witness :
  exists session s1 c s2,
    startHabitTimer 8000000 "s2" "h2" Sample.store = (Ok session, s1)
    /\ stopHabitTimer 8090500 8090501 "c1" "h2" s1 = (Ok c, s2)
    /\ CompletionRecord.durationSeconds c = 90
    /\ sessions s2 = [Sample.running].
Proof.
  destruct (start_then_stop Sample.store 8000000 8090500 8090501 "s2" "c1" "h2" 1)
    as (session & s1 & c & s2 & Hstart & Hstop & Hc & Hs & _).
  - reflexivity.
  - reflexivity.
  - intros x Hx. apply list_elem_of_singleton in Hx as ->. discriminate.
  - exists session, s1, c, s2. repeat split; try assumption.
    rewrite Hc. reflexivity.
Defined.

(** X8. A completion discards the running timer of the habit: after a
    successful [completeHabit], [stopHabitTimer] for the habit fails with
    [NoActiveTimer] and changes nothing, and [startHabitTimer] opens a new
    session. *)
Theorem complete_discards_timer
    (s : Store) (now : Z) (newId habitId : string)
    (options : CompleteOptions.t) (index : nat) :
  findIndex (hasId habitId) (habits s) = Some index ->
  exists c s',
    completeHabit now newId habitId options s = (Ok c, s')
    /\ (forall x, x ∈ sessions s' <->
                  x ∈ sessions s /\ TimerSession.habitId x <> habitId)
    /\ (forall t t' newId',
           stopHabitTimer t t' newId' habitId s' = (Throw NoActiveTimer, s'))
    /\ (forall t newId',
           fst (startHabitTimer t newId' habitId s')
           = Ok (TimerSession.mk newId' habitId t)).
Proof.
  intros Hhabit. destruct (findIndex_Some _ _ _ Hhabit) as (h & Hh & _).
  eexists _, _. split; [apply (completeHabit_found _ _ _ _ _ _ _ Hhabit Hh)|].
  set (s' := mkStore _ _ _ _).
  assert (Hnone : find (timing habitId) (sessions s') = None).
  { apply find_timing_None. intros x. apply not_in_withoutHabit. }
  split; [|split].
  - intros x. unfold s'. cbn [sessions]. unfold withoutHabit.
    rewrite elem_of_filterb.
    split; intros [Hx Hne]; (split; [exact Hx|]).
    + apply String.eqb_neq. now destruct (String.eqb _ _).
    + apply String.eqb_neq in Hne. now rewrite Hne.
  - intros t t' newId'. now apply stopHabitTimer_no_session.
  - intros t newId'. now rewrite (startHabitTimer_new _ _ _ _ Hnone).
Qed.

Lemma complete_discards_timer_witness :
  exists c s',
    completeHabit 9000000 "c1" "h1" CompleteOptions.empty Sample.store = (Ok c, s')
    /\ stopHabitTimer 9000001 9000002 "c2" "h1" s' = (Throw NoActiveTimer, s').
Proof.
  destruct (complete_discards_timer Sample.store 9000000 "c1" "h1"
              CompleteOptions.empty 0 eq_refl)
    as (c & s' & Hrun & _ & Hstop & _).
  exists c, s'. split; [exact Hrun|apply Hstop].
Defined.

(** ** [upsertHabit] and [getHabit] *)

(** X9. An update looks the identifier up among all habits, archived ones
    included, and fails with [NotFound] exactly when none carries it,
    leaving the store as it was. Otherwise it replaces the record in place
    by one with the fields of the draft and the identifier, [createdAt],
    [dueAt], [lastCompletedAt], [lastReminderAt] and [archived] of the
    previous record: a changed interval does not move [dueAt]. Sessions
    and logs are untouched. *)
Theorem upsertHabit_update
    (s : Store) (now now' : Z) (newId : string) (draft : HabitDraft.t)
    (existing : string) :
  existing <> "" ->
  (fst (upsertHabit now now' newId draft (Some existing) s) = Throw NotFound
   <-> forall x, x ∈ habits s -> Habit.id x <> existing)
  /\ ((forall x, x ∈ habits s -> Habit.id x <> existing) ->
      upsertHabit now now' newId draft (Some existing) s = (Throw NotFound, s))
  /\ (forall index previous,
         findIndex (hasId existing) (habits s) = Some index ->
         habits s !! index = Some previous ->
         exists next,
           upsertHabit now now' newId draft (Some existing) s
           = (Ok next,
              mkStore (<[index := next]> (habits s))
                (sessions s) (completions s) (postpones s))
           /\ Habit.id next = Habit.id previous
           /\ Habit.createdAt next = Habit.createdAt previous
           /\ Habit.dueAt next = Habit.dueAt previous
           /\ Habit.lastCompletedAt next = Habit.lastCompletedAt previous
           /\ Habit.lastReminderAt next = Habit.lastReminderAt previous
           /\ Habit.archived next = Habit.archived previous
           /\ Habit.name next = HabitDraft.name draft
           /\ Habit.type next = HabitDraft.type draft
           /\ Habit.intervalMinutes next = HabitDraft.intervalMinutes draft
           /\ Habit.targetRepetitionsPerDay next
              = HabitDraft.targetRepetitionsPerDay draft
           /\ Habit.expectedDurationMinutes next
              = HabitDraft.expectedDurationMinutes draft
           /\ Habit.notes next = HabitDraft.notes draft).
Proof.
  intros Hne.
  assert (Hfail : (forall x, x ∈ habits s -> Habit.id x <> existing) ->
                  upsertHabit now now' newId draft (Some existing) s
                  = (Throw NotFound, s)).
  { intros H. apply upsertHabit_update_absent; [exact Hne|].
    now apply findIndex_hasId_None. }
  split; [split|split].
  - intros Hthrow.
    destruct (findIndex (hasId existing) (habits s)) as [i|] eqn:Hi.
    + destruct (findIndex_Some _ _ _ Hi) as (h & Hh & _).
      rewrite (upsertHabit_update_found _ _ _ _ _ _ _ _ Hne Hi Hh) in Hthrow.
      discriminate.
    + now apply findIndex_hasId_None.
  - intros H. now rewrite (Hfail H).
  - exact Hfail.
  - intros index previous Hi Hh. exists (updated draft previous).
    split; [now apply upsertHabit_update_found|]. repeat split.
Qed.

Lemma upsertHabit_update_witness :
  exists next s',
    upsertHabit 9000000 9000001 "n1" Sample.draft (Some "h1") Sample.archivedStore
    = (Ok next, s')
    /\ Habit.dueAt next = 3600000
    /\ Habit.intervalMinutes next = 45
    /\ Habit.archived next = true.
Proof.
  destruct (proj2 (proj2 (upsertHabit_update Sample.archivedStore 9000000 9000001
                            "n1" Sample.draft "h1" ltac:(discriminate)))
              0%nat Sample.archivedWater eq_refl eq_refl)
    as (next & Hrun & _ & _ & Hdue & _ & _ & Harch & _ & _ & Hint & _).
  exists next. eexists. split; [exact Hrun|].
  rewrite Hdue, Hint, Harch. repeat split.
Defined.

Lemma find_push {A} (p : A -> bool) (l : list A) (x : A) :
  find p (push l x)
  = match find p l with
    | Some y => Some y
    | None => if p x then Some x else None
    end.
Proof.
  unfold push. induction l as [|y l IH]; cbn; [reflexivity|].
  destruct (p y); [reflexivity|exact IH].
Qed.

(** X10. A create is read back by [getHabit]: under a fresh identifier the
    lookup of that identifier returns the habit just created, and the
    lookup of every other identifier returns what it returned before.
    [getHabit] does not filter on [archived] and returns nothing, without
    failing, for an identifier no record carries. *)
Theorem create_then_getHabit
    (s : Store) (now now' : Z) (newId : string) (draft : HabitDraft.t) :
  (forall x, x ∈ habits s -> Habit.id x <> newId) ->
  exists n s',
    upsertHabit now now' newId draft None s = (Ok n, s')
    /\ getHabit newId s = (Ok None, s)
    /\ getHabit newId s' = (Ok (Some n), s')
    /\ (forall other, other <> newId ->
          fst (getHabit other s') = fst (getHabit other s))
    /\ (forall h, h ∈ habits s -> NoDup (habitIds s) ->
          getHabit (Habit.id h) s = (Ok (Some h), s)).
Proof.
  intros Hfresh. eexists _, _. split; [apply upsertHabit_create|].
  assert (Hnone : find (hasId newId) (habits s) = None).
  { apply find_None. intros x Hx. unfold hasId. apply String.eqb_neq.
    now apply Hfresh. }
  unfold getHabit. run. fold (hasId newId). rewrite Hnone.
  split; [reflexivity|]. split; [|split].
  - fold (push (habits s) (created now now' newId draft)).
    rewrite (find_push (hasId newId)), Hnone. unfold hasId at 1. cbn.
    now rewrite String.eqb_refl.
  - intros other Hother. fold (hasId other).
    fold (push (habits s) (created now now' newId draft)).
    rewrite (find_push (hasId other)). unfold hasId at 2. cbn.
    rewrite (proj2 (String.eqb_neq _ _)) by congruence.
    now destruct (find (hasId other) (habits s)).
  - intros h Hh Hnodup. fold (hasId (Habit.id h)).
    destruct (findIndex_unique (habits s) h Hnodup Hh) as (i & Hi & Hlook).
    destruct (find (hasId (Habit.id h)) (habits s)) as [y|] eqn:Hfind.
    + f_equal. f_equal.
      apply find_Some in Hfind as [Hy Hid].
      apply list_elem_of_lookup in Hy as [j Hj].
      unfold hasId in Hid. apply String.eqb_eq in Hid.
      assert (i = j) as ->; [|congruence].
      apply (NoDup_lookup (map Habit.id (habits s)) i j (Habit.id h) Hnodup).
      * now rewrite list_lookup_fmap, Hlook.
      * now rewrite list_lookup_fmap, Hj, <- Hid.
    + exfalso. pose proof (proj1 (find_None _ _) Hfind h Hh) as Hp.
      unfold hasId in Hp. now rewrite String.eqb_refl in Hp.
Qed.

Lemma create_then_getHabit_witness :
  exists n s',
    upsertHabit 9000000 9000001 "h3" Sample.draft None Sample.store = (Ok n, s')
    /\ getHabit "h3" s' = (Ok (Some n), s').
Proof.
  destruct (create_then_getHabit Sample.store 9000000 9000001 "h3" Sample.draft)
    as (n & s' & Hrun & _ & Hget & _).
  - intros x Hx. cbn in Hx. apply elem_of_cons in Hx as [->|Hx]; [discriminate|].
    apply list_elem_of_singleton in Hx as ->. discriminate.
  - exists n, s'. split; [exact Hrun|exact Hget].
Defined.

(** * Time utilities *)

Lemma minutesBetween_div (startMs endMs : Z) :
  minutesBetween startMs endMs = Z.max 0 ((endMs - startMs) / 60000).
Proof.
  unfold minutesBetween, Math_floor. change 60000%Q with (inject_Z 60000).
  now rewrite <- Zdiv_Qdiv.
Qed.

Lemma secondsBetween_div (startMs endMs : Z) :
  secondsBetween startMs endMs = Z.max 0 ((endMs - startMs) / 1000).
Proof.
  unfold secondsBetween, Math_floor. change 1000%Q with (inject_Z 1000).
  now rewrite <- Zdiv_Qdiv.
Qed.

(** X11. [minutesBetween] and [secondsBetween] are the whole minutes and
    seconds from [start] to [end], and 0 when [end] is not after [start];
    the minutes are the seconds divided by 60, rounded down, and at least
    [k >= 1] minutes are counted exactly when [k] full minutes of
    milliseconds have passed. *)
Theorem time_differences (startMs endMs : Z) :
  0 <= minutesBetween startMs endMs
  /\ 0 <= secondsBetween startMs endMs
  /\ minutesBetween startMs endMs = secondsBetween startMs endMs / 60
  /\ (minutesBetween startMs endMs = 0 <-> endMs - startMs < 60000)
  /\ (secondsBetween startMs endMs = 0 <-> endMs - startMs < 1000)
  /\ (forall k, 1 <= k ->
        (k <= minutesBetween startMs endMs <-> k * 60000 <= endMs - startMs))
  /\ (forall k, 1 <= k ->
        (k <= secondsBetween startMs endMs <-> k * 1000 <= endMs - startMs)).
Proof.
  rewrite minutesBetween_div, secondsBetween_div.
  set (d := endMs - startMs).
  pose proof (Z.div_mod d 60000 ltac:(lia)) as Hm.
  pose proof (Z.mod_pos_bound d 60000 ltac:(lia)) as Hmb.
  pose proof (Z.div_mod d 1000 ltac:(lia)) as Hs.
  pose proof (Z.mod_pos_bound d 1000 ltac:(lia)) as Hsb.
  split; [lia|]. split; [lia|]. split.
  { destruct (Z.le_gt_cases 0 d) as [Hd|Hd].
    - assert (0 <= d / 1000) by (apply Z.div_pos; lia).
      assert (0 <= d / 60000) by (apply Z.div_pos; lia).
      rewrite (Z.max_r 0 (d / 1000)), (Z.max_r 0 (d / 60000)) by lia.
      rewrite Z.div_div by lia. reflexivity.
    - assert (d / 1000 < 0) by (apply Z.div_lt_upper_bound; lia).
      assert (d / 60000 < 0) by (apply Z.div_lt_upper_bound; lia).
      rewrite !Z.max_l by lia. reflexivity. }
  repeat split; intros; lia.
Qed.

Lemma formatDuration_parts (seconds : Q) :
  formatDuration seconds
  = let total := Z.max 0 (Qfloor seconds) in
    if 0 <? total / 3600
    then num (total / 3600) +:+ "h " +:+ num (total mod 3600 / 60) +:+ "m"
    else if 0 <? total mod 3600 / 60
         then num (total mod 3600 / 60) +:+ "m " +:+ num (total mod 60) +:+ "s"
         else num (total mod 60) +:+ "s".
Proof.
  unfold formatDuration, Math_floor.
  change 3600%Q with (inject_Z 3600). change 60%Q with (inject_Z 60).
  now rewrite <- !Zdiv_Qdiv.
Qed.

(** X12. [formatDuration] prints the whole seconds of its argument, 0 for
    a negative one, in the first tier that is not empty: hours and minutes
    from one hour on (the seconds are dropped), minutes and seconds from
    one minute on, seconds below. *)
Theorem formatDuration_tiers (seconds : Q) :
  let total := Z.max 0 (Qfloor seconds) in
  (3600 <= total ->
   formatDuration seconds
   = num (total / 3600) +:+ "h " +:+ num (total mod 3600 / 60) +:+ "m")
  /\ (60 <= total < 3600 ->
      formatDuration seconds
      = num (total / 60) +:+ "m " +:+ num (total mod 60) +:+ "s")
  /\ (total < 60 -> formatDuration seconds = num total +:+ "s")
  /\ ((seconds < 1)%Q -> formatDuration seconds = "0s")
  /\ total = 3600 * (total / 3600) + 60 * (total mod 3600 / 60) + total mod 60.
Proof.
  intros total. rewrite formatDuration_parts. cbv zeta. fold total.
  assert (Htotal : 0 <= total) by (unfold total; lia).
  pose proof (Z.div_mod total 3600 ltac:(lia)) as Hh.
  pose proof (Z.mod_pos_bound total 3600 ltac:(lia)) as Hhb.
  pose proof (Z.div_mod (total mod 3600) 60 ltac:(lia)) as Hm.
  pose proof (Z.mod_pos_bound (total mod 3600) 60 ltac:(lia)) as Hmb.
  assert (Hss : total mod 60 = (total mod 3600) mod 60).
  { rewrite Hh at 1. replace (3600 * (total / 3600) + total mod 3600)
      with (total mod 3600 + (60 * (total / 3600)) * 60) by lia.
    apply Z.mod_add. lia. }
  assert (Hhours : 0 <= total / 3600) by (apply Z.div_pos; lia).
  assert (Hmins : 0 <= total mod 3600 / 60) by (apply Z.div_pos; lia).
  split; [|split; [|split; [|split]]].
  - intros Hbig. destruct (Z.ltb_spec 0 (total / 3600)); [reflexivity|].
    assert (total / 3600 = 0) by lia. lia.
  - intros [Hlo Hhi]. rewrite (Z.div_small total 3600) by lia.
    rewrite (Z.mod_small total 3600) by lia. cbn [Z.ltb Z.compare].
    destruct (Z.ltb_spec 0 (total / 60)); [reflexivity|].
    assert (total / 60 = 0) as H0 by (pose proof (Z.div_pos total 60); lia).
    apply Z.div_small_iff in H0; lia.
  - intros Hsmall. rewrite (Z.div_small total 3600) by lia.
    rewrite (Z.mod_small total 3600) by lia.
    rewrite (Z.div_small total 60) by lia.
    rewrite (Z.mod_small total 60) by lia. reflexivity.
  - intros Hlt. assert (total = 0) as ->; [|reflexivity].
    unfold total. assert (Qfloor seconds < 1); [|lia].
    rewrite Zlt_Qlt. eapply Qle_lt_trans; [apply Qfloor_le|exact Hlt].
  - lia.
Qed.

Lemma formatDuration_tiers_witness :
  formatDuration 7384 = "2h 3m"
  /\ formatDuration (1255 # 10) = "2m 5s"
  /\ formatDuration 59 = "59s"
  /\ formatDuration (-4) = "0s".
Proof.
  split; [|split; [|split]].
  - etransitivity; [apply (proj1 (formatDuration_tiers 7384)); vm_compute; repeat split; (discriminate || reflexivity)|].
    vm_compute. reflexivity.
  - etransitivity;
      [apply (proj1 (proj2 (formatDuration_tiers (1255 # 10)))); vm_compute; repeat split; (discriminate || reflexivity)|].
    vm_compute. reflexivity.
  - etransitivity;
      [apply (proj1 (proj2 (proj2 (formatDuration_tiers 59)))); vm_compute; repeat split; (discriminate || reflexivity)|].
    vm_compute. reflexivity.
  - apply (proj1 (proj2 (proj2 (proj2 (formatDuration_tiers (-4)))))).
    reflexivity.
Defined.

(** * Background reminders *)

Lemma shouldNotify_true (h : Habit.t) (now throttle : Z) :
  1 <= throttle ->
  shouldNotify h now throttle = true
  <-> Habit.dueAt h <= now
      /\ forall last, Habit.lastReminderAt h = Some last ->
                      throttle * 60000 <= now - last.
Proof.
  intros Hthrottle. unfold shouldNotify.
  destruct (Z.ltb_spec now (Habit.dueAt h)) as [Hlt|Hge].
  - split; [discriminate|]. intros [Hdue _]. lia.
  - destruct (Habit.lastReminderAt h) as [last|].
    + rewrite minutesBetween_div.
      pose proof (Z.div_mod (now - last) 60000 ltac:(lia)) as Hm.
      pose proof (Z.mod_pos_bound (now - last) 60000 ltac:(lia)) as Hmb.
      destruct (Z.leb_spec throttle (Z.max 0 ((now - last) / 60000))) as [Hle|Hgt].
      * split; [|reflexivity]. intros _. split; [exact Hge|].
        intros ? [= <-]. lia.
      * split; [discriminate|]. intros [_ H]. specialize (H last eq_refl). lia.
    + split; [|reflexivity]. intros _. split; [exact Hge|]. discriminate.
Qed.

(** X13. For a throttle of at least one minute, [shouldNotify] holds
    exactly for a habit that is due ([dueAt <= now]) and either was never
    reminded or was last reminded at least the throttle, in full minutes,
    before [now]; a habit that is not yet due is never notified. *)
Theorem shouldNotify_due_and_throttled (h : Habit.t) (now throttle : Z) :
  1 <= throttle ->
  (shouldNotify h now throttle = true
   <-> Habit.dueAt h <= now
       /\ (Habit.lastReminderAt h = None
           \/ exists last, Habit.lastReminderAt h = Some last
                           /\ throttle * 60000 <= now - last))
  /\ (now < Habit.dueAt h -> shouldNotify h now throttle = false).
Proof.
  intros Hthrottle. split.
  - rewrite (shouldNotify_true h now throttle Hthrottle). split.
    + intros [Hdue Hlast]. split; [exact Hdue|].
      destruct (Habit.lastReminderAt h) as [last|]; [right|now left].
      exists last. split; [reflexivity|]. now apply Hlast.
    + intros [Hdue [Hnone|(last & Hsome & Hlast)]]; (split; [exact Hdue|]).
      * intros last Hsome. congruence.
      * intros last' Hsome'. congruence.
  - intros Hlt. unfold shouldNotify.
    destruct (Z.ltb_spec now (Habit.dueAt h)); [reflexivity|lia].
Qed.

Lemma shouldNotify_due_and_throttled_witness :
  shouldNotify Sample.water 3800000 5 = true
  /\ shouldNotify Sample.water 3799999 5 = false.
Proof.
  split.
  - apply (proj1 (shouldNotify_due_and_throttled Sample.water 3800000 5
                    ltac:(lia))).
    split; [cbn; lia|]. right. exists 3500000. split; [reflexivity|lia].
  - destruct (shouldNotify Sample.water 3799999 5) eqn:E; [|reflexivity].
    apply (proj1 (shouldNotify_due_and_throttled Sample.water 3799999 5
                    ltac:(lia))) in E.
    destruct E as [_ [E|(last & [= <-] & E)]]; [discriminate E|lia].
Defined.

(** X14. Completing or postponing a habit clears the reminder throttle and
    moves it out of the reminders: the stored habit is not notified at the
    clock reading of the operation (for a completion, the interval being
    positive), and from its new [dueAt] on it is notified whatever the
    throttle and whenever it was last reminded. *)
Theorem mutation_resets_reminder
    (s : Store) (now : Z) (newId habitId : string) (index : nat) (h : Habit.t) :
  findIndex (hasId habitId) (habits s) = Some index ->
  habits s !! index = Some h ->
  (forall options, exists h',
      habits (snd (completeHabit now newId habitId options s)) !! index = Some h'
      /\ (forall t throttle,
             shouldNotify h' t throttle = (Habit.dueAt h' <=? t))
      /\ (0 < Habit.intervalMinutes h ->
          forall throttle, shouldNotify h' now throttle = false))
  /\ (forall minutes, exists h',
      habits (snd (postponeHabit now newId habitId minutes s)) !! index = Some h'
      /\ (forall t throttle,
             shouldNotify h' t throttle = (Habit.dueAt h' <=? t))
      /\ (forall throttle, shouldNotify h' now throttle = false)).
Proof.
  intros Hfind Hlook.
  assert (Hlt : (index < length (habits s))%nat)
    by (eapply lookup_lt_Some; eassumption).
  assert (Hclear : forall h' t throttle,
             Habit.lastReminderAt h' = None ->
             shouldNotify h' t throttle = (Habit.dueAt h' <=? t)).
  { intros h' t throttle Hnone. unfold shouldNotify. rewrite Hnone.
    destruct (Z.ltb_spec t (Habit.dueAt h')), (Z.leb_spec (Habit.dueAt h') t);
      (reflexivity || lia). }
  split.
  - intros options. exists (completed now h).
    rewrite (completeHabit_found _ _ _ _ _ _ _ Hfind Hlook). cbn [snd habits].
    split; [now apply list_lookup_insert_eq|]. split.
    + intros t throttle. now apply Hclear.
    + intros Hpos throttle. rewrite Hclear by reflexivity. cbn.
      apply Z.leb_gt. lia.
  - intros minutes. exists (postponed now minutes h).
    rewrite (postponeHabit_found _ _ _ _ _ _ _ Hfind Hlook). cbn [snd habits].
    split; [now apply list_lookup_insert_eq|]. split.
    + intros t throttle. now apply Hclear.
    + intros throttle. rewrite Hclear by reflexivity. cbn.
      apply Z.leb_gt. pose proof (safeMinutes_ge_1 minutes).
      destruct (Z.ltb_spec now (Habit.dueAt h)); lia.
Qed.

Lemma mutation_resets_reminder_witness :
  exists h',
    habits (snd (postponeHabit 3800000 "p1" "h1" 15 Sample.store)) !! 0%nat
    = Some h'
    /\ shouldNotify h' 3800000 5 = false
    /\ shouldNotify h' 4700000 5 = true.
Proof.
  destruct (proj2 (mutation_resets_reminder Sample.store 3800000 "p1" "h1" 0
                     Sample.water eq_refl eq_refl) 15%Q)
    as (h' & Hh & Hall & Hnow).
  exists h'. split; [exact Hh|]. split; [apply Hnow|].
  rewrite Hall. cbn in Hh. injection Hh as <-. reflexivity.
Defined.

Lemma notRunning_true (l : list TimerSession.t) (h : Habit.t) :
  notRunning l h = true
  <-> forall x, x ∈ l -> TimerSession.habitId x <> Habit.id h.
Proof.
  unfold notRunning. rewrite negb_true_iff, bool_decide_eq_false.
  rewrite elem_of_list_to_set. split.
  - intros Hnot x Hx Heq. apply Hnot. rewrite <- Heq.
    apply list_elem_of_fmap. eauto.
  - intros H Hin. apply list_elem_of_fmap in Hin as (x & Heq & Hx).
    now apply (H x Hx).
Qed.

Lemma elem_of_eligibleHabits (now throttle : Z) (s : Store) (h : Habit.t) :
  h ∈ eligibleHabits now throttle s
  <-> h ∈ habits s /\ Habit.archived h = false
      /\ (forall x, x ∈ sessions s -> TimerSession.habitId x <> Habit.id h)
      /\ shouldNotify h now throttle = true.
Proof.
  unfold eligibleHabits.
  rewrite (elem_of_Permutation_proper _ _ _ (sort_Permutation by_dueAt _)).
  rewrite !elem_of_filterb, elem_of_activeHabits, notRunning_true. tauto.
Qed.

Lemma reminderCandidate_run (now throttle : Z) (s : Store) :
  reminderCandidate now throttle s = (Ok (head (eligibleHabits now throttle s)), s).
Proof. reflexivity. Qed.

Lemma head_sorted_least (l : list Habit.t) (c : Habit.t) :
  Sorted dueAt_le l -> head l = Some c ->
  forall h, h ∈ l -> Habit.dueAt c <= Habit.dueAt h.
Proof.
  intros Hs Hhead h Hh. destruct l as [|y l]; [discriminate|].
  injection Hhead as ->.
  apply Sorted_StronglySorted in Hs; [|intros a b d; unfold dueAt_le; lia].
  inversion Hs as [|? ? _ Hall]; subst.
  apply elem_of_cons in Hh as [->|Hh]; [lia|].
  rewrite Forall_forall in Hall. now apply Hall.
Qed.

(** X15. The habit the reminder command picks is, among the habits that
    are not archived, have no running timer and should be notified, one
    with the earliest [dueAt]; it is due. The command picks none exactly
    when no habit qualifies, and choosing does not change the store. *)
Theorem reminderCandidate_earliest (s : Store) (now throttle : Z) :
  exists candidate,
    reminderCandidate now throttle s = (Ok candidate, s)
    /\ (forall c, candidate = Some c ->
          c ∈ habits s
          /\ Habit.archived c = false
          /\ (forall x, x ∈ sessions s -> TimerSession.habitId x <> Habit.id c)
          /\ shouldNotify c now throttle = true
          /\ Habit.dueAt c <= now
          /\ forall h, h ∈ habits s -> Habit.archived h = false ->
               (forall x, x ∈ sessions s -> TimerSession.habitId x <> Habit.id h) ->
               shouldNotify h now throttle = true ->
               Habit.dueAt c <= Habit.dueAt h)
    /\ (candidate = None <->
        forall h, h ∈ habits s -> Habit.archived h = false ->
          (forall x, x ∈ sessions s -> TimerSession.habitId x <> Habit.id h) ->
          shouldNotify h now throttle = false).
Proof.
  exists (head (eligibleHabits now throttle s)).
  split; [apply reminderCandidate_run|]. split.
  - intros c Hc.
    assert (Hin : c ∈ eligibleHabits now throttle s).
    { destruct (eligibleHabits now throttle s) as [|y l]; [discriminate|].
      injection Hc as ->. left. }
    pose proof (proj1 (elem_of_eligibleHabits _ _ _ _) Hin)
      as (Hh & Harch & Hrun & Hnotify).
    repeat (split; [assumption|]). split.
    + unfold shouldNotify in Hnotify.
      destruct (Z.ltb_spec now (Habit.dueAt c)); [discriminate|lia].
    + intros h Hh' Harch' Hrun' Hnotify'.
      apply (head_sorted_least (eligibleHabits now throttle s)); [|exact Hc|].
      * apply sort_by_dueAt_Sorted.
      * apply elem_of_eligibleHabits. auto.
  - rewrite head_None. split.
    + intros Hnil h Hh Harch Hrun.
      destruct (shouldNotify h now throttle) eqn:Hn; [|reflexivity].
      assert (h ∈ eligibleHabits now throttle s) as Hin
        by (apply elem_of_eligibleHabits; auto).
      rewrite Hnil in Hin. inversion Hin.
    + intros Hnone. destruct (eligibleHabits now throttle s) as [|y l] eqn:E;
        [reflexivity|].
      assert (y ∈ eligibleHabits now throttle s) as Hin by (rewrite E; left).
      apply elem_of_eligibleHabits in Hin as (Hh & Harch & Hrun & Hnotify).
      rewrite (Hnone y Hh Harch Hrun) in Hnotify. discriminate.
Qed.




(** * Further properties of the daily score *)

Lemma computeDailyScore_run (s : Store) (dayStart now : Z) :
  computeDailyScore dayStart now s
  = (Ok (DailyScore.mk
           (averageOf (breakdownOf dayStart now s))
           (gradeFromScore (averageOf (breakdownOf dayStart now s)))
           (Z.of_nat (length (todayCompletionsOf dayStart now s)))
           (Math_round
              (fold_left
                 (fun total item =>
                    (total + inject_Z (CompletionRecord.durationSeconds item) / 60)%Q)
                 (todayCompletionsOf dayStart now s) 0%Q))
           (Z.of_nat (length (dueHabits (activeHabits s) now)))
           (breakdownOf dayStart now s)),
     s).
Proof.
  unfold computeDailyScore, listCompletions, listPostpones, listHabits.
  run. fold (activeHabits s).
  unfold breakdownOf, averageOf, todayCompletionsOf, todayPostponesOf, dueHabits.
  destruct (fold_left tallyCompletion _ (∅, ∅)) as [reps durs].
  reflexivity.
Qed.







(** X18. A day with no active habit is a perfect day: when every stored
    habit is archived (or none is stored), the overall score is 100 with
    grade ["S"], the breakdown is empty and nothing is due, whatever the
    logs hold; completions logged today are still counted. *)
Theorem computeDailyScore_no_active_habit (s : Store) (dayStart now : Z) :
  (forall h, h ∈ habits s -> Habit.archived h = true) ->
  exists ds,
    computeDailyScore dayStart now s = (Ok ds, s)
    /\ DailyScore.score ds = 100
    /\ DailyScore.grade ds = "S"
    /\ DailyScore.breakdown ds = []
    /\ DailyScore.dueNowCount ds = 0
    /\ DailyScore.completedCount ds
       = Z.of_nat (length (todayCompletionsOf dayStart now s)).
Proof.
  intros Harch. eexists. split; [apply computeDailyScore_run|].
  assert (Hnone : activeHabits s = []).
  { destruct (activeHabits s) as [|h l] eqn:E; [reflexivity|].
    assert (h ∈ activeHabits s) as Hh by (rewrite E; left).
    apply elem_of_activeHabits in Hh as [Hh Hf].
    rewrite (Harch h Hh) in Hf. discriminate. }
  cbn [DailyScore.score DailyScore.grade DailyScore.breakdown
       DailyScore.dueNowCount DailyScore.completedCount].
  unfold breakdownOf, dueHabits. rewrite Hnone. cbn. repeat split.
Qed.

Lemma computeDailyScore_no_active_habit_witness :
  exists ds,
    computeDailyScore 0 9000000 Sample.archivedStore = (Ok ds, Sample.archivedStore)
    /\ DailyScore.score ds = 100 /\ DailyScore.grade ds = "S".
Proof.
  destruct (computeDailyScore_no_active_habit Sample.archivedStore 0 9000000)
    as (ds & Hrun & Hscore & Hgrade & _).
  - intros h Hh. apply list_elem_of_singleton in Hh as ->. reflexivity.
  - exists ds. auto.
Defined.













(** * The dashboard views *)

Lemma filterb_map {A B} (f : A -> B) (p : B -> bool) (l : list A) :
  filterb p (map f l) = map f (filterb (fun x => p (f x)) l).
Proof.
  induction l as [|x l IH]; cbn; [reflexivity|].
  destruct (p (f x)); cbn; now rewrite IH.
Qed.

Lemma due_split (l : list Habit.t) (now : Z) :
  length (filterb (fun h => Habit.dueAt h <=? now) l)
  = (length (filterb (fun h => (Habit.dueAt h <? now)%Z) l)
     + length (filterb (fun h => (Habit.dueAt h =? now)%Z) l))%nat.
Proof.
  induction l as [|h l IH]; cbn; [reflexivity|].
  destruct (Z.leb_spec (Habit.dueAt h) now), (Z.ltb_spec (Habit.dueAt h) now),
    (Z.eqb_spec (Habit.dueAt h) now); cbn; lia.
Qed.

(** X21. The number of habits due now that the score reports is the length
    of the dashboard's Due Now section over the same listing. It counts a
    habit due exactly at [now], which the score does not treat as overdue:
    it is the number of overdue breakdowns plus the number of listed habits
    with [dueAt = now], and never more than the number of breakdowns. *)
Theorem dueNowCount_counts (s : Store) (dayStart now : Z) :
  exists ds,
    computeDailyScore dayStart now s = (Ok ds, s)
    /\ DailyScore.dueNowCount ds
       = Z.of_nat (length (dueHabits (activeHabits s) now))
    /\ DailyScore.dueNowCount ds
       = Z.of_nat (length (filterb DailyScoreHabitBreakdown.isOverdue
                             (DailyScore.breakdown ds)))
         + Z.of_nat (length (filterb (fun h => Habit.dueAt h =? now)
                               (activeHabits s)))
    /\ DailyScore.dueNowCount ds <= Z.of_nat (length (DailyScore.breakdown ds)).
Proof.
  eexists. split; [apply computeDailyScore_run|].
  cbn [DailyScore.dueNowCount DailyScore.breakdown].
  split; [reflexivity|]. split.
  - unfold breakdownOf. cbv zeta. rewrite filterb_map, length_map.
    cbn [habitScoreBreakdown DailyScoreHabitBreakdown.isOverdue].
    unfold dueHabits. rewrite due_split. lia.
  - unfold breakdownOf. cbv zeta. rewrite length_map. unfold dueHabits.
    pose proof (sublist_length _ _
                  (filterb_sublist (fun h => Habit.dueAt h <=? now) (activeHabits s))).
    lia.
Qed.

Lemma sorted_due_upcoming (l : list Habit.t) (now : Z) :
  StronglySorted dueAt_le l -> dueHabits l now ++ upcomingHabits l now = l.
Proof.
  unfold dueHabits, upcomingHabits.
  induction 1 as [|h l Hs IH Hall]; cbn; [reflexivity|].
  destruct (Z.leb_spec (Habit.dueAt h) now) as [Hle|Hgt].
  - destruct (Z.ltb_spec now (Habit.dueAt h)); [lia|]. cbn. now rewrite IH.
  - destruct (Z.ltb_spec now (Habit.dueAt h)); [|lia].
    assert (filterb (fun habit => Habit.dueAt habit <=? now) l = []) as ->.
    { destruct (filterb _ l) as [|y k] eqn:E; [reflexivity|].
      assert (y ∈ filterb (fun habit => Habit.dueAt habit <=? now) l) as Hy
        by (rewrite E; left).
      apply elem_of_filterb in Hy as [Hy Hp]. apply Z.leb_le in Hp.
      rewrite Forall_forall in Hall. specialize (Hall y Hy).
      unfold dueAt_le in Hall. lia. }
    cbn. f_equal. apply filterb_all. intros y Hy.
    rewrite Forall_forall in Hall. specialize (Hall y Hy).
    unfold dueAt_le in Hall. apply Z.ltb_lt. lia.
Qed.

(** X22. The Due Now and Upcoming sections of the dashboard split the
    listing of [listHabits(false)] in two without losing, repeating or
    reordering a habit: the due habits followed by the upcoming ones are
    the listing itself, every due habit comes before every upcoming one,
    and a habit due exactly at [now] is in the Due Now section. *)
Theorem dashboard_sections_split (s : Store) (now : Z) :
  dueHabits (activeHabits s) now ++ upcomingHabits (activeHabits s) now
  = activeHabits s
  /\ (forall h, h ∈ dueHabits (activeHabits s) now <->
                h ∈ activeHabits s /\ Habit.dueAt h <= now)
  /\ (forall h, h ∈ upcomingHabits (activeHabits s) now <->
                h ∈ activeHabits s /\ now < Habit.dueAt h)
  /\ (forall d u, d ∈ dueHabits (activeHabits s) now ->
                  u ∈ upcomingHabits (activeHabits s) now ->
                  Habit.dueAt d < Habit.dueAt u).
Proof.
  assert (Hdue : forall h, h ∈ dueHabits (activeHabits s) now <->
                           h ∈ activeHabits s /\ Habit.dueAt h <= now).
  { intros h. unfold dueHabits. rewrite elem_of_filterb. now rewrite Z.leb_le. }
  assert (Hup : forall h, h ∈ upcomingHabits (activeHabits s) now <->
                          h ∈ activeHabits s /\ now < Habit.dueAt h).
  { intros h. unfold upcomingHabits. rewrite elem_of_filterb. now rewrite Z.ltb_lt. }
  split; [|split; [exact Hdue|split; [exact Hup|]]].
  - apply sorted_due_upcoming. apply Sorted_StronglySorted.
    + intros a b c. unfold dueAt_le. lia.
    + apply sort_by_dueAt_Sorted.
  - intros d u Hd Hu. apply Hdue in Hd as [_ Hd]. apply Hup in Hu as [_ Hu]. lia.
Qed.

Lemma activeSessionByHabit_fold (l : list TimerSession.t)
    (m : gmap string TimerSession.t) (key : string) :
  NoDup (map TimerSession.habitId l) ->
  fold_left (fun map session => <[TimerSession.habitId session := session]> map) l m
    !! key
  = match find (timing key) l with
    | Some session => Some session
    | None => m !! key
    end.
Proof.
  revert m. induction l as [|x l IH]; intros m Hnodup; cbn [fold_left find];
    [reflexivity|].
  cbn in Hnodup. apply NoDup_cons in Hnodup as [Hx Hnodup].
  rewrite IH by exact Hnodup. unfold timing at 2.
  destruct (String.eqb_spec (TimerSession.habitId x) key) as [<-|Hne].
  - assert (find (timing (TimerSession.habitId x)) l = None) as ->.
    { apply find_timing_None. intros y Hy Heq. apply Hx. rewrite <- Heq.
      apply list_elem_of_fmap. eauto. }
    apply lookup_insert_eq.
  - destruct (find (timing key) l); [reflexivity|].
    now apply lookup_insert_ne.
Qed.

(** X23. With at most one session per habit, the session the dashboard
    shows for a habit is the session [startHabitTimer] returns and
    [stopHabitTimer] stops: the entry of [activeSessionByHabit] under an
    identifier is the first session of the collection with that
    [habitId], and there is none exactly when no session has it. *)
Theorem activeSessionByHabit_agrees (s : Store) (habitId : string) :
  oneSessionPerHabit s ->
  activeSessionByHabit (sessions s) !! habitId
  = find (timing habitId) (sessions s)
  /\ (activeSessionByHabit (sessions s) !! habitId = None
      <-> forall x, x ∈ sessions s -> TimerSession.habitId x <> habitId).
Proof.
  intros Hinv.
  assert (Heq : activeSessionByHabit (sessions s) !! habitId
                = find (timing habitId) (sessions s)).
  { unfold activeSessionByHabit.
    rewrite (activeSessionByHabit_fold _ _ _ Hinv), lookup_empty.
    now destruct (find (timing habitId) (sessions s)). }
  split; [exact Heq|]. rewrite Heq. apply find_timing_None.
Qed.

Lemma activeSessionByHabit_agrees_witness :
  activeSessionByHabit (sessions Sample.store) !! "h1" = Some Sample.running.
Proof.
  rewrite (proj1 (activeSessionByHabit_agrees Sample.store "h1"
                    ltac:(unfold oneSessionPerHabit; cbn; apply NoDup_singleton))).
  reflexivity.
Defined.

Lemma outside_day (dayStart now t : Z) :
  (t <? dayStart) || (now <? t) = negb (inDay dayStart now t).
Proof.
  unfold inDay.
  destruct (Z.ltb_spec t dayStart), (Z.leb_spec dayStart t),
    (Z.ltb_spec now t), (Z.leb_spec t now); cbn; (reflexivity || lia).
Qed.

Lemma completionStats_fold (l : list CompletionRecord.t)
    (m : gmap string CompletionStats.t) (dayStart now : Z) (key : string) :
  let stats (m : gmap string CompletionStats.t) :=
    default (CompletionStats.mk 0 0) (m !! key) in
  let result :=
    fold_left
      (fun byHabit entry =>
         let completed := CompletionRecord.completedAt entry in
         if (completed <? dayStart) || (now <? completed) then byHabit
         else
           let current :=
             default (CompletionStats.mk 0 0)
               (byHabit !! CompletionRecord.habitId entry) in
           <[CompletionRecord.habitId entry :=
               CompletionStats.mk (CompletionStats.count current + 1)
                 (CompletionStats.durationSeconds current
                  + CompletionRecord.durationSeconds entry)]> byHabit)
      l m in
  let today :=
    filterb (fun c => inDay dayStart now (CompletionRecord.completedAt c)
                      && String.eqb (CompletionRecord.habitId c) key) l in
  CompletionStats.count (stats result)
  = CompletionStats.count (stats m) + Z.of_nat (length today)
  /\ CompletionStats.durationSeconds (stats result)
     = CompletionStats.durationSeconds (stats m)
       + foldr Z.add 0 (map CompletionRecord.durationSeconds today).
Proof.
  cbv zeta. revert m. induction l as [|c l IH]; intros m.
  - cbn. lia.
  - cbn [fold_left filterb]. rewrite outside_day.
    destruct (inDay dayStart now (CompletionRecord.completedAt c)); cbn [negb andb].
    + destruct (IH (<[CompletionRecord.habitId c :=
                        CompletionStats.mk
                          (CompletionStats.count
                             (default (CompletionStats.mk 0 0)
                                (m !! CompletionRecord.habitId c)) + 1)
                          (CompletionStats.durationSeconds
                             (default (CompletionStats.mk 0 0)
                                (m !! CompletionRecord.habitId c))
                           + CompletionRecord.durationSeconds c)]> m))
        as [IHc IHd].
      rewrite IHc, IHd. clear IHc IHd.
      destruct (String.eqb_spec (CompletionRecord.habitId c) key) as [->|Hne].
      * rewrite !lookup_insert_eq. cbn. lia.
      * rewrite !lookup_insert_ne by exact Hne. split; reflexivity.
    + apply IH.
Qed.

Lemma postponeStats_fold (l : list PostponeRecord.t) (m : gmap string Z)
    (dayStart now : Z) (key : string) :
  default 0
    (fold_left
       (fun byHabit entry =>
          let postponed := PostponeRecord.postponedAt entry in
          if (postponed <? dayStart) || (now <? postponed) then byHabit
          else
            <[PostponeRecord.habitId entry :=
                default 0 (byHabit !! PostponeRecord.habitId entry) + 1]> byHabit)
       l m !! key)
  = default 0 (m !! key)
    + Z.of_nat
        (length
           (filterb (fun p => inDay dayStart now (PostponeRecord.postponedAt p)
                              && String.eqb (PostponeRecord.habitId p) key) l)).
Proof.
  revert m. induction l as [|p l IH]; intros m.
  - cbn. lia.
  - cbn [fold_left filterb]. rewrite outside_day.
    destruct (inDay dayStart now (PostponeRecord.postponedAt p)); cbn [negb andb].
    + rewrite IH.
      destruct (String.eqb_spec (PostponeRecord.habitId p) key) as [->|Hne].
      * rewrite lookup_insert_eq. cbn. lia.
      * rewrite lookup_insert_ne by exact Hne. reflexivity.
    + apply IH.
Qed.

(** X24. The per-habit counts of the dashboard agree with the ones of the
    score: for every identifier, the count of [completionStats] is the
    number of today's completions of the habit and its [durationSeconds]
    their whole seconds added up, the entry of [postponeStats] is the
    number of today's postpones, and each breakdown [computeDailyScore]
    returns carries these repetitions and postpones. *)
Theorem dashboard_stats_agree (s : Store) (dayStart now : Z) (key : string) :
  let stats :=
    default (CompletionStats.mk 0 0)
      (completionStats (completions s) dayStart now !! key) in
  let postponeCount := default 0 (postponeStats (postpones s) dayStart now !! key) in
  CompletionStats.count stats
  = Spec.todayCompletions dayStart now key (completions s)
  /\ CompletionStats.durationSeconds stats
     = foldr Z.add 0
         (map CompletionRecord.durationSeconds
            (filterb (fun c => inDay dayStart now (CompletionRecord.completedAt c)
                               && String.eqb (CompletionRecord.habitId c) key)
               (completions s)))
  /\ postponeCount = Spec.todayPostpones dayStart now key (postpones s)
  /\ (forall ds b,
        fst (Double.computeDailyScore dayStart now s) = Ok ds ->
        b ∈ Double.DailyScore.breakdown ds ->
        Double.DailyScoreHabitBreakdown.habitId b = key ->
        Double.DailyScoreHabitBreakdown.repetitions b = CompletionStats.count stats
        /\ Double.DailyScoreHabitBreakdown.postpones b = postponeCount).
Proof.
  intros stats postponeCount.
  destruct (completionStats_fold (completions s) ∅ dayStart now key) as [Hc Hd].
  cbv zeta in Hc, Hd. rewrite lookup_empty in Hc, Hd. cbn [default from_option
    CompletionStats.count CompletionStats.durationSeconds id] in Hc, Hd.
  fold (completionStats (completions s) dayStart now) in Hc, Hd.
  fold stats in Hc, Hd.
  assert (Hcount : CompletionStats.count stats
                   = Spec.todayCompletions dayStart now key (completions s)).
  { rewrite Hc. unfold Spec.todayCompletions. lia. }
  assert (Hpost : postponeCount
                  = Spec.todayPostpones dayStart now key (postpones s)).
  { unfold postponeCount, postponeStats. rewrite postponeStats_fold, lookup_empty.
    unfold Spec.todayPostpones. cbn. lia. }
  split; [exact Hcount|]. split; [rewrite Hd; lia|]. split; [exact Hpost|].
  intros ds b Hrun Hb Hkey.
  destruct (double_computeDailyScore_breakdown s dayStart now) as (ds' & Hrun' & Hb').
  rewrite Hrun' in Hrun. cbn in Hrun. injection Hrun as <-.
  rewrite Hb' in Hb. unfold doubleBreakdownOf in Hb. cbv zeta in Hb.
  apply list_elem_of_fmap in Hb as (h & -> & _).
  cbn [Double.habitScoreBreakdown Double.DailyScoreHabitBreakdown.habitId] in Hkey.
  subst key.
  destruct (double_tallies_totals s dayStart now (Habit.id h)) as (Hr & _ & Hp).
  cbn [Double.habitScoreBreakdown Double.DailyScoreHabitBreakdown.repetitions
       Double.DailyScoreHabitBreakdown.postpones].
  rewrite Hr, Hp, Hcount, Hpost. split; reflexivity.
Qed.

Lemma dashboard_stats_agree_witness :
  CompletionStats.count
    (default (CompletionStats.mk 0 0)
       (completionStats (completions Sample.scoredStore) 0 1800000 !! "h1")) = 2
  /\ default 0 (postponeStats (postpones Sample.scoredStore) 0 1800000 !! "h1") = 1
  /\ exists ds b,
       fst (Double.computeDailyScore 0 1800000 Sample.scoredStore) = Ok ds
       /\ Double.DailyScore.breakdown ds = [b]
       /\ Double.DailyScoreHabitBreakdown.repetitions b = 2
       /\ Double.DailyScoreHabitBreakdown.postpones b = 1.
Proof.
  destruct (dashboard_stats_agree Sample.scoredStore 0 1800000 "h1")
    as (Hcount & _ & Hpost & Hscore).
  split; [rewrite Hcount; reflexivity|].
  split; [rewrite Hpost; reflexivity|].
  destruct (double_computeDailyScore_breakdown Sample.scoredStore 0 1800000)
    as (ds & Hrun & Hb).
  exists ds, (Double.habitScoreBreakdown Sample.water 1800000
                (fst (fold_left Double.tallyCompletion
                        (todayCompletionsOf 0 1800000 Sample.scoredStore) (∅, ∅)))
                (snd (fold_left Double.tallyCompletion
                        (todayCompletionsOf 0 1800000 Sample.scoredStore) (∅, ∅)))
                (fold_left tallyPostpone
                   (todayPostponesOf 0 1800000 Sample.scoredStore) ∅)).
  split; [now rewrite Hrun|]. split; [rewrite Hb; reflexivity|].
  destruct (Hscore ds _ ltac:(now rewrite Hrun)
              ltac:(rewrite Hb; left) eq_refl) as [Hr Hp].
  rewrite Hr, Hp, Hcount, Hpost. split; reflexivity.
Defined.

(** * The order of the listing *)

Lemma sort_ties (l : list Habit.t) (d : Z) :
  (forall h, h ∈ l -> Habit.dueAt h = d) -> sort by_dueAt l = l.
Proof.
  induction l as [|x l IH]; intros Hall; cbn; [reflexivity|].
  rewrite IH by (intros h Hh; apply Hall; now right).
  apply sort_insert_first. intros z Hz. unfold dueAt_le.
  rewrite (Hall x) by left. rewrite (Hall z) by now right. lia.
Qed.

(** X25. [listHabits] returns, for either value of [includeArchived], the
    stored habits it keeps (all of them, or the ones not archived) in
    ascending order of [dueAt], each as often as it is stored, and habits
    with the same [dueAt] in the order they are stored; it does not change
    the store. *)
Theorem listHabits_order (s : Store) (includeArchived : bool) :
  let kept :=
    if includeArchived then habits s
    else filterb (fun habit => negb (Habit.archived habit)) (habits s) in
  exists listed,
    listHabits includeArchived s = (Ok listed, s)
    /\ Sorted dueAt_le listed
    /\ Permutation listed kept
    /\ (forall h, h ∈ listed <->
          h ∈ habits s /\ (includeArchived = true \/ Habit.archived h = false))
    /\ (forall d, filterb (fun h => Habit.dueAt h =? d) listed
                  = filterb (fun h => Habit.dueAt h =? d) kept).
Proof.
  intros kept. exists (sort by_dueAt kept).
  split; [unfold kept; now destruct includeArchived|].
  split; [apply sort_by_dueAt_Sorted|].
  split; [apply sort_Permutation|]. split.
  - intros h.
    rewrite (elem_of_Permutation_proper _ _ _ (sort_Permutation by_dueAt kept)).
    unfold kept. destruct includeArchived.
    + split; [intros Hh; split; [exact Hh|now left]|now intros [Hh _]].
    + rewrite elem_of_filterb. destruct (Habit.archived h); cbn.
      * split; [intros [_ H]; discriminate H|].
        intros [_ [H|H]]; discriminate H.
      * split; [intros [Hh _]; split; [exact Hh|now right]|].
        intros [Hh _]. now split.
  - intros d. rewrite <- sort_filterb. apply (sort_ties _ d).
    intros h Hh. apply elem_of_filterb in Hh as [_ Hd]. now apply Z.eqb_eq.
Qed.
